(** * SurfaceFlinger Scheduler: a shallow embedding and its properties

    The model follows [services/surfaceflinger/Scheduler/Scheduler.cpp].
    The scheduler is one C++ object; every member function becomes a
    function from the object's state to its new state (and a result,
    where the member function returns one or writes to systrace).

    The collaborators the scheduler only talks to through an interface
    ([DispSync], [EventThread], [EventControlThread]) are interfaces here
    as well: a type of states and the operations the scheduler calls. *)

From Stdlib Require Import ZArith Lia List Bool String.
From stdpp Require Import gmap strings list sorting.

Local Open Scope Z_scope.

(** ** Machine integers *)

(** [int64_t] arithmetic, two's complement: the value of a result that does
    not fit is reduced into [-2^63, 2^63). *)
Definition INT64_MIN : Z := - 2 ^ 63.
Definition INT64_MAX : Z := 2 ^ 63 - 1.

Definition wrap64 (z : Z) : Z := (z + 2 ^ 63) mod 2 ^ 64 - 2 ^ 63.

Definition in_int64 (z : Z) : Prop := INT64_MIN <= z <= INT64_MAX.

(** [size_t] arithmetic on an LP64 target. *)
Definition wrap_size_t (z : Z) : Z := z mod 2 ^ 64.

(** [nsecs_t] is [int64_t]; a millisecond is [1000000] of them. *)
Definition NS_PER_MS : Z := 1000000.

(** ** Systrace *)

(** [ATRACE_INT(name, value)] writes one counter sample. The model returns the
    samples a call writes, in order, next to the new state. *)
Inductive TraceEvent : Type :=
| ATRACE_INT (name : string) (value : Z).

#[global] Instance TraceEvent_eq_dec : EqDecision TraceEvent.
Proof. solve_decision. Defined.

(** ** Collaborators *)

(** [DispSync]: the timing model. [D] is the state of the object behind
    [mPrimaryDispSync]; the two sample operations answer whether hardware
    vsync is still needed. *)
Module DispSync.
Class Ops (D : Type) : Type := {
  beginResync : D -> D;
  endResync : D -> D;
  addResyncSample : Z -> D -> bool * D;
  addPresentFence : Z -> D -> bool * D;
  reset : D -> D;
  setPeriod : Z -> D -> D;
  computeNextRefresh : Z -> D -> Z;
  getPeriod : D -> Z;
  setIgnorePresentFences : bool -> D -> D;
  setRefreshSkipCount : Z -> D -> D
}.

(** A [DispSync*]: the address of a [DispSync] object. The scheduler owns
    one such object, the one behind [mPrimaryDispSync], and hands its
    address to the [DispSyncSource] of every event thread it makes. What a
    source asks of the object through that address is decided outside
    Scheduler.cpp; the state [D] kept in [mPrimaryDispSync] follows the
    requests the scheduler itself makes. *)
Inductive Ptr : Type :=
| primary.
End DispSync.

(** [EventThread]: the per-connection publisher. [T] is the state of a
    thread, [C] an event connection it hands out, [Cb] the callbacks it is
    constructed with. *)
Module EventThread.
Class Ops (T C Cb : Type) : Type := {
  (* impl::EventThread(DispSyncSource(dispSync, phaseOffsetNs, true,
     sourceName), resyncCallback, interceptCallback, threadName) *)
  make : DispSync.Ptr -> string -> Z -> Cb -> Cb -> string -> T;
  createEventConnection : T -> C * T;
  onHotplugReceived : Z -> bool -> T -> T;
  onScreenAcquired : T -> T;
  onScreenReleased : T -> T;
  dump : T -> string -> string;
  setPhaseOffset : Z -> T -> T
}.
End EventThread.

(** [EventControlThread]: the hardware toggle (EventControlThread.h is not
    part of the sources). *)
Module EventControlThread.

(** Modelled from the spec: the hardware toggle, consumed through
    [setVsyncEnabled(bool)] only. Its state is the list of the requests it
    has received, oldest first. *)
Definition t : Type := list bool.

(** Modelled from the spec: a toggle that has received no request. *)
Definition make : t := [].

(** Modelled from the spec: [setVsyncEnabled(bool)]. *)
Definition setVsyncEnabled (enabled : bool) (e : t) : t := e ++ [enabled].

End EventControlThread.

(** ** SchedulerUtils and LayerHistory *)

Module scheduler.

Definition sum_int64 (v : list Z) : Z := fold_left Z.add v 0.

(** Modelled from the spec: [scheduler::calculate_mean] (SchedulerUtils.h is
    not part of the sources). The spec calls it the arithmetic mean of the
    buffer; both callers store it in an [int64_t], so the model gives the
    mean as that integer, the exact quotient truncated toward zero. *)
Definition calculate_mean (v : list Z) : Z :=
  Z.quot (sum_int64 v) (Z.of_nat (length v)).

(** Modelled from the spec: [scheduler::calculate_median] (not part of the
    sources): "sort, take middle element"; for an even length the model
    takes the upper of the two middle elements (index [n / 2]). *)
Definition calculate_median (v : list Z) : Z :=
  nth (Nat.div (length v) 2) (merge_sort Z.le v) 0.

Definition occurrences (x : Z) (v : list Z) : nat :=
  length (filter (fun y => y = x) v).

(** Modelled from the spec: [scheduler::calculate_mode] (not part of the
    sources): "most frequent value; tie-break policy: lowest value wins". *)
Definition calculate_mode (v : list Z) : Z :=
  fold_left
    (fun best x =>
       if (occurrences best v <? occurrences x v)%nat then x else best)
    (merge_sort Z.le v) (hd 0 (merge_sort Z.le v)).

End scheduler.

(** [LayerHistory.h] and [LayerHistory.cpp] are not part of the sources; the
    scheduler uses [insert], [get], [getSize] and [incrementCounter] of the
    class. The history is the list of its slots, the current one first; a
    slot is the list of its entries in iteration order. *)
Module LayerHistory.

(** Modelled from the spec: a frame slot, "layer-name ->
    presentation-timestamp", in which "each layer name maps to at most one
    timestamp". *)
Definition Slot : Type := list (string * Z).

(** Modelled from the spec: [LayerHistory], "a bounded, indexable sequence of
    frame slot snapshots". *)
Definition t : Type := list Slot.

(** Modelled from the spec: the constructor; "size is fixed at
    construction", every slot is empty. *)
Definition make (size : nat) : t := replicate size [].

(** Modelled from the spec: [LayerHistory::getSize], the fixed number of
    slots. *)
Definition getSize (h : t) : Z := Z.of_nat (length h).

(** Modelled from the spec: a timestamp for a named layer goes into a slot;
    a layer that already has one in the slot keeps it, so that each name
    maps to at most one timestamp. *)
Definition slot_insert (layerName : string) (presentTime : Z) (s : Slot) : Slot :=
  if existsb (fun e => String.eqb (fst e) layerName) s then s
  else s ++ [(layerName, presentTime)].

(** Modelled from the spec: [LayerHistory::insert], "insertion appends a
    timestamp for a named layer into the current slot". *)
Definition insert (layerName : string) (presentTime : Z) (h : t) : t :=
  match h with
  | [] => []
  | current :: older => slot_insert layerName presentTime current :: older
  end.

(** Modelled from the spec: [LayerHistory::get], "read by index"; index 0 is
    the current slot, index [i] the slot [i] frames back. *)
Definition get (i : Z) (h : t) : Slot :=
  nth (Z.to_nat i) h [].

(** Modelled from the spec: [LayerHistory::incrementCounter], "slots age out
    implicitly as new ones are appended (ring-buffer semantics)": a new,
    empty current slot, and the oldest slot is gone. *)
Definition incrementCounter (h : t) : t :=
  match h with
  | [] => []
  | _ :: _ => [] :: removelast h
  end.

End LayerHistory.

(** ** The scheduler object *)

Section Model.

Context {D T C Cb : Type}.
Context `{!DispSync.Ops D} `{!EventThread.Ops T C Cb}.

(** [scheduler::ARRAY_SIZE] (SchedulerUtils.h is not part of the sources):
    the size of [mTimeDifferences] and of the layer history. *)
Variable ARRAY_SIZE : Z.

(** [Scheduler::Connection]. A [ConnectionHandle] is its [id]; an
    [sp<ConnectionHandle>] is an [option Z], [None] being [nullptr]. *)
Record Connection : Type := mkConnection {
  handle : Z;
  eventConnection : C;
  thread : T
}.

Definition set_thread (th : T) (c : Connection) : Connection :=
  mkConnection (handle c) (eventConnection c) th.

(** The members of [Scheduler] that the member functions of Scheduler.cpp
    read or write. [sNextId] is static: it is shared by every scheduler of
    the process. Scheduler.h is not part of the sources; the members of the
    analyzer have the types their use shows: [mPreviousFrameTimestamp] an
    [nsecs_t], [mTimeDifferences] an array of [ARRAY_SIZE] [int64_t]s,
    [mCounter] an unsigned index ([size_t]), [mSkipCount] an [int64_t]. *)
Record Scheduler : Type := mkScheduler {
  sNextId : Z;
  mConnections : gmap Z Connection;
  mPrimaryHWVsyncEnabled : bool;
  mHWVsyncAvailable : bool;
  mPrimaryDispSync : D;
  mEventControlThread : EventControlThread.t;
  mLayerHistory : LayerHistory.t;
  mSkipCount : Z;
  mPreviousFrameTimestamp : Z;
  mTimeDifferences : list Z;
  mCounter : Z
}.

Definition set_sNextId (v : Z) (s : Scheduler) : Scheduler :=
  mkScheduler v (mConnections s) (mPrimaryHWVsyncEnabled s)
    (mHWVsyncAvailable s) (mPrimaryDispSync s) (mEventControlThread s)
    (mLayerHistory s) (mSkipCount s) (mPreviousFrameTimestamp s)
    (mTimeDifferences s) (mCounter s).

Definition set_mConnections (v : gmap Z Connection) (s : Scheduler) : Scheduler :=
  mkScheduler (sNextId s) v (mPrimaryHWVsyncEnabled s)
    (mHWVsyncAvailable s) (mPrimaryDispSync s) (mEventControlThread s)
    (mLayerHistory s) (mSkipCount s) (mPreviousFrameTimestamp s)
    (mTimeDifferences s) (mCounter s).

Definition set_mPrimaryHWVsyncEnabled (v : bool) (s : Scheduler) : Scheduler :=
  mkScheduler (sNextId s) (mConnections s) v
    (mHWVsyncAvailable s) (mPrimaryDispSync s) (mEventControlThread s)
    (mLayerHistory s) (mSkipCount s) (mPreviousFrameTimestamp s)
    (mTimeDifferences s) (mCounter s).

Definition set_mHWVsyncAvailable (v : bool) (s : Scheduler) : Scheduler :=
  mkScheduler (sNextId s) (mConnections s) (mPrimaryHWVsyncEnabled s)
    v (mPrimaryDispSync s) (mEventControlThread s)
    (mLayerHistory s) (mSkipCount s) (mPreviousFrameTimestamp s)
    (mTimeDifferences s) (mCounter s).

Definition set_mPrimaryDispSync (v : D) (s : Scheduler) : Scheduler :=
  mkScheduler (sNextId s) (mConnections s) (mPrimaryHWVsyncEnabled s)
    (mHWVsyncAvailable s) v (mEventControlThread s)
    (mLayerHistory s) (mSkipCount s) (mPreviousFrameTimestamp s)
    (mTimeDifferences s) (mCounter s).

Definition set_mEventControlThread (v : EventControlThread.t) (s : Scheduler) : Scheduler :=
  mkScheduler (sNextId s) (mConnections s) (mPrimaryHWVsyncEnabled s)
    (mHWVsyncAvailable s) (mPrimaryDispSync s) v
    (mLayerHistory s) (mSkipCount s) (mPreviousFrameTimestamp s)
    (mTimeDifferences s) (mCounter s).

Definition set_mLayerHistory (v : LayerHistory.t) (s : Scheduler) : Scheduler :=
  mkScheduler (sNextId s) (mConnections s) (mPrimaryHWVsyncEnabled s)
    (mHWVsyncAvailable s) (mPrimaryDispSync s) (mEventControlThread s)
    v (mSkipCount s) (mPreviousFrameTimestamp s)
    (mTimeDifferences s) (mCounter s).

Definition set_mSkipCount (v : Z) (s : Scheduler) : Scheduler :=
  mkScheduler (sNextId s) (mConnections s) (mPrimaryHWVsyncEnabled s)
    (mHWVsyncAvailable s) (mPrimaryDispSync s) (mEventControlThread s)
    (mLayerHistory s) v (mPreviousFrameTimestamp s)
    (mTimeDifferences s) (mCounter s).

Definition set_mPreviousFrameTimestamp (v : Z) (s : Scheduler) : Scheduler :=
  mkScheduler (sNextId s) (mConnections s) (mPrimaryHWVsyncEnabled s)
    (mHWVsyncAvailable s) (mPrimaryDispSync s) (mEventControlThread s)
    (mLayerHistory s) (mSkipCount s) v
    (mTimeDifferences s) (mCounter s).

Definition set_mTimeDifferences (v : list Z) (s : Scheduler) : Scheduler :=
  mkScheduler (sNextId s) (mConnections s) (mPrimaryHWVsyncEnabled s)
    (mHWVsyncAvailable s) (mPrimaryDispSync s) (mEventControlThread s)
    (mLayerHistory s) (mSkipCount s) (mPreviousFrameTimestamp s)
    v (mCounter s).

Definition set_mCounter (v : Z) (s : Scheduler) : Scheduler :=
  mkScheduler (sNextId s) (mConnections s) (mPrimaryHWVsyncEnabled s)
    (mHWVsyncAvailable s) (mPrimaryDispSync s) (mEventControlThread s)
    (mLayerHistory s) (mSkipCount s) (mPreviousFrameTimestamp s)
    (mTimeDifferences s) v.

(** [Scheduler::Scheduler]: both hardware-vsync flags start false, the
    registry is empty, the analyzer's members are zero-initialised.
    [nextId] is the value the process-wide counter has at that moment
    ([0] for the first scheduler) and [dispSync] the initialised
    [impl::DispSync]. *)
Definition Scheduler_new (nextId : Z) (dispSync : D) : Scheduler :=
  mkScheduler nextId ∅ false false dispSync EventControlThread.make
    (LayerHistory.make (Z.to_nat ARRAY_SIZE)) 0 0
    (replicate (Z.to_nat ARRAY_SIZE) 0) 0.

(** *** Hardware vsync control (Scheduler.cpp, lines 146-209) *)

Definition getDisplayStatInfo (s : Scheduler) : Z * Z :=
  (DispSync.computeNextRefresh 0 (mPrimaryDispSync s),
   DispSync.getPeriod (mPrimaryDispSync s)).

Definition enableHardwareVsync (s : Scheduler) : Scheduler :=
  if negb (mPrimaryHWVsyncEnabled s) && mHWVsyncAvailable s then
    let s := set_mPrimaryDispSync (DispSync.beginResync (mPrimaryDispSync s)) s in
    let s := set_mEventControlThread
               (EventControlThread.setVsyncEnabled true (mEventControlThread s)) s in
    set_mPrimaryHWVsyncEnabled true s
  else s.

Definition disableHardwareVsync (makeUnavailable : bool) (s : Scheduler) : Scheduler :=
  let s :=
    if mPrimaryHWVsyncEnabled s then
      let s := set_mEventControlThread
                 (EventControlThread.setVsyncEnabled false (mEventControlThread s)) s in
      let s := set_mPrimaryDispSync (DispSync.endResync (mPrimaryDispSync s)) s in
      set_mPrimaryHWVsyncEnabled false s
    else s in
  if makeUnavailable then set_mHWVsyncAvailable false s else s.

Definition setVsyncPeriod (period : Z) (s : Scheduler) : Scheduler :=
  let s := set_mPrimaryDispSync (DispSync.reset (mPrimaryDispSync s)) s in
  let s := set_mPrimaryDispSync (DispSync.setPeriod period (mPrimaryDispSync s)) s in
  enableHardwareVsync s.

(** The block under the lock: the sample reaches [DispSync] only when
    hardware vsync is enabled. *)
Definition addResyncSample_locked (timestamp : Z) (s : Scheduler) : bool * Scheduler :=
  if mPrimaryHWVsyncEnabled s then
    let '(needsHwVsync, d) := DispSync.addResyncSample timestamp (mPrimaryDispSync s) in
    (needsHwVsync, set_mPrimaryDispSync d s)
  else (false, s).

Definition addResyncSample (timestamp : Z) (s : Scheduler) : Scheduler :=
  let '(needsHwVsync, s) := addResyncSample_locked timestamp s in
  if needsHwVsync then enableHardwareVsync s
  else disableHardwareVsync false s.

Definition addPresentFence (fenceTime : Z) (s : Scheduler) : Scheduler :=
  let '(needsHwVsync, d) := DispSync.addPresentFence fenceTime (mPrimaryDispSync s) in
  let s := set_mPrimaryDispSync d s in
  if needsHwVsync then enableHardwareVsync s
  else disableHardwareVsync false s.

Definition setIgnorePresentFences (ignore : bool) (s : Scheduler) : Scheduler :=
  set_mPrimaryDispSync (DispSync.setIgnorePresentFences ignore (mPrimaryDispSync s)) s.

Definition makeHWSyncAvailable (makeAvailable : bool) (s : Scheduler) : Scheduler :=
  set_mHWVsyncAvailable makeAvailable s.

(** *** The connection registry (Scheduler.cpp, lines 49-144) *)

(** [RETURN_VALUE_IF_INVALID] / [RETURN_IF_INVALID]:
    [handle == nullptr || mConnections.count(handle->id) == 0]. *)
Definition invalid (handle : option Z) (s : Scheduler) : bool :=
  match handle with
  | None => true
  | Some id => match mConnections s !! id with None => true | Some _ => false end
  end.

(** [mPrimaryDispSync.get()] *)
Definition mPrimaryDispSync_get (s : Scheduler) : DispSync.Ptr := DispSync.primary.

Definition makeEventThread (connectionName : string) (dispSync : DispSync.Ptr)
    (phaseOffsetNs : Z) (resyncCallback interceptCallback : Cb) : T :=
  let sourceName := (connectionName ++ "Source")%string in
  let threadName := (connectionName ++ "Thread")%string in
  EventThread.make dispSync sourceName phaseOffsetNs resyncCallback interceptCallback
    threadName.

(** [std::unordered_map::insert] keeps the element already stored under the
    key, if there is one. *)
Definition map_insert_new (id : Z) (c : Connection) (m : gmap Z Connection)
    : gmap Z Connection :=
  match m !! id with
  | Some _ => m
  | None => <[id := c]> m
  end.

Definition createConnection (connectionName : string) (phaseOffsetNs : Z)
    (resyncCallback interceptCallback : Cb) (s : Scheduler)
    : option Z * Scheduler :=
  let id := sNextId s in
  let s := set_sNextId (wrap64 (id + 1)) s in
  let eventThread :=
    makeEventThread connectionName (mPrimaryDispSync_get s) phaseOffsetNs resyncCallback
      interceptCallback in
  let '(ec, eventThread) := EventThread.createEventConnection eventThread in
  let connection := mkConnection id ec eventThread in
  let s := set_mConnections (map_insert_new id connection (mConnections s)) s in
  (handle <$> mConnections s !! id, s).

(** [mConnections[handle->id]->thread->f(...)] for an [f] that changes the
    thread: the connection stays under its key with the new thread. *)
Definition on_thread (id : Z) (f : T -> T) (s : Scheduler) : Scheduler :=
  match mConnections s !! id with
  | Some c => set_mConnections (<[id := set_thread (f (thread c)) c]> (mConnections s)) s
  | None => s
  end.

Definition createDisplayEventConnection (handle : option Z) (s : Scheduler)
    : option C * Scheduler :=
  if invalid handle s then (None, s) else
  match handle with
  | Some id =>
      match mConnections s !! id with
      | Some c =>
          let '(ec, th) := EventThread.createEventConnection (thread c) in
          (Some ec, on_thread id (fun _ => th) s)
      | None => (None, s)
      end
  | None => (None, s)
  end.

Definition getEventThread (handle : option Z) (s : Scheduler) : option T :=
  if invalid handle s then None else
  match handle with
  | Some id => thread <$> mConnections s !! id
  | None => None
  end.

Definition getEventConnection (handle : option Z) (s : Scheduler) : option C :=
  if invalid handle s then None else
  match handle with
  | Some id => eventConnection <$> mConnections s !! id
  | None => None
  end.

Definition hotplugReceived (handle : option Z) (displayType : Z) (connected : bool)
    (s : Scheduler) : Scheduler :=
  if invalid handle s then s else
  match handle with
  | Some id => on_thread id (EventThread.onHotplugReceived displayType connected) s
  | None => s
  end.

Definition onScreenAcquired (handle : option Z) (s : Scheduler) : Scheduler :=
  if invalid handle s then s else
  match handle with
  | Some id => on_thread id EventThread.onScreenAcquired s
  | None => s
  end.

Definition onScreenReleased (handle : option Z) (s : Scheduler) : Scheduler :=
  if invalid handle s then s else
  match handle with
  | Some id => on_thread id EventThread.onScreenReleased s
  | None => s
  end.

(** [dump] is const; it writes into the caller's [result]. *)
Definition dump (handle : option Z) (result : string) (s : Scheduler) : string :=
  if invalid handle s then result else
  match handle with
  | Some id =>
      match mConnections s !! id with
      | Some c => EventThread.dump (thread c) result
      | None => result
      end
  | None => result
  end.

Definition setPhaseOffset (handle : option Z) (phaseOffset : Z) (s : Scheduler)
    : Scheduler :=
  if invalid handle s then s else
  match handle with
  | Some id => on_thread id (EventThread.setPhaseOffset phaseOffset) s
  | None => s
  end.

(** *** Frame pacing analysis (Scheduler.cpp, lines 211-310) *)

Definition incrementFrameCounter (s : Scheduler) : Scheduler :=
  set_mLayerHistory (LayerHistory.incrementCounter (mLayerHistory s)) s.

Definition updateFrameSkipping (skipCount : Z) (s : Scheduler)
    : list TraceEvent * Scheduler :=
  let tr := [ATRACE_INT "FrameSkipCount" skipCount] in
  if Z.eqb (mSkipCount s) skipCount then (tr, s)
  else
    let s := set_mPrimaryDispSync
               (DispSync.setRefreshSkipCount skipCount (mPrimaryDispSync s)) s in
    (tr, set_mSkipCount skipCount s).

(** The body of the inner loop, for one entry of a slot. The loop state is
    [newestPresentTime] and [differencesMs]. *)
Definition walk_entry (layerName : string) (st : Z * list Z) (layer : string * Z)
    : Z * list Z :=
  let '(newestPresentTime, differencesMs) := st in
  if negb (String.eqb (fst layer) layerName) then st
  else
    let differenceMs := Z.quot (wrap64 (newestPresentTime - snd layer)) NS_PER_MS in
    let differencesMs :=
      if (10 <? differenceMs) && (differenceMs <? 60)
      then differencesMs ++ [differenceMs]
      else differencesMs in
    (snd layer, differencesMs).

(** [for (int i = 1; i < mLayerHistory.getSize(); i++)] *)
Definition walk_indices (h : LayerHistory.t) : list Z :=
  map Z.of_nat (seq 1 (Z.to_nat (LayerHistory.getSize h) - 1)).

Definition walk_history (layerName : string) (h : LayerHistory.t) (st : Z * list Z)
    : Z * list Z :=
  fold_left
    (fun st i => fold_left (walk_entry layerName) (LayerHistory.get i h) st)
    (walk_indices h) st.

(** What the second half of [determineLayerTimestampStats] writes for a
    list of differences. *)
Definition layer_stats_trace (layerName : string) (differencesMs : list Z)
    : list TraceEvent :=
  match differencesMs with
  | [] => []
  | _ :: _ =>
      let meanMs := scheduler.calculate_mean differencesMs in
      [ATRACE_INT ("TimestampMean_" ++ layerName) meanMs;
       ATRACE_INT ("TimestampMedian_" ++ layerName)
         (scheduler.calculate_median differencesMs);
       ATRACE_INT ("TimestampMode_" ++ layerName)
         (scheduler.calculate_mode differencesMs)]
  end.

Definition determineLayerTimestampStats (layerName : string) (framePresentTime : Z)
    (s : Scheduler) : list TraceEvent * Scheduler :=
  let s := set_mLayerHistory
             (LayerHistory.insert layerName framePresentTime (mLayerHistory s)) s in
  let '(_, differencesMs) :=
    walk_history layerName (mLayerHistory s) (framePresentTime, []) in
  (layer_stats_trace layerName differencesMs, s).

Definition determineTimestampAverage (isAutoTimestamp : bool) (framePresentTime : Z)
    (s : Scheduler) : list TraceEvent * Scheduler :=
  let tr := [ATRACE_INT "AutoTimestamp" (Z.b2z isAutoTimestamp)] in
  if isAutoTimestamp then (tr, s)
  else
    let differenceMs :=
      Z.quot (wrap64 (framePresentTime - mPreviousFrameTimestamp s)) NS_PER_MS in
    let s := set_mPreviousFrameTimestamp framePresentTime s in
    if (differenceMs <? 10) || (100 <? differenceMs) then (tr, s)
    else
      let tr := tr ++ [ATRACE_INT "TimestampDiff" differenceMs] in
      let s := set_mTimeDifferences
                 (<[Z.to_nat (mCounter s mod ARRAY_SIZE) := differenceMs]>
                    (mTimeDifferences s)) s in
      let s := set_mCounter (wrap_size_t (mCounter s + 1)) s in
      let mean := scheduler.calculate_mean (mTimeDifferences s) in
      let tr := tr ++ [ATRACE_INT "AutoTimestampMean" mean] in
      if (14 <? mean) && (mean <? 18) then (tr ++ [ATRACE_INT "FPS" 60], s)
      else if (31 <? mean) && (mean <? 34) then (tr ++ [ATRACE_INT "FPS" 30], s)
      else if (39 <? mean) && (mean <? 42) then (tr ++ [ATRACE_INT "FPS" 24], s)
      else (tr, s).

Definition addFramePresentTimeForLayer (framePresentTime : Z) (isAutoTimestamp : bool)
    (layerName : string) (s : Scheduler) : list TraceEvent * Scheduler :=
  let '(tr1, s) := determineTimestampAverage isAutoTimestamp framePresentTime s in
  let '(tr2, s) := determineLayerTimestampStats layerName framePresentTime s in
  (tr1 ++ tr2, s).

(** *** The calls that take a handle *)

(** The member functions that take a [ConnectionHandle], with their other
    arguments, and what each gives back to its caller. *)
Inductive HandleCall : Type :=
| CallCreateDisplayEventConnection
| CallGetEventThread
| CallGetEventConnection
| CallHotplugReceived (displayType : Z) (connected : bool)
| CallOnScreenAcquired
| CallOnScreenReleased
| CallSetPhaseOffset (phaseOffset : Z)
| CallDump (result : string).

Inductive HandleResult : Type :=
| DisplayEventConnection (c : option C)
| EventThreadPtr (t : option T)
| EventConnection (c : option C)
| Void
| Dumped (result : string).

Definition handle_call (handle : option Z) (c : HandleCall) (s : Scheduler)
    : HandleResult * Scheduler :=
  match c with
  | CallCreateDisplayEventConnection =>
      let '(r, s) := createDisplayEventConnection handle s in
      (DisplayEventConnection r, s)
  | CallGetEventThread => (EventThreadPtr (getEventThread handle s), s)
  | CallGetEventConnection => (EventConnection (getEventConnection handle s), s)
  | CallHotplugReceived d b => (Void, hotplugReceived handle d b s)
  | CallOnScreenAcquired => (Void, onScreenAcquired handle s)
  | CallOnScreenReleased => (Void, onScreenReleased handle s)
  | CallSetPhaseOffset p => (Void, setPhaseOffset handle p s)
  | CallDump result => (Dumped (dump handle result s), s)
  end.

(** What a call gives back when it did nothing: [nullptr], nothing, or the
    caller's string as it was. *)
Definition null_result (c : HandleCall) : HandleResult :=
  match c with
  | CallCreateDisplayEventConnection => DisplayEventConnection None
  | CallGetEventThread => EventThreadPtr None
  | CallGetEventConnection => EventConnection None
  | CallDump result => Dumped result
  | _ => Void
  end.

(** *** Sequences of calls *)

(** The calls a client of the scheduler can make on it that may change its
    state (the const member functions and the getters are left out). *)
Inductive Call : Type :=
| CreateConnection (connectionName : string) (phaseOffsetNs : Z)
    (resyncCallback interceptCallback : Cb)
| CreateDisplayEventConnection (handle : option Z)
| HotplugReceived (handle : option Z) (displayType : Z) (connected : bool)
| OnScreenAcquired (handle : option Z)
| OnScreenReleased (handle : option Z)
| SetPhaseOffset (handle : option Z) (phaseOffset : Z)
| EnableHardwareVsync
| DisableHardwareVsync (makeUnavailable : bool)
| SetVsyncPeriod (period : Z)
| AddResyncSample (timestamp : Z)
| AddPresentFence (fenceTime : Z)
| SetIgnorePresentFences (ignore : bool)
| MakeHWSyncAvailable (makeAvailable : bool)
| AddFramePresentTimeForLayer (framePresentTime : Z) (isAutoTimestamp : bool)
    (layerName : string)
| IncrementFrameCounter
| UpdateFrameSkipping (skipCount : Z).

(** One call: the handle a [createConnection] returns (none for the other
    calls) and the new state. *)
Definition call (c : Call) (s : Scheduler) : list (option Z) * Scheduler :=
  match c with
  | CreateConnection n p r i =>
      let '(h, s) := createConnection n p r i s in ([h], s)
  | CreateDisplayEventConnection h => ([], snd (createDisplayEventConnection h s))
  | HotplugReceived h d b => ([], hotplugReceived h d b s)
  | OnScreenAcquired h => ([], onScreenAcquired h s)
  | OnScreenReleased h => ([], onScreenReleased h s)
  | SetPhaseOffset h p => ([], setPhaseOffset h p s)
  | EnableHardwareVsync => ([], enableHardwareVsync s)
  | DisableHardwareVsync b => ([], disableHardwareVsync b s)
  | SetVsyncPeriod p => ([], setVsyncPeriod p s)
  | AddResyncSample t => ([], addResyncSample t s)
  | AddPresentFence f => ([], addPresentFence f s)
  | SetIgnorePresentFences b => ([], setIgnorePresentFences b s)
  | MakeHWSyncAvailable b => ([], makeHWSyncAvailable b s)
  | AddFramePresentTimeForLayer t a n => ([], snd (addFramePresentTimeForLayer t a n s))
  | IncrementFrameCounter => ([], incrementFrameCounter s)
  | UpdateFrameSkipping n => ([], snd (updateFrameSkipping n s))
  end.

(** A sequence of calls, with the handles returned along the way. *)
Fixpoint calls (cs : list Call) (s : Scheduler) : list (option Z) * Scheduler :=
  match cs with
  | [] => ([], s)
  | c :: cs =>
      let '(hs1, s) := call c s in
      let '(hs2, s) := calls cs s in
      (hs1 ++ hs2, s)
  end.

(** The states a sequence of calls goes through, one per call. *)
Fixpoint states (cs : list Call) (s : Scheduler) : list Scheduler :=
  match cs with
  | [] => []
  | c :: cs => let s := snd (call c s) in s :: states cs s
  end.

Definition is_create (c : Call) : bool :=
  match c with CreateConnection _ _ _ _ => true | _ => false end.

End Model.

Arguments Connection : clear implicits.
Arguments Scheduler : clear implicits.
Arguments Call : clear implicits.
Arguments HandleResult : clear implicits.

(** ** Test doubles for the collaborators *)

(** A [DispSync] that records what it is asked, oldest first, and takes its
    answers from a script (an exhausted script answers false). *)
Module RecordingDispSync.

Inductive Request : Type :=
| BeginResync
| EndResync
| AddResyncSample (timestamp : Z)
| AddPresentFence (fenceTime : Z)
| ResetModel
| SetPeriod (period : Z)
| SetIgnorePresentFences (ignore : bool)
| SetRefreshSkipCount (count : Z).

Record t : Type := mk {
  received : list Request;
  script : list bool;
  period : Z
}.

Definition record (r : Request) (d : t) : t :=
  mk (received d ++ [r]) (script d) (period d).

Definition answer (r : Request) (d : t) : bool * t :=
  (hd false (script d), mk (received d ++ [r]) (tl (script d)) (period d)).

Definition make (script : list bool) : t := mk [] script 0.

#[global] Instance ops : DispSync.Ops t := {|
  DispSync.beginResync := record BeginResync;
  DispSync.endResync := record EndResync;
  DispSync.addResyncSample ts := answer (AddResyncSample ts);
  DispSync.addPresentFence f := answer (AddPresentFence f);
  DispSync.reset := record ResetModel;
  DispSync.setPeriod p d := mk (received d ++ [SetPeriod p]) (script d) p;
  DispSync.computeNextRefresh off d := off + period d;
  DispSync.getPeriod := period;
  DispSync.setIgnorePresentFences b := record (SetIgnorePresentFences b);
  DispSync.setRefreshSkipCount n := record (SetRefreshSkipCount n)
|}.

End RecordingDispSync.

(** An [EventThread] that records what it is told; the connections it hands
    out are numbered. *)
Module RecordingEventThread.

Inductive Request : Type :=
| OnHotplugReceived (displayType : Z) (connected : bool)
| OnScreenAcquired
| OnScreenReleased
| SetPhaseOffset (phaseOffset : Z).

Record t : Type := mk {
  threadName : string;
  sourceName : string;
  phaseOffset : Z;
  connections : nat;
  received : list Request
}.

Definition record (r : Request) (th : t) : t :=
  mk (threadName th) (sourceName th) (phaseOffset th) (connections th)
     (received th ++ [r]).

#[global] Instance ops : EventThread.Ops t (string * nat) unit := {|
  EventThread.make _ src off _ _ name := mk name src off 0 [];
  EventThread.createEventConnection th :=
    ((threadName th, connections th),
     mk (threadName th) (sourceName th) (phaseOffset th) (S (connections th))
        (received th));
  EventThread.onHotplugReceived d b := record (OnHotplugReceived d b);
  EventThread.onScreenAcquired := record OnScreenAcquired;
  EventThread.onScreenReleased := record OnScreenReleased;
  EventThread.dump th result := (result ++ threadName th)%string;
  EventThread.setPhaseOffset p th :=
    mk (threadName th) (sourceName th) p (connections th)
       (received th ++ [SetPhaseOffset p])
|}.

End RecordingEventThread.

(** A scheduler built on the two test doubles. *)
Abbreviation TestScheduler :=
  (Scheduler RecordingDispSync.t RecordingEventThread.t (string * nat)).

Definition test_scheduler (ARRAY_SIZE nextId : Z) (script : list bool) : TestScheduler :=
  Scheduler_new ARRAY_SIZE nextId (RecordingDispSync.make script).

(** ** Vocabulary of the properties *)

Section Vocabulary.

Context {D T C Cb : Type}.
Context `{!DispSync.Ops D} `{!EventThread.Ops T C Cb}.
Variable ARRAY_SIZE : Z.

Abbreviation State := (Scheduler D T C).

(** The relation between the two flags the hardware controller is meant to
    keep. *)
Definition hw_invariant (s : State) : Prop :=
  mPrimaryHWVsyncEnabled s = true -> mHWVsyncAvailable s = true.

(** [makeHWSyncAvailable(false)] is the one call that can take availability
    away without disabling first; a sequence is [available_guarded] when it
    makes that call only while hardware vsync is disabled. *)
Definition call_guarded (c : Call Cb) (s : State) : bool :=
  match c with
  | MakeHWSyncAvailable false => negb (mPrimaryHWVsyncEnabled s)
  | _ => true
  end.

Fixpoint available_guarded (cs : list (Call Cb)) (s : State) : bool :=
  match cs with
  | [] => true
  | c :: cs => call_guarded c s && available_guarded cs (snd (call ARRAY_SIZE c s))
  end.

(** Every [addResyncSample] of the sequence is told by [DispSync] that
    hardware vsync is still needed. *)
Fixpoint all_need_more (timestamps : list Z) (s : State) : Prop :=
  match timestamps with
  | [] => True
  | t :: ts =>
      fst (addResyncSample_locked t s) = true /\ all_need_more ts (addResyncSample t s)
  end.

(** The states a run of [addResyncSample] calls goes through. *)
Fixpoint resync_states (timestamps : list Z) (s : State) : list State :=
  match timestamps with
  | [] => []
  | t :: ts => addResyncSample t s :: resync_states ts (addResyncSample t s)
  end.

(** A handle that no connection answers to: [nullptr], or an id that is not
    a key of the registry. *)
Definition unknown_handle (handle : option Z) (s : State) : Prop :=
  handle = None \/ exists id, handle = Some id /\ mConnections s !! id = None.

(** Every connection of the registry is stored under the id of its own
    handle. *)
Definition handles_match_keys (s : State) : Prop :=
  forall k c, mConnections s !! k = Some c -> handle c = k.

(** The number of [createConnection] calls in a sequence. *)
Definition creations (cs : list (Call Cb)) : Z :=
  Z.of_nat (length (List.filter is_create cs)).

(** The difference the global analyzer computes for a frame, in
    milliseconds: [(framePresentTime - mPreviousFrameTimestamp) / 1000000]. *)
Definition differenceMs (framePresentTime : Z) (s : State) : Z :=
  Z.quot (wrap64 (framePresentTime - mPreviousFrameTimestamp s)) NS_PER_MS.

(** A frame is sampled when its timestamp is not an automatic one and its
    difference is inside the band the analyzer keeps. *)
Definition sampled (isAutoTimestamp : bool) (framePresentTime : Z) (s : State) : Prop :=
  isAutoTimestamp = false /\ 10 <= differenceMs framePresentTime s <= 100.

(** The state a sampled frame leaves: the difference stored at the write
    position, the counter advanced, the frame's time as the new baseline. *)
Definition sampled_state (framePresentTime : Z) (s : State) : State :=
  let d := differenceMs framePresentTime s in
  let s := set_mPreviousFrameTimestamp framePresentTime s in
  let s := set_mTimeDifferences
             (<[Z.to_nat (mCounter s mod ARRAY_SIZE) := d]> (mTimeDifferences s)) s in
  set_mCounter (wrap_size_t (mCounter s + 1)) s.

(** The values of the ["FPS"] samples in a trace: the buckets emitted. *)
Definition emitted_fps (tr : list TraceEvent) : list Z :=
  flat_map (fun e => match e with
                     | ATRACE_INT name v => if String.eqb name "FPS" then [v] else []
                     end) tr.

(** The timestamps a layer has in a run of slots, in the order the walk
    meets them. *)
Definition slot_entries (layerName : string) (slot : LayerHistory.Slot) : list Z :=
  map snd (List.filter (fun e => String.eqb (fst e) layerName) slot).

Definition layer_entries (layerName : string) (slots : list LayerHistory.Slot) : list Z :=
  flat_map (slot_entries layerName) slots.

(** The spec's "consecutive-own-entries delta": each entry against the one
    seen just before it, the first against the incoming frame, in
    milliseconds. *)
Fixpoint consecutive_diffs (newest : Z) (entries : list Z) : list Z :=
  match entries with
  | [] => []
  | e :: es => Z.quot (wrap64 (newest - e)) NS_PER_MS :: consecutive_diffs e es
  end.

(** "Strictly between 10 and 60 ms". *)
Definition in_layer_band (d : Z) : bool := (10 <? d) && (d <? 60).

(** [differencesMs] at the end of the walk of [determineLayerTimestampStats]. *)
Definition layer_differences (layerName : string) (framePresentTime : Z) (s : State)
    : list Z :=
  snd (walk_history layerName
         (LayerHistory.insert layerName framePresentTime (mLayerHistory s))
         (framePresentTime, [])).

(** Four frames of one layer, presented at 0, 16, 33 and 49 ms, each in a
    frame slot of its own: the state before the fourth is analysed. *)
Definition three_frames_presented (layerName : string) (s : State) : State :=
  let s := snd (determineLayerTimestampStats layerName 0 s) in
  let s := incrementFrameCounter s in
  let s := snd (determineLayerTimestampStats layerName (16 * NS_PER_MS) s) in
  let s := incrementFrameCounter s in
  let s := snd (determineLayerTimestampStats layerName (33 * NS_PER_MS) s) in
  incrementFrameCounter s.

(** Two states with the same registry and the same counter. *)
Definition same_registry (s s' : State) : Prop :=
  sNextId s' = sNextId s /\ mConnections s' = mConnections s.

(** *** The members by concern *)

(** The members the hardware-vsync functions work on: the two flags, the
    hardware toggle, the timing model and the skip count last sent to it. *)
Definition hw_part (s : State) : bool * bool * EventControlThread.t * D * Z :=
  (mPrimaryHWVsyncEnabled s, mHWVsyncAvailable s, mEventControlThread s,
   mPrimaryDispSync s, mSkipCount s).

(** Of these, the members that only the scheduler holds: the timing model
    is left out, since every event thread is given its address. *)
Definition hw_own_part (s : State) : bool * bool * EventControlThread.t * Z :=
  (mPrimaryHWVsyncEnabled s, mHWVsyncAvailable s, mEventControlThread s, mSkipCount s).

(** The id counter and the connections. *)
Definition registry_part (s : State) : Z * gmap Z (Connection T C) :=
  (sNextId s, mConnections s).

(** The members of the frame pacing analysis. *)
Definition analyzer_part (s : State) : LayerHistory.t * Z * list Z * Z :=
  (mLayerHistory s, mPreviousFrameTimestamp s, mTimeDifferences s, mCounter s).

Definition registry_call (c : Call Cb) : bool :=
  match c with
  | CreateConnection _ _ _ _ | CreateDisplayEventConnection _
  | HotplugReceived _ _ _ | OnScreenAcquired _ | OnScreenReleased _
  | SetPhaseOffset _ _ => true
  | _ => false
  end.

Definition analyzer_call (c : Call Cb) : bool :=
  match c with
  | AddFramePresentTimeForLayer _ _ _ | IncrementFrameCounter => true
  | _ => false
  end.

Definition hw_call (c : Call Cb) : bool :=
  negb (registry_call c) && negb (analyzer_call c).

(** What [DispSync] is asked by the hardware-vsync functions outside the two
    resync brackets: the transitions of its state that are neither
    [beginResync] nor [endResync] (nor the [setRefreshSkipCount] of
    [updateFrameSkipping]). *)
Inductive dispSync_request : D -> D -> Prop :=
| request_reset d : dispSync_request d (DispSync.reset d)
| request_setPeriod p d : dispSync_request d (DispSync.setPeriod p d)
| request_setIgnorePresentFences b d :
    dispSync_request d (DispSync.setIgnorePresentFences b d)
| request_addResyncSample t d :
    dispSync_request d (snd (DispSync.addResyncSample t d))
| request_addPresentFence f d :
    dispSync_request d (snd (DispSync.addPresentFence f d)).

(** *** The registry *)

(** Every connection of [s] is still registered in [s'], under the same id,
    with the handle and the event connection it had. *)
Definition connections_persist (s s' : State) : Prop :=
  forall k c, mConnections s !! k = Some c ->
    exists c', mConnections s' !! k = Some c' /\
               handle c' = handle c /\ eventConnection c' = eventConnection c.

(** What a call with a handle asks of the connection's [EventThread]: the
    state the thread is left in. *)
Definition thread_after (c : HandleCall) (th : T) : T :=
  match c with
  | CallCreateDisplayEventConnection => snd (EventThread.createEventConnection th)
  | CallHotplugReceived d b => EventThread.onHotplugReceived d b th
  | CallOnScreenAcquired => EventThread.onScreenAcquired th
  | CallOnScreenReleased => EventThread.onScreenReleased th
  | CallSetPhaseOffset p => EventThread.setPhaseOffset p th
  | CallGetEventThread | CallGetEventConnection | CallDump _ => th
  end.

(** What a call with the handle of connection [conn] gives back. *)
Definition result_for (c : HandleCall) (conn : Connection T C) : HandleResult T C :=
  match c with
  | CallCreateDisplayEventConnection =>
      DisplayEventConnection (Some (fst (EventThread.createEventConnection (thread conn))))
  | CallGetEventThread => EventThreadPtr (Some (thread conn))
  | CallGetEventConnection => EventConnection (Some (eventConnection conn))
  | CallDump result => Dumped (EventThread.dump (thread conn) result)
  | _ => Void
  end.

(** *** Runs of the global analyzer *)

(** A run of frames with content timestamps through the global analyzer. *)
Fixpoint analyze_frames (timestamps : list Z) (s : State) : State :=
  match timestamps with
  | [] => s
  | t :: ts => analyze_frames ts (snd (determineTimestampAverage ARRAY_SIZE false t s))
  end.

(** Every frame of the run comes [d] milliseconds after the one before it,
    as the analyzer computes the difference. *)
Fixpoint steady_rate (d : Z) (timestamps : list Z) (s : State) : Prop :=
  match timestamps with
  | [] => True
  | t :: ts =>
      differenceMs t s = d /\
      steady_rate d ts (snd (determineTimestampAverage ARRAY_SIZE false t s))
  end.

(** *** The shared id counter *)

(** [sNextId] is static: every scheduler of the process draws its ids from
    it. A step in the life of one scheduler is a call on it, or a
    [createConnection] on another scheduler of the process, which takes the
    counter's value and advances the counter ([sNextId++]) and touches
    nothing else of this scheduler. *)
Inductive Step : Type :=
| Own (c : Call Cb)
| Elsewhere.

Definition step (st : Step) (s : State) : list (option Z) * State :=
  match st with
  | Own c => call ARRAY_SIZE c s
  | Elsewhere => ([], set_sNextId (wrap64 (sNextId s + 1)) s)
  end.

(** A sequence of steps, with the handles returned to this scheduler. *)
Fixpoint steps (sts : list Step) (s : State) : list (option Z) * State :=
  match sts with
  | [] => ([], s)
  | st :: sts =>
      let '(hs1, s) := step st s in
      let '(hs2, s) := steps sts s in
      (hs1 ++ hs2, s)
  end.

(** The steps that are a [createConnection] on this scheduler, and those
    that take an id from the counter, here or elsewhere. *)
Definition own_create (st : Step) : bool :=
  match st with Own c => is_create c | Elsewhere => false end.

Definition draws_id (st : Step) : bool :=
  match st with Own c => is_create c | Elsewhere => true end.

Definition own_creations (sts : list Step) : Z :=
  Z.of_nat (length (List.filter own_create sts)).

Definition draws (sts : list Step) : Z :=
  Z.of_nat (length (List.filter draws_id sts)).

End Vocabulary.

Arguments Step : clear implicits.

(** ** Scenarios *)

(** A scheduler with hardware vsync enabled, whose [DispSync] will ask for
    more samples three times. *)
Definition resyncing_scheduler : TestScheduler :=
  snd (calls (Cb := unit) 8 [MakeHWSyncAvailable true; EnableHardwareVsync]
         (test_scheduler 8 0 [true; true; true])).

(** A scheduler with two connections, whose handles are 0 and 1. *)
Definition two_connections : TestScheduler :=
  snd (calls 8 [CreateConnection "app" 1000000 tt tt; CreateConnection "sf" 6000000 tt tt]
         (test_scheduler 8 0 [])).

(** [n] frames with content timestamps, [ms] milliseconds apart, through the
    global analyzer of a new scheduler with a buffer of eight. *)
Definition frames_every (ms : Z) (n : nat) : TestScheduler :=
  fold_left
    (fun s k => snd (determineTimestampAverage 8 false (Z.of_nat k * ms * NS_PER_MS) s))
    (seq 1 n) (test_scheduler 8 0 []).

(** The resync brackets in what a recording [DispSync] has received:
    [true] for a [beginResync], [false] for an [endResync]. *)
Definition resync_log (requests : list RecordingDispSync.Request) : list bool :=
  flat_map (fun r => match r with
                     | RecordingDispSync.BeginResync => [true]
                     | RecordingDispSync.EndResync => [false]
                     | _ => []
                     end) requests.

(** The requests a recording [DispSync] has received that change its skip
    count. *)
Definition skip_count_requests (requests : list RecordingDispSync.Request) : list Z :=
  flat_map (fun r => match r with
                     | RecordingDispSync.SetRefreshSkipCount n => [n]
                     | _ => []
                     end) requests.

(** Every value of the list differs from the one before it, the first from
    [previous]. *)
Fixpoint each_differs (previous : Z) (l : list Z) : Prop :=
  match l with
  | [] => True
  | x :: l => x <> previous /\ each_differs x l
  end.

(** The second connection of [two_connections]. *)
Definition sf_connection : Connection RecordingEventThread.t (string * nat) :=
  mkConnection 1 ("sfThread", 0%nat)
    (RecordingEventThread.mk "sfThread" "sfSource" 6000000 1 []).

(** A scheduler with hardware vsync enabled, whose [DispSync] will answer
    the next sample with "no more needed". *)
Definition locking_scheduler : TestScheduler :=
  snd (calls (Cb := unit) 8 [MakeHWSyncAvailable true; EnableHardwareVsync]
         (test_scheduler 8 0 [false])).

(** The times of [n] frames, [ms] milliseconds apart, the first at [ms]. *)
Definition frame_times (ms : Z) (n : nat) : list Z :=
  map (fun k => Z.of_nat k * ms * NS_PER_MS) (seq 1 n).

(** The times of seven frames, the first four 14 ms apart and the next
    three 15 ms apart; an eighth frame 15 ms later comes at 116 ms. *)
Definition slowing_frames : list Z :=
  map (fun ms => ms * NS_PER_MS) [14; 28; 42; 56; 71; 86; 101].

(** * Properties *)

(** ** Hardware vsync control *)

Section HardwareVsync.

Context {D T C Cb : Type}.
Context `{!DispSync.Ops D} `{!EventThread.Ops T C Cb}.
Variable ARRAY_SIZE : Z.

Abbreviation State := (Scheduler D T C).

Ltac flags s :=
  destruct s as [? ? en av ? ? ? ? ? ? ?]; cbn in *; destruct en, av; cbn in *.

Lemma enableHardwareVsync_invariant (s : State) :
  hw_invariant s -> hw_invariant (enableHardwareVsync s).
Proof. unfold hw_invariant, enableHardwareVsync. flags s; auto. Qed.

Lemma disableHardwareVsync_invariant (b : bool) (s : State) :
  hw_invariant s -> hw_invariant (disableHardwareVsync b s).
Proof.
  unfold hw_invariant, disableHardwareVsync. flags s; destruct b; cbn; auto.
Qed.

Lemma set_mPrimaryDispSync_invariant (d : D) (s : State) :
  hw_invariant s -> hw_invariant (set_mPrimaryDispSync d s).
Proof. unfold hw_invariant. destruct s; cbn; auto. Qed.

Lemma setVsyncPeriod_invariant (p : Z) (s : State) :
  hw_invariant s -> hw_invariant (setVsyncPeriod p s).
Proof.
  intros Hs. unfold setVsyncPeriod.
  by apply enableHardwareVsync_invariant; do 2 apply set_mPrimaryDispSync_invariant.
Qed.

Lemma addResyncSample_invariant (t : Z) (s : State) :
  hw_invariant s -> hw_invariant (addResyncSample t s).
Proof.
  intros Hs. unfold addResyncSample, addResyncSample_locked.
  destruct (mPrimaryHWVsyncEnabled s).
  - destruct (DispSync.addResyncSample t (mPrimaryDispSync s)) as [[] d].
    + by apply enableHardwareVsync_invariant, set_mPrimaryDispSync_invariant.
    + by apply disableHardwareVsync_invariant, set_mPrimaryDispSync_invariant.
  - by apply disableHardwareVsync_invariant.
Qed.

Lemma addPresentFence_invariant (f : Z) (s : State) :
  hw_invariant s -> hw_invariant (addPresentFence f s).
Proof.
  intros Hs. unfold addPresentFence.
  destruct (DispSync.addPresentFence f (mPrimaryDispSync s)) as [[] d].
  - by apply enableHardwareVsync_invariant, set_mPrimaryDispSync_invariant.
  - by apply disableHardwareVsync_invariant, set_mPrimaryDispSync_invariant.
Qed.

(** The calls that do not touch the two flags at all. *)
Lemma on_thread_flags (id : Z) (f : T -> T) (s : State) :
  mPrimaryHWVsyncEnabled (on_thread id f s) = mPrimaryHWVsyncEnabled s /\
  mHWVsyncAvailable (on_thread id f s) = mHWVsyncAvailable s.
Proof. unfold on_thread. by destruct (mConnections s !! id). Qed.

Lemma on_thread_invariant (id : Z) (f : T -> T) (s : State) :
  hw_invariant s -> hw_invariant (on_thread id f s).
Proof.
  unfold hw_invariant. destruct (on_thread_flags id f s) as [-> ->]. auto.
Qed.

Ltac handle_guard :=
  match goal with
  | |- context [invalid ?h ?s] =>
      destruct (invalid h s), h; auto using on_thread_invariant
  end.

Lemma call_invariant (c : Call Cb) (s : State) :
  call_guarded c s = true ->
  hw_invariant s -> hw_invariant (snd (call ARRAY_SIZE c s)).
Proof.
  intros Hg Hs. destruct c; cbn [call snd].
  - unfold createConnection.
    destruct (EventThread.createEventConnection _) as [ec th]. cbn.
    destruct s; exact Hs.
  - unfold createDisplayEventConnection.
    destruct (invalid handle0 s), handle0 as [id|]; cbn; auto.
    destruct (mConnections s !! id) as [c|]; cbn; auto.
    destruct (EventThread.createEventConnection _) as [ec th]. cbn.
    by apply on_thread_invariant.
  - unfold hotplugReceived. handle_guard.
  - unfold onScreenAcquired. handle_guard.
  - unfold onScreenReleased. handle_guard.
  - unfold setPhaseOffset. handle_guard.
  - by apply enableHardwareVsync_invariant.
  - by apply disableHardwareVsync_invariant.
  - by apply setVsyncPeriod_invariant.
  - by apply addResyncSample_invariant.
  - by apply addPresentFence_invariant.
  - by apply set_mPrimaryDispSync_invariant.
  - unfold makeHWSyncAvailable, hw_invariant in *.
    destruct makeAvailable; cbn in *; [done|].
    destruct s as [? ? en av ? ? ? ? ? ? ?]; cbn in *. by destruct en.
  - unfold addFramePresentTimeForLayer.
    destruct (determineTimestampAverage _ _ _ _) as [tr1 s1] eqn:E1.
    destruct (determineLayerTimestampStats _ _ _) as [tr2 s2] eqn:E2. cbn.
    assert (H1 : mPrimaryHWVsyncEnabled s1 = mPrimaryHWVsyncEnabled s /\
                 mHWVsyncAvailable s1 = mHWVsyncAvailable s).
    { revert E1. unfold determineTimestampAverage.
      repeat case_match; intros [= <- <-]; by destruct s. }
    assert (H2 : mPrimaryHWVsyncEnabled s2 = mPrimaryHWVsyncEnabled s1 /\
                 mHWVsyncAvailable s2 = mHWVsyncAvailable s1).
    { revert E2. unfold determineLayerTimestampStats.
      repeat case_match; intros [= <- <-]; by destruct s1. }
    unfold hw_invariant in *.
    destruct H1 as [E3 E4], H2 as [E5 E6]. rewrite E5, E6, E3, E4. done.
  - destruct s; exact Hs.
  - unfold updateFrameSkipping. case_match; cbn; [done|]. destruct s; exact Hs.
Qed.

Lemma states_invariant (cs : list (Call Cb)) (s : State) :
  hw_invariant s -> available_guarded ARRAY_SIZE cs s = true ->
  Forall hw_invariant (states ARRAY_SIZE cs s).
Proof.
  revert s. induction cs as [|c cs IH]; intros s Hs Hg; cbn; [constructor|].
  cbn in Hg. apply andb_prop in Hg as [Hc Hg].
  pose proof (call_invariant c s Hc Hs) as Hs'.
  constructor; [exact Hs' | by apply IH].
Qed.


(** C1 (amended): starting from the state the constructor leaves (both
    flags false), after each call of a sequence that makes
    [makeHWSyncAvailable(false)] only while hardware vsync is disabled,
    [hwVsyncEnabled] implies [hwVsyncAvailable]. The sequence may contain
    any other call, with any arguments. *)
Theorem hw_invariant_guarded_sequences
    (nextId : Z) (dispSync : D) (cs : list (Call Cb)) :
  available_guarded ARRAY_SIZE cs (Scheduler_new ARRAY_SIZE nextId dispSync : State) = true ->
  Forall hw_invariant (states ARRAY_SIZE cs (Scheduler_new ARRAY_SIZE nextId dispSync : State)).
Proof.
  intros Hg. apply states_invariant; [|exact Hg].
  unfold hw_invariant. cbn. discriminate.
Qed.

(** One [addResyncSample] that is told more samples are needed: nothing is
    asked of the hardware toggle and both flags stay as they are. *)
Lemma addResyncSample_needs_more (t : Z) (s : State) :
  fst (addResyncSample_locked t s) = true ->
  mPrimaryHWVsyncEnabled s = true /\
  mPrimaryHWVsyncEnabled (addResyncSample t s) = true /\
  mHWVsyncAvailable (addResyncSample t s) = mHWVsyncAvailable s /\
  mEventControlThread (addResyncSample t s) = mEventControlThread s.
Proof.
  unfold addResyncSample, addResyncSample_locked.
  destruct (mPrimaryHWVsyncEnabled s) eqn:En; [|discriminate].
  destruct (DispSync.addResyncSample t (mPrimaryDispSync s)) as [b d].
  cbn. intros ->. unfold enableHardwareVsync.
  destruct s; cbn in *. subst. by cbn.
Qed.

(** C3: from a state with hardware vsync enabled, as long as every
    [addResyncSample] of a run obtains "needs more" from [DispSync],
    hardware vsync is enabled after each of the calls, and the hardware
    toggle receives no request during the run: there is no transition to
    disabled, not even one that is undone. The run may have any length; one
    call and three consecutive calls are instances. *)
Theorem resync_needs_more_stays_enabled (timestamps : list Z) (s : State) :
  mPrimaryHWVsyncEnabled s = true ->
  all_need_more timestamps s ->
  Forall (fun s' => mPrimaryHWVsyncEnabled s' = true /\
                    mEventControlThread s' = mEventControlThread s)
         (resync_states timestamps s).
Proof.
  revert s. induction timestamps as [|t ts IH]; intros s En Hall; cbn.
  - constructor.
  - destruct Hall as [Ht Hts].
    destruct (addResyncSample_needs_more t s Ht) as (_ & En' & _ & Log).
    constructor; [by split|].
    rewrite <- Log. by apply IH.
Qed.

(** C4: a second [enableHardwareVsync] changes nothing the first has not
    changed, and likewise for [disableHardwareVsync(false)]: the whole
    state after two calls, and so the two flags in particular, is the state
    after one. *)
Theorem enable_disable_idempotent (s : State) :
  enableHardwareVsync (enableHardwareVsync s) = enableHardwareVsync s /\
  disableHardwareVsync false (disableHardwareVsync false s) =
    disableHardwareVsync false s /\
  (mPrimaryHWVsyncEnabled (enableHardwareVsync (enableHardwareVsync s)),
   mHWVsyncAvailable (enableHardwareVsync (enableHardwareVsync s))) =
    (mPrimaryHWVsyncEnabled (enableHardwareVsync s),
     mHWVsyncAvailable (enableHardwareVsync s)) /\
  (mPrimaryHWVsyncEnabled (disableHardwareVsync false (disableHardwareVsync false s)),
   mHWVsyncAvailable (disableHardwareVsync false (disableHardwareVsync false s))) =
    (mPrimaryHWVsyncEnabled (disableHardwareVsync false s),
     mHWVsyncAvailable (disableHardwareVsync false s)).
Proof.
  assert (He : enableHardwareVsync (enableHardwareVsync s) = enableHardwareVsync s).
  { unfold enableHardwareVsync. flags s; reflexivity. }
  assert (Hd : disableHardwareVsync false (disableHardwareVsync false s) =
               disableHardwareVsync false s).
  { unfold disableHardwareVsync. flags s; reflexivity. }
  rewrite He, Hd. auto.
Qed.

(** With hardware vsync disabled, [addResyncSample] leaves the whole
    scheduler, its [DispSync] included, as it was. *)
Lemma addResyncSample_disabled (t : Z) (s : State) :
  mPrimaryHWVsyncEnabled s = false -> addResyncSample t s = s.
Proof.
  intros En. unfold addResyncSample, addResyncSample_locked. rewrite En.
  unfold disableHardwareVsync. by rewrite En.
Qed.

(** [addPresentFence] asks [DispSync] first, whatever the flags are; the
    state [DispSync] ends in is the one after that question, followed by
    the [beginResync] or [endResync] of a transition, if there is one. *)
Lemma addPresentFence_dispSync (f : Z) (s : State) :
  mPrimaryDispSync (addPresentFence f s) =
    let '(needsHwVsync, d) := DispSync.addPresentFence f (mPrimaryDispSync s) in
    if needsHwVsync then
      if negb (mPrimaryHWVsyncEnabled s) && mHWVsyncAvailable s
      then DispSync.beginResync d else d
    else
      if mPrimaryHWVsyncEnabled s then DispSync.endResync d else d.
Proof.
  unfold addPresentFence.
  destruct (DispSync.addPresentFence f (mPrimaryDispSync s)) as [[] d].
  - unfold enableHardwareVsync. flags s; reflexivity.
  - unfold disableHardwareVsync. flags s; reflexivity.
Qed.

End HardwareVsync.

(** C1, as stated, fails: [makeHWSyncAvailable] stores its argument whatever
    the enabled flag is, so making hardware vsync available, enabling it and
    making it unavailable again leaves it enabled and not available. *)
Lemma hw_invariant_broken_by_makeHWSyncAvailable :
  let cs : list (Call unit) :=
    [MakeHWSyncAvailable true; EnableHardwareVsync; MakeHWSyncAvailable false] in
  let s := snd (calls 8 cs (test_scheduler 8 0 [])) in
  mPrimaryHWVsyncEnabled s = true /\
  mHWVsyncAvailable s = false /\
  ~ hw_invariant s /\
  ~ Forall hw_invariant (states 8 cs (test_scheduler 8 0 [])).
Proof.
  cbv zeta. split; [reflexivity|]. split; [reflexivity|]. split.
  - intros Hinv. specialize (Hinv eq_refl). discriminate Hinv.
  - intros Hall. inversion_clear Hall as [|? ? _ Hall1].
    inversion_clear Hall1 as [|? ? _ Hall2].
    inversion_clear Hall2 as [|? ? Hinv _].
    specialize (Hinv eq_refl). discriminate Hinv.
Qed.

Lemma hw_invariant_guarded_sequences_witness :
  let cs : list (Call unit) :=
    [MakeHWSyncAvailable true; EnableHardwareVsync; AddPresentFence 7;
     DisableHardwareVsync false; MakeHWSyncAvailable false; AddResyncSample 5;
     SetVsyncPeriod 16666666] in
  available_guarded 8 cs (test_scheduler 8 0 [true]) = true /\
  Forall hw_invariant (states 8 cs (test_scheduler 8 0 [true])).
Proof.
  cbv zeta. split; [reflexivity|].
  apply (hw_invariant_guarded_sequences 8 0 (RecordingDispSync.make [true])).
  reflexivity.
Defined.

Lemma resync_needs_more_stays_enabled_witness :
  mPrimaryHWVsyncEnabled resyncing_scheduler = true /\
  all_need_more [100; 200; 300] resyncing_scheduler /\
  Forall (fun s' => mPrimaryHWVsyncEnabled s' = true /\
                    mEventControlThread s' = mEventControlThread resyncing_scheduler)
         (resync_states [100; 200; 300] resyncing_scheduler).
Proof.
  split; [reflexivity|]. split; [cbn; auto|].
  apply (resync_needs_more_stays_enabled [100; 200; 300] resyncing_scheduler).
  - reflexivity.
  - cbn; auto.
Defined.

(** C10: while hardware vsync is disabled, [addResyncSample] changes nothing:
    the two flags, and the whole scheduler with them, stay as they are, and
    [DispSync] is not asked: a [DispSync] that records its requests has
    recorded none. [addPresentFence] has no such guard: in every state the
    recording [DispSync] has the fence as its next request. *)
Theorem resync_guarded_fence_unguarded
    {D T C : Type} `{!DispSync.Ops D} (t f : Z)
    (s : Scheduler D T C) (r u : Scheduler RecordingDispSync.t T C) :
  mPrimaryHWVsyncEnabled s = false ->
  mPrimaryHWVsyncEnabled r = false ->
  addResyncSample t s = s /\
  (mPrimaryHWVsyncEnabled (addResyncSample t s), mHWVsyncAvailable (addResyncSample t s)) =
    (mPrimaryHWVsyncEnabled s, mHWVsyncAvailable s) /\
  RecordingDispSync.received (mPrimaryDispSync (addResyncSample t r)) =
    RecordingDispSync.received (mPrimaryDispSync r) /\
  exists rest,
    RecordingDispSync.received (mPrimaryDispSync (addPresentFence f u)) =
      RecordingDispSync.received (mPrimaryDispSync u) ++
      RecordingDispSync.AddPresentFence f :: rest.
Proof.
  intros Hs Hr.
  rewrite (addResyncSample_disabled t s Hs), (addResyncSample_disabled t r Hr).
  repeat split.
  rewrite addPresentFence_dispSync. cbn.
  destruct (hd false _), (mPrimaryHWVsyncEnabled u), (mHWVsyncAvailable u); cbn;
    rewrite <- ?app_assoc; cbn; eauto.
Qed.

Lemma resync_guarded_fence_unguarded_witness :
  let s : TestScheduler := test_scheduler 8 0 [true] in
  mPrimaryHWVsyncEnabled s = false /\
  addResyncSample 100 s = s /\
  RecordingDispSync.received (mPrimaryDispSync (addResyncSample 100 s)) = [] /\
  RecordingDispSync.received (mPrimaryDispSync (addPresentFence 7 s)) =
    [RecordingDispSync.AddPresentFence 7].
Proof.
  cbv zeta.
  pose proof (resync_guarded_fence_unguarded 100 7
                (test_scheduler 8 0 [true]) (test_scheduler 8 0 [true])
                (test_scheduler 8 0 [true]) eq_refl eq_refl) as (H1 & _ & H2 & _).
  split; [reflexivity|]. split; [exact H1|]. split; [exact H2|]. reflexivity.
Defined.

(** ** The connection registry *)

Section Registry.

Context {D T C Cb : Type}.
Context `{!DispSync.Ops D} `{!EventThread.Ops T C Cb}.
Variable ARRAY_SIZE : Z.

Abbreviation State := (Scheduler D T C).

Lemma unknown_handle_invalid (h : option Z) (s : State) :
  unknown_handle h s <-> invalid h s = true.
Proof.
  unfold unknown_handle, invalid. split.
  - intros [-> | (id & -> & ->)]; reflexivity.
  - destruct h as [id|]; [|by left].
    destruct (mConnections s !! id) eqn:E; [discriminate|].
    intros _. right. by exists id.
Qed.

(** C2: a call with a handle that is [nullptr], or whose id is not a key of
    the registry, gives back a null result ([nullptr] for the three calls
    that return a pointer, nothing for the four that return nothing, the
    caller's string untouched for [dump]) and leaves the scheduler, and so
    the registry map, as it was. *)
Theorem unknown_handle_no_op (h : option Z) (c : HandleCall) (s : State) :
  unknown_handle h s ->
  handle_call h c s = (null_result c, s) /\
  mConnections (snd (handle_call h c s)) = mConnections s.
Proof.
  intros Hu. apply unknown_handle_invalid in Hu.
  assert (E : handle_call h c s = (null_result c, s)).
  { destruct c; cbn;
      unfold createDisplayEventConnection, getEventThread, getEventConnection,
        hotplugReceived, onScreenAcquired, onScreenReleased, setPhaseOffset, dump;
      rewrite Hu; reflexivity. }
  by rewrite E.
Qed.

(** *** The id counter *)

Lemma wrap64_small (z : Z) : INT64_MIN <= z <= INT64_MAX -> wrap64 z = z.
Proof.
  unfold wrap64, INT64_MIN, INT64_MAX. intros Hz.
  rewrite Z.mod_small; lia.
Qed.

Lemma wrap64_add_l (a b : Z) : wrap64 (wrap64 a + b) = wrap64 (a + b).
Proof.
  unfold wrap64.
  replace ((a + 2 ^ 63) mod 2 ^ 64 - 2 ^ 63 + b + 2 ^ 63)
    with ((a + 2 ^ 63) mod 2 ^ 64 + b) by lia.
  rewrite Zplus_mod_idemp_l. do 2 f_equal. lia.
Qed.

Lemma on_thread_registry (id : Z) (f : T -> T) (s : State) :
  sNextId (on_thread id f s) = sNextId s /\
  (handles_match_keys s -> handles_match_keys (on_thread id f s)).
Proof.
  unfold on_thread. destruct (mConnections s !! id) as [c|] eqn:E; [|done].
  split; [by destruct s|].
  intros Hs k c'. cbn. rewrite lookup_insert.
  case_decide as Hk; [|by apply Hs].
  intros [= <-]. cbn. subst k. by apply Hs.
Qed.

Lemma createConnection_spec (n : string) (p : Z) (r i : Cb) (s : State) :
  handles_match_keys s ->
  fst (createConnection n p r i s) = Some (sNextId s) /\
  sNextId (snd (createConnection n p r i s)) = wrap64 (sNextId s + 1) /\
  handles_match_keys (snd (createConnection n p r i s)).
Proof.
  intros Hs. unfold createConnection.
  destruct (EventThread.createEventConnection _) as [ec th]. cbn.
  unfold map_insert_new.
  destruct (mConnections s !! sNextId s) as [c|] eqn:E.
  - rewrite E. cbn. rewrite (Hs _ _ E). done.
  - rewrite lookup_insert_eq. cbn. repeat split.
    intros k c'. cbn. rewrite lookup_insert. case_decide as Hk.
    + intros [= <-]. done.
    + apply Hs.
Qed.

Lemma same_registry_trans (s1 s2 s3 : State) :
  same_registry s1 s2 -> same_registry s2 s3 -> same_registry s1 s3.
Proof. intros [? ?] [? ?]. split; congruence. Qed.

Lemma same_registry_frame (s s' : State) :
  same_registry s s' ->
  sNextId s' = sNextId s /\ (handles_match_keys s -> handles_match_keys s').
Proof.
  intros [Hn Hm]. split; [done|]. unfold handles_match_keys. by rewrite Hm.
Qed.

Lemma set_mPrimaryDispSync_registry (d : D) (s : State) :
  same_registry s (set_mPrimaryDispSync d s).
Proof. by destruct s. Qed.

Lemma enableHardwareVsync_registry (s : State) :
  same_registry s (enableHardwareVsync s).
Proof. unfold enableHardwareVsync. case_match; by destruct s. Qed.

Lemma disableHardwareVsync_registry (b : bool) (s : State) :
  same_registry s (disableHardwareVsync b s).
Proof. unfold disableHardwareVsync. repeat case_match; by destruct s. Qed.

Lemma addResyncSample_registry (t : Z) (s : State) :
  same_registry s (addResyncSample t s).
Proof.
  unfold addResyncSample, addResyncSample_locked.
  destruct (mPrimaryHWVsyncEnabled s).
  - destruct (DispSync.addResyncSample t (mPrimaryDispSync s)) as [[] d];
      (eapply same_registry_trans; [apply set_mPrimaryDispSync_registry|]);
      auto using enableHardwareVsync_registry, disableHardwareVsync_registry.
  - apply disableHardwareVsync_registry.
Qed.

Lemma addPresentFence_registry (f : Z) (s : State) :
  same_registry s (addPresentFence f s).
Proof.
  unfold addPresentFence.
  destruct (DispSync.addPresentFence f (mPrimaryDispSync s)) as [[] d];
    (eapply same_registry_trans; [apply set_mPrimaryDispSync_registry|]);
    auto using enableHardwareVsync_registry, disableHardwareVsync_registry.
Qed.

Lemma setVsyncPeriod_registry (p : Z) (s : State) :
  same_registry s (setVsyncPeriod p s).
Proof.
  unfold setVsyncPeriod.
  eapply same_registry_trans; [|apply enableHardwareVsync_registry].
  eapply same_registry_trans; apply set_mPrimaryDispSync_registry.
Qed.

Lemma determineTimestampAverage_registry (a : bool) (t : Z) (s : State) :
  same_registry s (snd (determineTimestampAverage ARRAY_SIZE a t s)).
Proof.
  unfold determineTimestampAverage. repeat case_match; by destruct s.
Qed.

Lemma determineLayerTimestampStats_registry (n : string) (t : Z) (s : State) :
  same_registry s (snd (determineLayerTimestampStats n t s)).
Proof.
  unfold determineLayerTimestampStats. case_match. by destruct s.
Qed.

Lemma addFramePresentTimeForLayer_registry (t : Z) (a : bool) (n : string) (s : State) :
  same_registry s (snd (addFramePresentTimeForLayer ARRAY_SIZE t a n s)).
Proof.
  unfold addFramePresentTimeForLayer.
  pose proof (determineTimestampAverage_registry a t s) as H1.
  destruct (determineTimestampAverage _ _ _ _) as [tr1 s1].
  pose proof (determineLayerTimestampStats_registry n t s1) as H2.
  destruct (determineLayerTimestampStats _ _ _) as [tr2 s2].
  by eapply same_registry_trans.
Qed.

(** A call other than [createConnection] returns no handle, leaves the
    counter alone and keeps handles stored under their own ids. *)
Lemma call_registry_frame (c : Call Cb) (s : State) :
  is_create c = false ->
  fst (call ARRAY_SIZE c s) = [] /\
  sNextId (snd (call ARRAY_SIZE c s)) = sNextId s /\
  (handles_match_keys s -> handles_match_keys (snd (call ARRAY_SIZE c s))).
Proof.
  intros Hc. split; [by destruct c|].
  destruct c; try discriminate Hc; cbn [call snd].
  - unfold createDisplayEventConnection.
    destruct (invalid handle0 s), handle0 as [id|]; cbn; auto.
    destruct (mConnections s !! id) as [c|]; cbn; auto.
    destruct (EventThread.createEventConnection _) as [ec th]. cbn.
    apply on_thread_registry.
  - unfold hotplugReceived.
    destruct (invalid handle0 s), handle0; auto using on_thread_registry.
  - unfold onScreenAcquired.
    destruct (invalid handle0 s), handle0; auto using on_thread_registry.
  - unfold onScreenReleased.
    destruct (invalid handle0 s), handle0; auto using on_thread_registry.
  - unfold setPhaseOffset.
    destruct (invalid handle0 s), handle0; auto using on_thread_registry.
  - apply same_registry_frame, enableHardwareVsync_registry.
  - apply same_registry_frame, disableHardwareVsync_registry.
  - apply same_registry_frame, setVsyncPeriod_registry.
  - apply same_registry_frame, addResyncSample_registry.
  - apply same_registry_frame, addPresentFence_registry.
  - apply same_registry_frame, set_mPrimaryDispSync_registry.
  - apply same_registry_frame. by destruct s.
  - apply same_registry_frame, addFramePresentTimeForLayer_registry.
  - apply same_registry_frame. by destruct s.
  - apply same_registry_frame. unfold updateFrameSkipping.
    case_match; by destruct s.
Qed.

(** *** Sequences of calls and the handles they return *)

Lemma calls_cons (c : Call Cb) (cs : list (Call Cb)) (s : State) :
  fst (calls ARRAY_SIZE (c :: cs) s) =
    fst (call ARRAY_SIZE c s) ++ fst (calls ARRAY_SIZE cs (snd (call ARRAY_SIZE c s))) /\
  snd (calls ARRAY_SIZE (c :: cs) s) =
    snd (calls ARRAY_SIZE cs (snd (call ARRAY_SIZE c s))).
Proof.
  cbn. destruct (call ARRAY_SIZE c s) as [hs1 s1]. cbn.
  by destruct (calls ARRAY_SIZE cs s1).
Qed.

Lemma creations_cons (c : Call Cb) (cs : list (Call Cb)) :
  creations (c :: cs) = (if is_create c then 1 else 0) + creations cs.
Proof. unfold creations. cbn. destruct (is_create c); cbn; lia. Qed.

Lemma creations_nonneg (cs : list (Call Cb)) : 0 <= creations cs.
Proof. unfold creations. lia. Qed.

Lemma wrap64_range (z : Z) : in_int64 (wrap64 z).
Proof.
  unfold in_int64, wrap64, INT64_MIN, INT64_MAX.
  pose proof (Z.mod_pos_bound (z + 2 ^ 63) (2 ^ 64)). lia.
Qed.

Lemma call_create (n : string) (p : Z) (r i : Cb) (s : State) :
  handles_match_keys s ->
  fst (call ARRAY_SIZE (CreateConnection n p r i) s) = [Some (sNextId s)] /\
  sNextId (snd (call ARRAY_SIZE (CreateConnection n p r i) s)) = wrap64 (sNextId s + 1) /\
  handles_match_keys (snd (call ARRAY_SIZE (CreateConnection n p r i) s)).
Proof.
  intros Hs. destruct (createConnection_spec n p r i s Hs) as (E1 & E2 & E3).
  cbn. destruct (createConnection n p r i s) as [h s']. cbn in *. by subst h.
Qed.

Lemma seqZ_strictly_increasing (m n : Z) : StronglySorted Z.lt (seqZ m n).
Proof.
  destruct (Z_le_gt_dec n 0) as [Hn|Hn]; [rewrite seqZ_nil by done; constructor|].
  rewrite <- (Z2Nat.id n) by lia. generalize (Z.to_nat n) as k. clear Hn.
  intros k. revert m. induction k as [|k IH]; intros m.
  - rewrite seqZ_nil by done. constructor.
  - rewrite seqZ_cons by lia.
    replace (Z.pred (Z.of_nat (S k))) with (Z.of_nat k) by lia.
    constructor; [apply IH|]. apply Forall_seqZ. lia.
Qed.

(** As long as the counter does not pass [INT64_MAX], the handles a
    sequence of calls returns are the consecutive ids from the counter's
    value on. *)
Lemma calls_handles (cs : list (Call Cb)) (s : State) :
  handles_match_keys s ->
  in_int64 (sNextId s) ->
  sNextId s + creations cs <= INT64_MAX + 1 ->
  fst (calls ARRAY_SIZE cs s) = Some <$> seqZ (sNextId s) (creations cs).
Proof.
  revert s. induction cs as [|c cs IH]; intros s Hs Hr Hb; [done|].
  destruct (calls_cons c cs s) as [-> _].
  rewrite creations_cons in *. pose proof (creations_nonneg cs) as Hn.
  destruct (is_create c) eqn:Ec.
  - destruct c; try discriminate Ec.
    destruct (call_create connectionName phaseOffsetNs resyncCallback
                interceptCallback s Hs) as (-> & En & Hs').
    rewrite seqZ_cons by lia.
    replace (Z.pred (1 + creations cs)) with (creations cs) by lia.
    rewrite fmap_cons. cbn [app]. f_equal.
    destruct (Z.eq_dec (creations cs) 0) as [E0|E0].
    + rewrite IH; [|done|rewrite En; apply wrap64_range|].
      * rewrite E0. by rewrite !seqZ_nil.
      * rewrite En, E0. pose proof (wrap64_range (sNextId s + 1)) as Hw.
        unfold in_int64 in Hw. lia.
    + assert (Ew : wrap64 (sNextId s + 1) = Z.succ (sNextId s)).
      { unfold Z.succ. apply wrap64_small. unfold in_int64 in Hr. lia. }
      rewrite IH; [by rewrite En, Ew|done| |].
      * rewrite En. apply wrap64_range.
      * rewrite En, Ew. lia.
  - destruct (call_registry_frame c s Ec) as (-> & En & Hs').
    cbn [app]. rewrite Z.add_0_l in *.
    rewrite IH; [by rewrite En|by apply Hs'|by rewrite En|by rewrite En].
Qed.

(** The counter after a sequence of calls: one step per [createConnection],
    modulo [2^64]. *)
Lemma sNextId_after_calls (cs : list (Call Cb)) (s : State) :
  handles_match_keys s ->
  in_int64 (sNextId s) ->
  sNextId (snd (calls ARRAY_SIZE cs s)) = wrap64 (sNextId s + creations cs).
Proof.
  revert s. induction cs as [|c cs IH]; intros s Hs Hr.
  - cbn. unfold creations. cbn. rewrite Z.add_0_r.
    symmetry. by apply wrap64_small.
  - destruct (calls_cons c cs s) as [_ ->]. rewrite creations_cons.
    destruct (is_create c) eqn:Ec.
    + destruct c; try discriminate Ec.
      destruct (call_create connectionName phaseOffsetNs resyncCallback
                  interceptCallback s Hs) as (_ & En & Hs').
      rewrite IH; [|done|rewrite En; apply wrap64_range].
      rewrite En, wrap64_add_l. f_equal. lia.
    + destruct (call_registry_frame c s Ec) as (_ & En & Hs').
      rewrite IH; [|by auto|by rewrite En]. rewrite En. f_equal.
Qed.

Lemma calls_handles_match_keys (cs : list (Call Cb)) (s : State) :
  handles_match_keys s -> handles_match_keys (snd (calls ARRAY_SIZE cs s)).
Proof.
  revert s. induction cs as [|c cs IH]; intros s Hs; [done|].
  destruct (calls_cons c cs s) as [_ ->]. apply IH.
  destruct (is_create c) eqn:Ec.
  - destruct c; try discriminate Ec. by apply call_create.
  - by apply call_registry_frame.
Qed.

Lemma Scheduler_new_handles_match_keys (nextId : Z) (dispSync : D) :
  handles_match_keys (Scheduler_new ARRAY_SIZE nextId dispSync : State).
Proof. intros k c. cbn. by rewrite lookup_empty. Qed.

(** The ids returned from a state whose connections are stored under their
    own ids. *)
Lemma createConnection_ids (cs : list (Call Cb)) (s : State) :
  handles_match_keys s ->
  in_int64 (sNextId s) ->
  sNextId s + creations cs <= INT64_MAX + 1 ->
  exists ids : list Z,
    fst (calls ARRAY_SIZE cs s) = Some <$> ids /\
    ids = seqZ (sNextId s) (creations cs) /\
    Z.of_nat (length ids) = creations cs /\
    StronglySorted Z.lt ids /\
    NoDup ids /\
    Forall (fun id => sNextId s <= id) ids.
Proof.
  intros Hs Hr Hb. exists (seqZ (sNextId s) (creations cs)).
  pose proof (creations_nonneg cs).
  split; [by apply calls_handles|]. split; [done|].
  split; [rewrite length_seqZ; lia|].
  split; [apply seqZ_strictly_increasing|].
  split; [apply NoDup_seqZ|].
  apply Forall_seqZ. lia.
Qed.

(** *** Steps on the shared counter *)

Lemma steps_cons (st : Step Cb) (sts : list (Step Cb)) (s : State) :
  fst (steps ARRAY_SIZE (st :: sts) s) =
    fst (step ARRAY_SIZE st s) ++ fst (steps ARRAY_SIZE sts (snd (step ARRAY_SIZE st s))) /\
  snd (steps ARRAY_SIZE (st :: sts) s) =
    snd (steps ARRAY_SIZE sts (snd (step ARRAY_SIZE st s))).
Proof.
  cbn. destruct (step ARRAY_SIZE st s) as [hs1 s1]. cbn.
  by destruct (steps ARRAY_SIZE sts s1).
Qed.

Lemma steps_app (sts1 sts2 : list (Step Cb)) (s : State) :
  fst (steps ARRAY_SIZE (sts1 ++ sts2) s) =
    fst (steps ARRAY_SIZE sts1 s) ++
    fst (steps ARRAY_SIZE sts2 (snd (steps ARRAY_SIZE sts1 s))) /\
  snd (steps ARRAY_SIZE (sts1 ++ sts2) s) =
    snd (steps ARRAY_SIZE sts2 (snd (steps ARRAY_SIZE sts1 s))).
Proof.
  revert s. induction sts1 as [|st sts1 IH]; intros s; [done|].
  change ((st :: sts1) ++ sts2) with (st :: (sts1 ++ sts2)).
  destruct (steps_cons st (sts1 ++ sts2) s) as [-> ->].
  destruct (steps_cons st sts1 s) as [-> ->].
  destruct (IH (snd (step ARRAY_SIZE st s))) as [-> ->].
  by rewrite app_assoc.
Qed.

Lemma steps_own (cs : list (Call Cb)) (s : State) :
  steps ARRAY_SIZE (map Own cs) s = calls ARRAY_SIZE cs s.
Proof.
  revert s. induction cs as [|c cs IH]; intros s; [done|].
  cbn. destruct (call ARRAY_SIZE c s) as [hs1 s1]. by rewrite IH.
Qed.

Lemma draws_cons (st : Step Cb) (sts : list (Step Cb)) :
  draws (st :: sts) = (if draws_id st then 1 else 0) + draws sts /\
  own_creations (st :: sts) = (if own_create st then 1 else 0) + own_creations sts.
Proof.
  unfold draws, own_creations. cbn.
  destruct (draws_id st), (own_create st); cbn; lia.
Qed.

Lemma draws_app (sts1 sts2 : list (Step Cb)) :
  draws (sts1 ++ sts2) = draws sts1 + draws sts2.
Proof. unfold draws. rewrite List.filter_app, length_app. lia. Qed.

Lemma own_creations_le_draws (sts : list (Step Cb)) :
  0 <= own_creations sts <= draws sts.
Proof.
  induction sts as [|st sts IH]; [done|].
  destruct (draws_cons st sts) as [-> ->].
  destruct st as [c|]; cbn; [destruct (is_create c)|]; lia.
Qed.

(** One step: the handle it returns, the counter and the registry after
    it. *)
Lemma step_spec (st : Step Cb) (s : State) :
  handles_match_keys s ->
  fst (step ARRAY_SIZE st s) = (if own_create st then [Some (sNextId s)] else []) /\
  sNextId (snd (step ARRAY_SIZE st s)) =
    (if draws_id st then wrap64 (sNextId s + 1) else sNextId s) /\
  handles_match_keys (snd (step ARRAY_SIZE st s)).
Proof.
  intros Hs. destruct st as [c|]; cbn [step own_create draws_id].
  - destruct (is_create c) eqn:Ec.
    + destruct c; try discriminate Ec. by apply call_create.
    + destruct (call_registry_frame c s Ec) as (E1 & E2 & E3). auto.
  - split; [done|]. split; by destruct s.
Qed.

Lemma steps_counter (sts : list (Step Cb)) (s : State) :
  handles_match_keys s ->
  in_int64 (sNextId s) ->
  sNextId (snd (steps ARRAY_SIZE sts s)) = wrap64 (sNextId s + draws sts) /\
  handles_match_keys (snd (steps ARRAY_SIZE sts s)).
Proof.
  revert s. induction sts as [|st sts IH]; intros s Hs Hr.
  - cbn. unfold draws. cbn. rewrite Z.add_0_r. split; [|done].
    symmetry. by apply wrap64_small.
  - destruct (steps_cons st sts s) as [_ ->].
    destruct (draws_cons st sts) as [-> _].
    destruct (step_spec st s Hs) as (_ & En & Hs').
    destruct (IH (snd (step ARRAY_SIZE st s)) Hs') as [-> Hs''].
    + rewrite En. destruct (draws_id st); [apply wrap64_range|done].
    + split; [|done]. rewrite En. destruct (draws_id st).
      * rewrite wrap64_add_l. f_equal. lia.
      * f_equal.
Qed.

Lemma strictly_increasing_NoDup (l : list Z) : StronglySorted Z.lt l -> NoDup l.
Proof.
  induction 1 as [|x l Hl IH Hx]; constructor; [|done].
  intros Hin. rewrite Forall_forall in Hx. specialize (Hx x Hin). lia.
Qed.

(** While the counter does not pass [INT64_MAX], the handles returned to the
    scheduler are strictly increasing ids between the counter's first value
    and its last. *)
Lemma steps_ids (sts : list (Step Cb)) (s : State) :
  handles_match_keys s ->
  in_int64 (sNextId s) ->
  sNextId s + draws sts <= INT64_MAX + 1 ->
  exists ids : list Z,
    fst (steps ARRAY_SIZE sts s) = Some <$> ids /\
    Z.of_nat (length ids) = own_creations sts /\
    StronglySorted Z.lt ids /\
    Forall (fun id => sNextId s <= id < sNextId s + draws sts) ids.
Proof.
  revert s. induction sts as [|st sts IH]; intros s Hs Hr Hb.
  - exists []. repeat split; constructor.
  - destruct (steps_cons st sts s) as [-> _].
    destruct (draws_cons st sts) as [Ed Eo]. rewrite Ed in *. rewrite Eo.
    pose proof (own_creations_le_draws sts) as Hle.
    destruct (step_spec st s Hs) as (-> & En & Hs').
    assert (Hr' : in_int64 (sNextId (snd (step ARRAY_SIZE st s)))).
    { rewrite En. destruct (draws_id st); [apply wrap64_range|done]. }
    destruct (draws_id st) eqn:Edr.
    + destruct (Z.eq_dec (draws sts) 0) as [E0|E0].
      * destruct (IH _ Hs' Hr') as (ids & -> & Hlen & _ & _).
        { rewrite E0. unfold in_int64 in Hr'. lia. }
        assert (ids = []) as -> by (destruct ids; [done|cbn in Hlen; lia]).
        exists (if own_create st then [sNextId s] else []).
        rewrite app_nil_r. unfold in_int64 in Hr.
        destruct (own_create st); cbn; repeat split; try lia;
          repeat constructor; lia.
      * assert (Ew : wrap64 (sNextId s + 1) = sNextId s + 1).
        { apply wrap64_small. unfold in_int64 in *. lia. }
        rewrite Ew in En.
        destruct (IH _ Hs' Hr') as (ids & -> & Hlen & Hsort & Hbnd).
        { rewrite En. lia. }
        rewrite En in Hbnd.
        assert (Hgt : Forall (Z.lt (sNextId s)) ids).
        { eapply Forall_impl; [exact Hbnd|]. cbn. intros; lia. }
        assert (Hbnd' : Forall (fun id => sNextId s <= id < sNextId s + (1 + draws sts)) ids).
        { eapply Forall_impl; [exact Hbnd|]. cbn. intros; lia. }
        exists ((if own_create st then [sNextId s] else []) ++ ids).
        destruct (own_create st); cbn [app].
        -- split; [done|]. split; [cbn; lia|]. split; [by constructor|].
           constructor; [lia|done].
        -- split; [done|]. split; [lia|]. done.
    + assert (Eoc : own_create st = false) by (destruct st; [done|discriminate]).
      rewrite Eoc in *. cbn [app].
      destruct (IH _ Hs' Hr') as (ids & -> & Hlen & Hsort & Hbnd).
      { rewrite En. lia. }
      rewrite En in Hbnd. exists ids.
      split; [done|]. split; [lia|]. split; [done|].
      eapply Forall_impl; [exact Hbnd|]. cbn. intros; lia.
Qed.

(** C5 (amended): take a scheduler at any point of its life: constructed
    with the process-wide counter at some [int64_t] value, and then taken
    through any steps [before], each a call on it or a [createConnection] on
    another scheduler of the process. For a further run of steps that holds
    [N] calls of [createConnection] on the scheduler among any other calls
    (enabling and disabling hardware vsync included), if the 64-bit counter
    has not passed [INT64_MAX] between the construction and the last of the
    [N], the handles returned are [N] ids, all non-null, strictly increasing
    and without repeats, and each is greater than every id the scheduler was
    given before: within that bound an id once returned is not returned
    again. *)
Theorem createConnection_ids_increasing
    (nextId : Z) (dispSync : D) (before sts : list (Step Cb)) :
  let new : State := Scheduler_new ARRAY_SIZE nextId dispSync in
  let s : State := snd (steps ARRAY_SIZE before new) in
  in_int64 nextId ->
  nextId + draws before + draws sts <= INT64_MAX + 1 ->
  exists earlier ids : list Z,
    fst (steps ARRAY_SIZE before new) = Some <$> earlier /\
    fst (steps ARRAY_SIZE sts s) = Some <$> ids /\
    Z.of_nat (length ids) = own_creations sts /\
    StronglySorted Z.lt ids /\
    NoDup ids /\
    Forall (fun id => Forall (fun e => e < id) earlier) ids /\
    StronglySorted Z.lt (earlier ++ ids) /\
    NoDup (earlier ++ ids).
Proof.
  intros new s Hr Hb.
  pose proof (Scheduler_new_handles_match_keys nextId dispSync) as Hnew.
  pose proof (own_creations_le_draws before) as Hle1.
  pose proof (own_creations_le_draws sts) as Hle2.
  destruct (steps_ids (before ++ sts) new Hnew Hr) as (all & Eall & _ & Hsort & _).
  { rewrite draws_app. cbn. lia. }
  destruct (steps_ids before new Hnew Hr) as (earlier & Ee & _ & _ & _).
  { cbn. lia. }
  destruct (steps_counter before new Hnew Hr) as [Ec Hs].
  destruct (steps_ids sts s Hs) as (ids & Ei & Hlen & Hsi & _).
  { subst s. rewrite Ec. apply wrap64_range. }
  { subst s. rewrite Ec. cbn [sNextId new Scheduler_new].
    destruct (Z.eq_dec (draws sts) 0) as [E0|E0].
    - rewrite E0. pose proof (wrap64_range (nextId + draws before)) as Hw.
      unfold in_int64 in Hw. lia.
    - rewrite wrap64_small; [lia|]. unfold in_int64 in *. lia. }
  assert (all = earlier ++ ids) as ->.
  { apply (inj (fmap Some)). rewrite fmap_app, <- Ee, <- Ei, <- Eall.
    apply steps_app. }
  exists earlier, ids.
  split; [done|]. split; [done|]. split; [done|]. split; [done|].
  split; [by apply strictly_increasing_NoDup|].
  split; [|split; [done|by apply strictly_increasing_NoDup]].
  apply Forall_forall. intros id Hid. apply Forall_forall. intros e He.
  eapply StronglySorted_app_1_elem_of; [exact Hsort| |]; done.
Qed.

End Registry.

Lemma unknown_handle_no_op_witness :
  unknown_handle (Some 5) two_connections /\
  handle_call (Some 5) (CallHotplugReceived 0 true) two_connections =
    (Void, two_connections) /\
  handle_call None (CallDump "SF: ") two_connections =
    (Dumped "SF: ", two_connections).
Proof.
  assert (H5 : unknown_handle (Some 5) two_connections).
  { right. exists 5. split; reflexivity. }
  assert (H0 : unknown_handle None two_connections) by (by left).
  split; [exact H5|]. split.
  - exact (proj1 (unknown_handle_no_op (Cb := unit) (Some 5)
                    (CallHotplugReceived 0 true) two_connections H5)).
  - exact (proj1 (unknown_handle_no_op (Cb := unit) None
                    (CallDump "SF: ") two_connections H0)).
Defined.

(** C5, as stated, fails at the end of the counter's range: the id after
    [INT64_MAX] is [INT64_MIN], which is smaller. *)
Lemma createConnection_ids_wrap :
  let cs : list (Call unit) :=
    [CreateConnection "app" 0 tt tt; EnableHardwareVsync;
     CreateConnection "sf" 0 tt tt] in
  fst (calls 8 cs (test_scheduler 8 INT64_MAX [])) = [Some INT64_MAX; Some INT64_MIN] /\
  INT64_MIN < INT64_MAX /\
  ~ StronglySorted Z.lt [INT64_MAX; INT64_MIN].
Proof.
  cbv zeta. split; [vm_compute; reflexivity|]. split; [reflexivity|].
  intros Hs. apply StronglySorted_inv in Hs as [_ Hlt].
  apply Forall_inv in Hlt. vm_compute in Hlt. discriminate Hlt.
Qed.

(** The counter gets there: from 0, any sequence of calls with [INT64_MAX]
    calls of [createConnection] leaves the counter at [INT64_MAX]. *)
Lemma sNextId_reaches_INT64_MAX (cs : list (Call unit)) :
  creations cs = INT64_MAX ->
  sNextId (snd (calls 8 cs (test_scheduler 8 0 []))) = INT64_MAX.
Proof.
  intros Hn. unfold test_scheduler.
  rewrite sNextId_after_calls.
  - cbn [sNextId Scheduler_new]. rewrite Hn. reflexivity.
  - apply Scheduler_new_handles_match_keys.
  - cbn. unfold in_int64, INT64_MIN, INT64_MAX. lia.
Qed.

Lemma createConnection_ids_increasing_witness :
  let before : list (Step unit) :=
    [Own (CreateConnection "app" 0 tt tt); Elsewhere;
     Own (MakeHWSyncAvailable true)] in
  let sts : list (Step unit) :=
    [Own (CreateConnection "sf" 0 tt tt); Own EnableHardwareVsync;
     Own (CreateConnection "injector" 0 tt tt); Elsewhere;
     Own (DisableHardwareVsync true); Own (MakeHWSyncAvailable true);
     Own EnableHardwareVsync; Own (CreateConnection "tracing" 0 tt tt)] in
  let s := snd (steps 8 before (test_scheduler 8 0 [])) in
  in_int64 0 /\
  0 + draws before + draws sts <= INT64_MAX + 1 /\
  fst (steps 8 before (test_scheduler 8 0 [])) = [Some 0] /\
  fst (steps 8 sts s) = [Some 2; Some 3; Some 5] /\
  exists earlier ids : list Z,
    fst (steps 8 sts s) = Some <$> ids /\
    StronglySorted Z.lt (earlier ++ ids) /\
    NoDup (earlier ++ ids).
Proof.
  cbv zeta.
  assert (H1 : in_int64 0) by (vm_compute; split; discriminate).
  split; [exact H1|]. split; [vm_compute; discriminate|].
  split; [vm_compute; reflexivity|]. split; [vm_compute; reflexivity|].
  destruct (createConnection_ids_increasing 8 0 (RecordingDispSync.make [])
              [Own (CreateConnection "app" 0 tt tt); Elsewhere;
               Own (MakeHWSyncAvailable true)]
              [Own (CreateConnection "sf" 0 tt tt); Own EnableHardwareVsync;
               Own (CreateConnection "injector" 0 tt tt); Elsewhere;
               Own (DisableHardwareVsync true); Own (MakeHWSyncAvailable true);
               Own EnableHardwareVsync; Own (CreateConnection "tracing" 0 tt tt)] H1)
    as (earlier & ids & _ & E & _ & _ & _ & _ & Hs & Hn);
    [vm_compute; discriminate|].
  exists earlier, ids. split; [exact E|]. split; [exact Hs|exact Hn].
Defined.

(** ** The global auto-timestamp analyzer *)

Section GlobalAnalyzer.

Context {D T C : Type}.
Variable ARRAY_SIZE : Z.

Abbreviation State := (Scheduler D T C).

Lemma determineTimestampAverage_auto (t : Z) (s : State) :
  determineTimestampAverage ARRAY_SIZE true t s = ([ATRACE_INT "AutoTimestamp" 1], s).
Proof. reflexivity. Qed.

Lemma determineTimestampAverage_noise (t : Z) (s : State) :
  differenceMs t s < 10 \/ 100 < differenceMs t s ->
  determineTimestampAverage ARRAY_SIZE false t s =
    ([ATRACE_INT "AutoTimestamp" 0], set_mPreviousFrameTimestamp t s).
Proof.
  intros Hd. unfold determineTimestampAverage, differenceMs in *.
  destruct (Z.ltb_spec (Z.quot (wrap64 (t - mPreviousFrameTimestamp s)) NS_PER_MS) 10);
    destruct (Z.ltb_spec 100 (Z.quot (wrap64 (t - mPreviousFrameTimestamp s)) NS_PER_MS));
    cbn; try reflexivity; lia.
Qed.

Lemma determineTimestampAverage_sampled (t : Z) (s : State) :
  10 <= differenceMs t s <= 100 ->
  let s' := sampled_state ARRAY_SIZE t s in
  let mean := scheduler.calculate_mean (mTimeDifferences s') in
  determineTimestampAverage ARRAY_SIZE false t s =
    ([ATRACE_INT "AutoTimestamp" 0; ATRACE_INT "TimestampDiff" (differenceMs t s);
      ATRACE_INT "AutoTimestampMean" mean] ++
     (if (14 <? mean) && (mean <? 18) then [ATRACE_INT "FPS" 60]
      else if (31 <? mean) && (mean <? 34) then [ATRACE_INT "FPS" 30]
      else if (39 <? mean) && (mean <? 42) then [ATRACE_INT "FPS" 24]
      else []),
     s').
Proof.
  intros Hd. unfold determineTimestampAverage, sampled_state, differenceMs in *.
  destruct (Z.ltb_spec (Z.quot (wrap64 (t - mPreviousFrameTimestamp s)) NS_PER_MS) 10);
    [lia|].
  destruct (Z.ltb_spec 100 (Z.quot (wrap64 (t - mPreviousFrameTimestamp s)) NS_PER_MS));
    [lia|].
  cbn -[Z.quot Z.modulo wrap64 wrap_size_t scheduler.calculate_mean].
  repeat case_match; reflexivity.
Qed.

Lemma sampled_dec (a : bool) (t : Z) (s : State) :
  sampled a t s \/ a = true \/
  (a = false /\ (differenceMs t s < 10 \/ 100 < differenceMs t s)).
Proof. unfold sampled. destruct a; [by auto|]. lia. Qed.

(** The truncated mean of [n] values lies strictly between two bounds, the
    lower one not negative, exactly when their exact mean is at least the
    integer after the lower bound and below the upper bound. *)
Lemma truncated_mean_band (a b total n : Z) :
  0 <= a -> 0 < n ->
  a < Z.quot total n < b <-> (a + 1) * n <= total < b * n.
Proof.
  intros Ha Hn.
  pose proof (Z.quot_rem' total n) as E.
  destruct (Z.le_gt_cases 0 total) as [Ht|Ht].
  - pose proof (Z.rem_bound_pos total n Ht Hn). nia.
  - pose proof (Z.rem_bound_pos_neg total n Hn ltac:(lia)). nia.
Qed.

(** C6 (amended): the bucket the global analyzer emits for a frame, as a
    function of the buffer after the frame's difference is stored in it.
    What the code compares is the buffer's mean as an [int64_t], the exact
    mean truncated to an integer: 60 exactly when the frame is sampled and
    that integer is strictly between 14 and 18, 30 exactly when sampled and
    strictly between 31 and 34, 24 exactly when sampled and strictly
    between 39 and 42, and no bucket otherwise; a sampled frame that leaves
    14 emits no bucket, and one that leaves 16 emits 60. On the exact mean
    of a non-empty buffer ([total / n]) the bands are therefore: 60 exactly
    when sampled and the mean is at least 15 and below 18, 30 at least 32
    and below 34, 24 at least 40 and below 42; a sampled frame that leaves
    an exact mean of at least 14 and below 15 emits no bucket. *)
Theorem fps_classification (isAutoTimestamp : bool) (t : Z) (s : State) :
  let tr := fst (determineTimestampAverage ARRAY_SIZE isAutoTimestamp t s) in
  let s' := snd (determineTimestampAverage ARRAY_SIZE isAutoTimestamp t s) in
  let mean := scheduler.calculate_mean (mTimeDifferences s') in
  let total := scheduler.sum_int64 (mTimeDifferences s') in
  let n := Z.of_nat (length (mTimeDifferences s')) in
  let sampled := sampled isAutoTimestamp t s in
  (emitted_fps tr = [60] <-> sampled /\ 14 < mean < 18) /\
  (emitted_fps tr = [30] <-> sampled /\ 31 < mean < 34) /\
  (emitted_fps tr = [24] <-> sampled /\ 39 < mean < 42) /\
  (emitted_fps tr = [] <->
     ~ (sampled /\ (14 < mean < 18 \/ 31 < mean < 34 \/ 39 < mean < 42))) /\
  (emitted_fps tr = [60] \/ emitted_fps tr = [30] \/ emitted_fps tr = [24] \/
   emitted_fps tr = []) /\
  (sampled -> mean = 14 -> emitted_fps tr = []) /\
  (sampled -> mean = 16 -> emitted_fps tr = [60]) /\
  (0 < n ->
   (emitted_fps tr = [60] <-> sampled /\ 15 * n <= total < 18 * n) /\
   (emitted_fps tr = [30] <-> sampled /\ 32 * n <= total < 34 * n) /\
   (emitted_fps tr = [24] <-> sampled /\ 40 * n <= total < 42 * n) /\
   (sampled -> 14 * n <= total < 15 * n -> emitted_fps tr = [])).
Proof.
  cbv zeta.
  set (tr := fst _). set (s' := snd _).
  set (total := scheduler.sum_int64 _). set (n := Z.of_nat _).
  assert (Hband : forall a b, 0 <= a -> 0 < n ->
            a < scheduler.calculate_mean (mTimeDifferences s') < b <->
            (a + 1) * n <= total < b * n)
    by (intros a b; apply truncated_mean_band).
  assert (Hcmp :
    (emitted_fps tr = [60] <->
       sampled isAutoTimestamp t s /\
       14 < scheduler.calculate_mean (mTimeDifferences s') < 18) /\
    (emitted_fps tr = [30] <->
       sampled isAutoTimestamp t s /\
       31 < scheduler.calculate_mean (mTimeDifferences s') < 34) /\
    (emitted_fps tr = [24] <->
       sampled isAutoTimestamp t s /\
       39 < scheduler.calculate_mean (mTimeDifferences s') < 42) /\
    (emitted_fps tr = [] <->
       ~ (sampled isAutoTimestamp t s /\
          (14 < scheduler.calculate_mean (mTimeDifferences s') < 18 \/
           31 < scheduler.calculate_mean (mTimeDifferences s') < 34 \/
           39 < scheduler.calculate_mean (mTimeDifferences s') < 42)))).
  { subst tr s'. clear Hband. clearbody total n.
    destruct (sampled_dec isAutoTimestamp t s) as [Hs | [-> | [-> Hn]]].
    - destruct Hs as [-> Hd]. unfold sampled.
      rewrite (determineTimestampAverage_sampled t s Hd). cbn [fst snd].
      set (mean := scheduler.calculate_mean _).
      destruct (Z.ltb_spec 14 mean); destruct (Z.ltb_spec mean 18);
        destruct (Z.ltb_spec 31 mean); destruct (Z.ltb_spec mean 34);
        destruct (Z.ltb_spec 39 mean); destruct (Z.ltb_spec mean 42);
        try lia; cbn; intuition (try discriminate; try lia).
    - rewrite determineTimestampAverage_auto. unfold sampled. cbn.
      intuition (try discriminate; try lia).
    - rewrite (determineTimestampAverage_noise t s Hn). unfold sampled. cbn.
      intuition (try discriminate; try lia). }
  destruct Hcmp as (H60 & H30 & H24 & Hnone).
  set (mean := scheduler.calculate_mean _) in *.
  split; [exact H60|]. split; [exact H30|]. split; [exact H24|].
  split; [exact Hnone|].
  assert (Hcases : (14 < mean < 18 \/ 31 < mean < 34 \/ 39 < mean < 42) \/
                   ~ (14 < mean < 18 \/ 31 < mean < 34 \/ 39 < mean < 42)) by lia.
  split.
  { destruct (sampled_dec isAutoTimestamp t s) as [Hs | Hns].
    - destruct Hcases as [[Hm | [Hm | Hm]] | Hm].
      + left. by apply H60.
      + right; left. by apply H30.
      + right; right; left. by apply H24.
      + right; right; right. apply Hnone. by intros [_ ?].
    - right; right; right. apply Hnone. intros [[Ha Hd] _].
      destruct Hns as [-> | [_ Hn]]; [discriminate|lia]. }
  split; [intros Hs Hm; apply Hnone; intros [_ ?]; lia|].
  split; [intros Hs Hm; apply H60; split; [done|lia]|].
  intros Hn.
  pose proof (Hband 14 18 ltac:(lia) Hn) as B60.
  pose proof (Hband 31 34 ltac:(lia) Hn) as B30.
  pose proof (Hband 39 42 ltac:(lia) Hn) as B24.
  pose proof (Hband 13 15 ltac:(lia) Hn) as B14.
  split; [rewrite H60; split; (intros [Hs Hm]; split; [done|lia])|].
  split; [rewrite H30; split; (intros [Hs Hm]; split; [done|lia])|].
  split; [rewrite H24; split; (intros [Hs Hm]; split; [done|lia])|].
  intros Hs Hm. apply Hnone. intros [_ ?]. lia.
Qed.

(** Between a write and the write [ARRAY_SIZE] counter steps before it, no
    other write goes to the same position: what a write replaces is the
    oldest entry of the buffer. *)
Lemma write_position_oldest (c c' : Z) :
  0 < ARRAY_SIZE ->
  c - ARRAY_SIZE < c' < c ->
  c' mod ARRAY_SIZE <> c mod ARRAY_SIZE /\
  (c - ARRAY_SIZE) mod ARRAY_SIZE = c mod ARRAY_SIZE.
Proof.
  intros Hn Hc. split.
  - intros E.
    assert (E0 : (c - c') mod ARRAY_SIZE = 0).
    { rewrite Zminus_mod, E, Z.sub_diag. by apply Z.mod_0_l, Z.neq_sym, Z.lt_neq. }
    rewrite Z.mod_small in E0 by lia. lia.
  - replace (c - ARRAY_SIZE) with (c + (-1) * ARRAY_SIZE) by lia.
    apply Z.mod_add. lia.
Qed.

(** C7: what a call of the global analyzer changes. With an automatic
    timestamp, nothing. Otherwise, with a difference below 10 or above 100,
    neither the ring buffer nor its write counter, and so not the buffer's
    mean. Otherwise, and only then, the difference is written into the ring
    buffer: at index [mCounter mod ARRAY_SIZE], which lies inside the
    buffer and holds its oldest entry, every other entry staying as it is,
    and the counter advances by one. *)
Theorem determineTimestampAverage_effect (isAutoTimestamp : bool) (t : Z) (s : State) :
  let s' := snd (determineTimestampAverage ARRAY_SIZE isAutoTimestamp t s) in
  let d := differenceMs t s in
  let position := Z.to_nat (mCounter s mod ARRAY_SIZE) in
  (isAutoTimestamp = true -> s' = s) /\
  (isAutoTimestamp = false -> d < 10 \/ 100 < d ->
     mTimeDifferences s' = mTimeDifferences s /\
     mCounter s' = mCounter s /\
     scheduler.calculate_mean (mTimeDifferences s') =
       scheduler.calculate_mean (mTimeDifferences s)) /\
  (isAutoTimestamp = false -> 10 <= d <= 100 ->
     mTimeDifferences s' = <[position := d]> (mTimeDifferences s) /\
     mCounter s' = wrap_size_t (mCounter s + 1) /\
     length (mTimeDifferences s') = length (mTimeDifferences s) /\
     (forall j, j <> position -> mTimeDifferences s' !! j = mTimeDifferences s !! j)) /\
  (isAutoTimestamp = false -> 10 <= d <= 100 ->
     0 < ARRAY_SIZE -> length (mTimeDifferences s) = Z.to_nat ARRAY_SIZE ->
     (position < length (mTimeDifferences s))%nat /\
     mTimeDifferences s' !! position = Some d /\
     forall c', mCounter s - ARRAY_SIZE < c' < mCounter s ->
                c' mod ARRAY_SIZE <> mCounter s mod ARRAY_SIZE) /\
  (mTimeDifferences s' <> mTimeDifferences s -> sampled isAutoTimestamp t s).
Proof.
  cbv zeta.
  destruct (sampled_dec isAutoTimestamp t s) as [Hs | [-> | [-> Hn]]].
  - destruct Hs as [-> Hd].
    rewrite (determineTimestampAverage_sampled t s Hd). cbn [snd].
    split; [discriminate|]. split; [lia|].
    assert (E1 : mTimeDifferences (sampled_state ARRAY_SIZE t s) =
                 <[Z.to_nat (mCounter s mod ARRAY_SIZE) := differenceMs t s]>
                   (mTimeDifferences s)) by (by destruct s).
    assert (E2 : mCounter (sampled_state ARRAY_SIZE t s) = wrap_size_t (mCounter s + 1))
      by (by destruct s).
    rewrite E1, E2. split; [|split].
    + intros _ _. split; [done|]. split; [done|].
      split; [apply length_insert|].
      intros j Hj. by apply list_lookup_insert_ne.
    + intros _ _ Hn Hl.
      assert (Hp : (Z.to_nat (mCounter s mod ARRAY_SIZE) < length (mTimeDifferences s))%nat).
      { rewrite Hl. pose proof (Z.mod_pos_bound (mCounter s) ARRAY_SIZE Hn). lia. }
      split; [exact Hp|]. split; [by apply list_lookup_insert_eq|].
      intros c' Hc'. by apply write_position_oldest.
    + intros _. by split.
  - rewrite determineTimestampAverage_auto. cbn [snd].
    split; [done|]. split; [discriminate|]. split; [discriminate|].
    split; [discriminate|]. intros Hne. by destruct Hne.
  - rewrite (determineTimestampAverage_noise t s Hn). cbn [snd].
    split; [discriminate|].
    assert (E1 : mTimeDifferences (set_mPreviousFrameTimestamp t s) = mTimeDifferences s)
      by (by destruct s).
    assert (E2 : mCounter (set_mPreviousFrameTimestamp t s) = mCounter s)
      by (by destruct s).
    rewrite E1, E2. split; [done|]. split; [lia|]. split; [lia|]. done.
Qed.

(** C9: with a timestamp that is not automatic, the frame's time becomes
    the stored previous-frame timestamp whether or not the frame is then
    discarded as noise; the difference of the next frame is computed
    against it, and is what the next call reports when it is sampled. *)
Theorem previous_timestamp_always_updated (t t2 : Z) (s : State) :
  let s1 := snd (determineTimestampAverage ARRAY_SIZE false t s) in
  mPreviousFrameTimestamp s1 = t /\
  (differenceMs t s < 10 \/ 100 < differenceMs t s ->
     mTimeDifferences s1 = mTimeDifferences s /\ mCounter s1 = mCounter s) /\
  differenceMs t2 s1 = Z.quot (wrap64 (t2 - t)) NS_PER_MS /\
  (10 <= Z.quot (wrap64 (t2 - t)) NS_PER_MS <= 100 ->
     ATRACE_INT "TimestampDiff" (Z.quot (wrap64 (t2 - t)) NS_PER_MS)
       ∈ fst (determineTimestampAverage ARRAY_SIZE false t2 s1)).
Proof.
  cbv zeta.
  assert (E : mPreviousFrameTimestamp
                (snd (determineTimestampAverage ARRAY_SIZE false t s)) = t).
  { destruct (sampled_dec false t s) as [[_ Hd] | [? | [_ Hn]]]; [|done|].
    - rewrite (determineTimestampAverage_sampled t s Hd). by destruct s.
    - rewrite (determineTimestampAverage_noise t s Hn). by destruct s. }
  assert (E2 : differenceMs t2 (snd (determineTimestampAverage ARRAY_SIZE false t s)) =
               Z.quot (wrap64 (t2 - t)) NS_PER_MS).
  { unfold differenceMs. by rewrite E. }
  split; [exact E|]. split; [|split; [exact E2|]].
  - intros Hn. rewrite (determineTimestampAverage_noise t s Hn). by destruct s.
  - intros Hd. rewrite <- E2 in Hd.
    rewrite (determineTimestampAverage_sampled t2 _ Hd). cbn [fst].
    rewrite E2. apply elem_of_app. left.
    apply list_elem_of_further, list_elem_of_here.
Qed.

End GlobalAnalyzer.

Lemma fps_classification_witness :
  (sampled false (8 * 16 * NS_PER_MS) (frames_every 16 7) /\
   scheduler.calculate_mean (mTimeDifferences (frames_every 16 8)) = 16 /\
   emitted_fps (fst (determineTimestampAverage 8 false (8 * 16 * NS_PER_MS)
                       (frames_every 16 7))) = [60]) /\
  (sampled false (8 * 14 * NS_PER_MS) (frames_every 14 7) /\
   scheduler.calculate_mean (mTimeDifferences (frames_every 14 8)) = 14 /\
   emitted_fps (fst (determineTimestampAverage 8 false (8 * 14 * NS_PER_MS)
                       (frames_every 14 7))) = []) /\
  (let s := analyze_frames 8 slowing_frames (test_scheduler 8 0 []) in
   let r := determineTimestampAverage 8 false (116 * NS_PER_MS) s in
   sampled false (116 * NS_PER_MS) s /\
   0 < Z.of_nat (length (mTimeDifferences (snd r))) /\
   14 * Z.of_nat (length (mTimeDifferences (snd r))) <=
     scheduler.sum_int64 (mTimeDifferences (snd r)) <
     15 * Z.of_nat (length (mTimeDifferences (snd r))) /\
   emitted_fps (fst r) = []).
Proof.
  assert (S16 : sampled false (8 * 16 * NS_PER_MS) (frames_every 16 7))
    by (vm_compute; split; [reflexivity | split; discriminate]).
  assert (S14 : sampled false (8 * 14 * NS_PER_MS) (frames_every 14 7))
    by (vm_compute; split; [reflexivity | split; discriminate]).
  assert (M16 : scheduler.calculate_mean
                  (mTimeDifferences
                     (snd (determineTimestampAverage 8 false (8 * 16 * NS_PER_MS)
                             (frames_every 16 7)))) = 16)
    by (vm_compute; reflexivity).
  assert (M14 : scheduler.calculate_mean
                  (mTimeDifferences
                     (snd (determineTimestampAverage 8 false (8 * 14 * NS_PER_MS)
                             (frames_every 14 7)))) = 14)
    by (vm_compute; reflexivity).
  split; [|split].
  - split; [exact S16|]. split; [vm_compute; reflexivity|].
    exact (proj1 (proj2 (proj2 (proj2 (proj2 (proj2 (proj2
             (fps_classification 8 false (8 * 16 * NS_PER_MS) (frames_every 16 7))))))))
             S16 M16).
  - split; [exact S14|]. split; [vm_compute; reflexivity|].
    exact (proj1 (proj2 (proj2 (proj2 (proj2 (proj2
             (fps_classification 8 false (8 * 14 * NS_PER_MS) (frames_every 14 7)))))))
             S14 M14).
  - cbv zeta.
    set (s := analyze_frames 8 slowing_frames (test_scheduler 8 0 [])).
    assert (S : sampled false (116 * NS_PER_MS) s)
      by (vm_compute; split; [reflexivity | split; discriminate]).
    assert (N : 0 < Z.of_nat (length (mTimeDifferences
                  (snd (determineTimestampAverage 8 false (116 * NS_PER_MS) s)))))
      by (vm_compute; reflexivity).
    assert (B : 14 * Z.of_nat (length (mTimeDifferences
                  (snd (determineTimestampAverage 8 false (116 * NS_PER_MS) s)))) <=
                scheduler.sum_int64 (mTimeDifferences
                  (snd (determineTimestampAverage 8 false (116 * NS_PER_MS) s))) <
                15 * Z.of_nat (length (mTimeDifferences
                  (snd (determineTimestampAverage 8 false (116 * NS_PER_MS) s)))))
      by (vm_compute; split; [discriminate | reflexivity]).
    split; [exact S|]. split; [exact N|]. split; [exact B|].
    exact (proj2 (proj2 (proj2
             (proj2 (proj2 (proj2 (proj2 (proj2 (proj2 (proj2
                (fps_classification 8 false (116 * NS_PER_MS) s)))))))
              N))) S B).
Defined.

(** A buffer whose mean is strictly between 14 and 18 and which is not
    classified: after frames at 14, 28, 42, 56, 71, 86 and 101 ms, the frame
    at 116 ms is sampled and leaves the buffer
    [14; 14; 14; 14; 15; 15; 15; 15], of sum 116 and mean 14.5; its mean as
    an [int64_t] is 14, and no bucket is emitted. *)
Lemma fps_mean_between_14_and_15_unclassified :
  let s := analyze_frames 8 slowing_frames (test_scheduler 8 0 []) in
  let r := determineTimestampAverage 8 false (116 * NS_PER_MS) s in
  let buffer := mTimeDifferences (snd r) in
  sampled false (116 * NS_PER_MS) s /\
  buffer = [14; 14; 14; 14; 15; 15; 15; 15] /\
  14 * Z.of_nat (length buffer) < scheduler.sum_int64 buffer
    < 18 * Z.of_nat (length buffer) /\
  scheduler.calculate_mean buffer = 14 /\
  emitted_fps (fst r) = [] /\
  emitted_fps (fst r) <> [60].
Proof.
  cbv zeta.
  split; [vm_compute; split; [reflexivity | split; discriminate]|].
  split; [vm_compute; reflexivity|].
  split; [vm_compute; split; reflexivity|].
  split; [vm_compute; reflexivity|].
  split; [vm_compute; reflexivity|].
  vm_compute. discriminate.
Qed.

(** Eight frames 33 ms apart fill the buffer and are classified as 30 fps;
    one frame too early or too late after them leaves the buffer alone. *)
Example frames_every_33_is_30fps :
  emitted_fps (fst (determineTimestampAverage 8 false (8 * 33 * NS_PER_MS)
                      (frames_every 33 7))) = [30] /\
  mTimeDifferences (frames_every 33 8) = replicate 8 33 /\
  mTimeDifferences (snd (determineTimestampAverage 8 false ((8 * 33 + 5) * NS_PER_MS)
                           (frames_every 33 8))) = replicate 8 33 /\
  mTimeDifferences (snd (determineTimestampAverage 8 false ((8 * 33 + 120) * NS_PER_MS)
                           (frames_every 33 8))) = replicate 8 33.
Proof. repeat split; vm_compute; reflexivity. Qed.

Lemma determineTimestampAverage_effect_witness :
  let s := frames_every 33 9 in
  (* an automatic timestamp *)
  snd (determineTimestampAverage 8 true (10 * 33 * NS_PER_MS) s) = s /\
  (* 5 ms after the last frame: noise *)
  (differenceMs ((9 * 33 + 5) * NS_PER_MS) s = 5 /\
   mTimeDifferences (snd (determineTimestampAverage 8 false ((9 * 33 + 5) * NS_PER_MS) s)) =
     mTimeDifferences s /\
   mCounter (snd (determineTimestampAverage 8 false ((9 * 33 + 5) * NS_PER_MS) s)) =
     mCounter s) /\
  (* 41 ms after the last frame: written at index 9 mod 8 *)
  (differenceMs ((9 * 33 + 41) * NS_PER_MS) s = 41 /\
   mCounter s = 9 /\
   length (mTimeDifferences s) = Z.to_nat 8 /\
   mTimeDifferences (snd (determineTimestampAverage 8 false ((9 * 33 + 41) * NS_PER_MS) s)) =
     <[1%nat := 41]> (mTimeDifferences s) /\
   mTimeDifferences (snd (determineTimestampAverage 8 false ((9 * 33 + 41) * NS_PER_MS) s))
     !! 1%nat = Some 41 /\
   mCounter (snd (determineTimestampAverage 8 false ((9 * 33 + 41) * NS_PER_MS) s)) =
     wrap_size_t (mCounter s + 1)).
Proof.
  cbv zeta.
  pose proof (determineTimestampAverage_effect 8 true (10 * 33 * NS_PER_MS)
                (frames_every 33 9)) as (Hauto & _).
  pose proof (determineTimestampAverage_effect 8 false ((9 * 33 + 5) * NS_PER_MS)
                (frames_every 33 9)) as (_ & Hnoise & _).
  pose proof (determineTimestampAverage_effect 8 false ((9 * 33 + 41) * NS_PER_MS)
                (frames_every 33 9)) as (_ & _ & Hin & Hpos & _).
  assert (D5 : differenceMs ((9 * 33 + 5) * NS_PER_MS) (frames_every 33 9) = 5)
    by (vm_compute; reflexivity).
  assert (D41 : differenceMs ((9 * 33 + 41) * NS_PER_MS) (frames_every 33 9) = 41)
    by (vm_compute; reflexivity).
  assert (C9 : mCounter (frames_every 33 9) = 9) by (vm_compute; reflexivity).
  assert (L8 : length (mTimeDifferences (frames_every 33 9)) = Z.to_nat 8)
    by (vm_compute; reflexivity).
  split; [exact (Hauto eq_refl)|]. split.
  - destruct (Hnoise eq_refl) as (E1 & E2 & _); [rewrite D5; lia|].
    split; [exact D5|]. split; [exact E1|exact E2].
  - destruct (Hin eq_refl) as (E1 & E2 & _); [rewrite D41; lia|].
    destruct (Hpos eq_refl) as (_ & E3 & _); [rewrite D41; lia|lia|exact L8|].
    split; [exact D41|]. split; [exact C9|]. split; [exact L8|].
    rewrite D41, C9 in E1, E3. split; [exact E1|]. split; [exact E3|exact E2].
Defined.

Lemma previous_timestamp_always_updated_witness :
  let s := frames_every 33 9 in
  let late := (9 * 33 + 120) * NS_PER_MS in
  (* a frame 120 ms after the last one is noise, and still the new baseline *)
  differenceMs late s = 120 /\
  mPreviousFrameTimestamp (snd (determineTimestampAverage 8 false late s)) = late /\
  mTimeDifferences (snd (determineTimestampAverage 8 false late s)) = mTimeDifferences s /\
  ATRACE_INT "TimestampDiff" 33
    ∈ fst (determineTimestampAverage 8 false (late + 33 * NS_PER_MS)
             (snd (determineTimestampAverage 8 false late s))).
Proof.
  cbv zeta.
  pose proof (previous_timestamp_always_updated 8 ((9 * 33 + 120) * NS_PER_MS)
                ((9 * 33 + 120) * NS_PER_MS + 33 * NS_PER_MS) (frames_every 33 9))
    as (E1 & E2 & _ & E4).
  assert (D120 : differenceMs ((9 * 33 + 120) * NS_PER_MS) (frames_every 33 9) = 120)
    by (vm_compute; reflexivity).
  assert (D33 : Z.quot (wrap64 ((9 * 33 + 120) * NS_PER_MS + 33 * NS_PER_MS -
                                (9 * 33 + 120) * NS_PER_MS)) NS_PER_MS = 33)
    by (vm_compute; reflexivity).
  split; [exact D120|]. split; [exact E1|]. split.
  - apply E2. rewrite D120. lia.
  - rewrite D33 in E4. apply E4. lia.
Defined.

(** ** The per-layer statistics *)

Section LayerStatistics.

Context {D T C : Type}.

Abbreviation State := (Scheduler D T C).

Lemma last_cons (x d : Z) (l : list Z) : List.last (x :: l) d = List.last l x.
Proof.
  revert x d. induction l as [|y l IH]; intros x d; [done|].
  change (List.last (x :: y :: l) d) with (List.last (y :: l) d).
  by rewrite !IH.
Qed.

Lemma last_app_default (a b : list Z) (d : Z) :
  List.last (a ++ b) d = List.last b (List.last a d).
Proof.
  revert d. induction a as [|e a IH]; intros d; [done|].
  cbn [app]. by rewrite !last_cons, IH.
Qed.

Lemma consecutive_diffs_app (newest : Z) (a b : list Z) :
  consecutive_diffs newest (a ++ b) =
    consecutive_diffs newest a ++ consecutive_diffs (List.last a newest) b.
Proof.
  revert newest. induction a as [|e a IH]; intros newest; [done|].
  cbn [app consecutive_diffs]. by rewrite IH, last_cons.
Qed.

(** The inner loop over one slot. *)
Lemma walk_slot (layerName : string) (slot : LayerHistory.Slot) (newest : Z) (acc : list Z) :
  fold_left (walk_entry layerName) slot (newest, acc) =
    (List.last (slot_entries layerName slot) newest,
     acc ++ List.filter in_layer_band
              (consecutive_diffs newest (slot_entries layerName slot))).
Proof.
  revert newest acc. induction slot as [|[name time] slot IH]; intros newest acc.
  - cbn. by rewrite app_nil_r.
  - cbn [fold_left]. unfold walk_entry at 2. unfold slot_entries.
    cbn [fst snd List.filter].
    destruct (String.eqb name layerName); cbn [negb].
    + rewrite IH. unfold slot_entries.
      cbn [map snd consecutive_diffs List.filter]. rewrite last_cons.
      unfold in_layer_band at 2.
      destruct ((10 <? _) && (_ <? 60)); [|done].
      by rewrite <- app_assoc.
    + apply IH.
Qed.

(** The outer loop over a run of slots. *)
Lemma walk_slots (layerName : string) (slots : list LayerHistory.Slot)
    (newest : Z) (acc : list Z) :
  fold_left (fun st slot => fold_left (walk_entry layerName) slot st) slots (newest, acc) =
    (List.last (layer_entries layerName slots) newest,
     acc ++ List.filter in_layer_band
              (consecutive_diffs newest (layer_entries layerName slots))).
Proof.
  revert newest acc. induction slots as [|slot slots IH]; intros newest acc.
  - cbn. by rewrite app_nil_r.
  - cbn [fold_left layer_entries flat_map]. rewrite walk_slot, IH.
    rewrite consecutive_diffs_app, List.filter_app, last_app_default, app_assoc.
    reflexivity.
Qed.

(** The indices of the loop address the slots behind the current one. *)
Lemma walk_indices_slots (h : LayerHistory.t) :
  map (fun i => LayerHistory.get i h) (walk_indices h) = tail h.
Proof.
  unfold walk_indices, LayerHistory.getSize, LayerHistory.get.
  rewrite Nat2Z.id, map_map.
  destruct h as [|current older]; [done|].
  cbn [length tail]. rewrite Nat.sub_succ, Nat.sub_0_r.
  rewrite <- seq_shift, map_map.
  erewrite map_ext; [|intros i; rewrite Nat2Z.id; cbn [nth]; reflexivity].
  clear current. induction older as [|slot older IH]; [done|].
  cbn [length seq map nth]. f_equal.
  rewrite <- seq_shift, map_map. exact IH.
Qed.

Lemma walk_history_slots (layerName : string) (h : LayerHistory.t) (st : Z * list Z) :
  walk_history layerName h st =
    fold_left (fun st slot => fold_left (walk_entry layerName) slot st) (tail h) st.
Proof.
  unfold walk_history. rewrite <- walk_indices_slots.
  generalize (walk_indices h) as ixs. intros ixs. revert st.
  induction ixs as [|i ixs IH]; intros st; [done|]. cbn. apply IH.
Qed.

Lemma insert_tail (layerName : string) (t : Z) (h : LayerHistory.t) :
  tail (LayerHistory.insert layerName t h) = tail h.
Proof. by destruct h. Qed.

(** The walk computes the spec's consecutive differences of the layer's
    earlier entries, and keeps those inside the band. *)
Lemma layer_differences_spec (layerName : string) (t : Z) (s : State) :
  layer_differences layerName t s =
    List.filter in_layer_band
      (consecutive_diffs t (layer_entries layerName (tail (mLayerHistory s)))).
Proof.
  unfold layer_differences.
  rewrite walk_history_slots, insert_tail, walk_slots. reflexivity.
Qed.

Lemma determineLayerTimestampStats_spec (layerName : string) (t : Z) (s : State) :
  determineLayerTimestampStats layerName t s =
    (layer_stats_trace layerName (layer_differences layerName t s),
     set_mLayerHistory (LayerHistory.insert layerName t (mLayerHistory s)) s).
Proof.
  unfold determineLayerTimestampStats, layer_differences.
  replace (mLayerHistory (set_mLayerHistory _ s))
    with (LayerHistory.insert layerName t (mLayerHistory s)) by (by destruct s).
  by destruct (walk_history _ _ _).
Qed.

(** *** Four frames of one layer *)

Lemma frame_history (layerName : string) (t : Z) (s : State) :
  mLayerHistory (incrementFrameCounter (snd (determineLayerTimestampStats layerName t s))) =
    LayerHistory.incrementCounter (LayerHistory.insert layerName t (mLayerHistory s)).
Proof. rewrite determineLayerTimestampStats_spec. by destruct s. Qed.

Lemma removelast_empty_slots (n : nat) :
  removelast ([] :: replicate n []) = replicate n ([] : LayerHistory.Slot).
Proof.
  induction n as [|n IH]; [done|].
  change (removelast ([] :: replicate (S n) []))
    with (([] : LayerHistory.Slot) :: removelast ([] :: replicate n [])).
  by rewrite IH.
Qed.

Lemma layer_entries_empty_slots (layerName : string) (n : nat) :
  layer_entries layerName (replicate n []) = [].
Proof. induction n as [|n IH]; [done|]. exact IH. Qed.

Lemma slot_entries_own (layerName : string) (t : Z) :
  slot_entries layerName [(layerName, t)] = [t].
Proof. unfold slot_entries. cbn. by rewrite String.eqb_refl. Qed.

(** The history before the fourth frame is analysed: an empty current
    slot, then the three earlier frames, the latest first. *)
Lemma three_frames_history (ARRAY_SIZE : Z) (layerName : string) (s : State) :
  4 <= ARRAY_SIZE ->
  mLayerHistory s = LayerHistory.make (Z.to_nat ARRAY_SIZE) ->
  mLayerHistory (three_frames_presented layerName s) =
    [] :: [(layerName, 33 * NS_PER_MS)] :: [(layerName, 16 * NS_PER_MS)]
       :: [(layerName, 0)] :: replicate (Z.to_nat ARRAY_SIZE - 4) [].
Proof.
  intros Hn Hs. unfold three_frames_presented. rewrite !frame_history, Hs.
  replace (Z.to_nat ARRAY_SIZE) with (4 + (Z.to_nat ARRAY_SIZE - 4))%nat at 1 by lia.
  generalize (Z.to_nat ARRAY_SIZE - 4)%nat as n. intros n.
  unfold LayerHistory.make.
  cbn [Nat.add replicate LayerHistory.insert LayerHistory.slot_insert existsb app
       LayerHistory.incrementCounter].
  change (removelast ([(layerName, 0)] :: [] :: [] :: [] :: replicate n []))
    with ([(layerName, 0)] :: [] :: ([] : LayerHistory.Slot)
            :: removelast ([] :: replicate n [])).
  rewrite removelast_empty_slots.
  cbn [LayerHistory.insert LayerHistory.slot_insert existsb app
       LayerHistory.incrementCounter].
  change (removelast ([(layerName, 16 * NS_PER_MS)] :: [(layerName, 0)] :: []
                        :: [] :: replicate n []))
    with ([(layerName, 16 * NS_PER_MS)] :: [(layerName, 0)] :: ([] : LayerHistory.Slot)
            :: removelast ([] :: replicate n [])).
  rewrite removelast_empty_slots.
  cbn [LayerHistory.insert LayerHistory.slot_insert existsb app
       LayerHistory.incrementCounter].
  change (removelast ([(layerName, 33 * NS_PER_MS)] :: [(layerName, 16 * NS_PER_MS)]
                        :: [(layerName, 0)] :: [] :: replicate n []))
    with ([(layerName, 33 * NS_PER_MS)] :: [(layerName, 16 * NS_PER_MS)]
            :: [(layerName, 0)] :: removelast ([] :: replicate n [])).
  by rewrite removelast_empty_slots.
Qed.

Lemma three_frames_differences (ARRAY_SIZE : Z) (layerName : string) (s : State) :
  4 <= ARRAY_SIZE ->
  mLayerHistory s = LayerHistory.make (Z.to_nat ARRAY_SIZE) ->
  layer_differences layerName (49 * NS_PER_MS) (three_frames_presented layerName s) =
    [16; 17; 16].
Proof.
  intros Hn Hs. rewrite layer_differences_spec, (three_frames_history ARRAY_SIZE) by done.
  cbn [tail layer_entries flat_map].
  change (flat_map (slot_entries layerName) (replicate (Z.to_nat ARRAY_SIZE - 4) []))
    with (layer_entries layerName (replicate (Z.to_nat ARRAY_SIZE - 4) [])).
  rewrite !slot_entries_own, layer_entries_empty_slots.
  vm_compute. reflexivity.
Qed.

(** C8 (amended): the walk computes each difference against the layer's
    entry seen just before it (the first against the incoming frame's
    time), keeps the differences strictly between 10 and 60 ms, and, when
    the list it ends with is not empty, emits its mean, median and mode,
    each as an integer: the mean is the exact mean truncated. Frames of
    layer "A" at 0, 16, 33 and 49 ms, each in a frame slot of its own, in a
    history of at least four slots, give the differences [16, 17, 16] and
    the samples mean 16, median 16 and mode 16. *)
Theorem layer_statistics (ARRAY_SIZE : Z) (layerName : string) (t : Z) (s s0 : State) :
  let differencesMs := layer_differences layerName t s in
  let tr := fst (determineLayerTimestampStats layerName t s) in
  differencesMs =
    List.filter in_layer_band
      (consecutive_diffs t (layer_entries layerName (tail (mLayerHistory s)))) /\
  (forall d, d ∈ differencesMs -> 10 < d < 60) /\
  (differencesMs = [] -> tr = []) /\
  (differencesMs <> [] ->
     tr = [ATRACE_INT ("TimestampMean_" ++ layerName)
             (Z.quot (scheduler.sum_int64 differencesMs) (Z.of_nat (length differencesMs)));
           ATRACE_INT ("TimestampMedian_" ++ layerName)
             (scheduler.calculate_median differencesMs);
           ATRACE_INT ("TimestampMode_" ++ layerName)
             (scheduler.calculate_mode differencesMs)]) /\
  (4 <= ARRAY_SIZE ->
   mLayerHistory s0 = LayerHistory.make (Z.to_nat ARRAY_SIZE) ->
     layer_differences "A" (49 * NS_PER_MS) (three_frames_presented "A" s0) = [16; 17; 16] /\
     fst (determineLayerTimestampStats "A" (49 * NS_PER_MS) (three_frames_presented "A" s0)) =
       [ATRACE_INT "TimestampMean_A" 16; ATRACE_INT "TimestampMedian_A" 16;
        ATRACE_INT "TimestampMode_A" 16]).
Proof.
  cbv zeta. rewrite determineLayerTimestampStats_spec. cbn [fst].
  split; [apply layer_differences_spec|]. split; [|split; [|split]].
  - intros d. rewrite layer_differences_spec, list_elem_of_In, List.filter_In.
    unfold in_layer_band. intros [_ Hd]. apply andb_prop in Hd as [H1 H2].
    apply Z.ltb_lt in H1, H2. lia.
  - by intros ->.
  - destruct (layer_differences layerName t s); [done|reflexivity].
  - intros Hn Hs0. rewrite determineLayerTimestampStats_spec. cbn [fst].
    rewrite (three_frames_differences ARRAY_SIZE) by done.
    split; [reflexivity|]. vm_compute. reflexivity.
Qed.

End LayerStatistics.

(** C8, as stated, fails in its example: for the frames at 0, 16, 33 and
    49 ms the mean that is emitted is the integer 16. It is not the exact
    mean of [16, 17, 16] (three times it is not 49) and not within a
    hundredth of 16.33. *)
Lemma layer_mean_emitted_as_integer :
  let s := three_frames_presented "A" (test_scheduler 8 0 []) in
  let tr := fst (determineLayerTimestampStats "A" (49 * NS_PER_MS) s) in
  layer_differences "A" (49 * NS_PER_MS) s = [16; 17; 16] /\
  tr = [ATRACE_INT "TimestampMean_A" 16; ATRACE_INT "TimestampMedian_A" 16;
        ATRACE_INT "TimestampMode_A" 16] /\
  forall m, ATRACE_INT "TimestampMean_A" m ∈ tr ->
            m = 16 /\ 3 * m <> 16 + 17 + 16 /\ ~ (1632 <= 100 * m <= 1634).
Proof.
  cbv zeta.
  assert (E : fst (determineLayerTimestampStats "A" (49 * NS_PER_MS)
                     (three_frames_presented "A" (test_scheduler 8 0 []))) =
              [ATRACE_INT "TimestampMean_A" 16; ATRACE_INT "TimestampMedian_A" 16;
               ATRACE_INT "TimestampMode_A" 16]) by (vm_compute; reflexivity).
  split; [vm_compute; reflexivity|]. split; [exact E|].
  intros m Hm. rewrite E in Hm.
  assert (m = 16) as ->.
  { apply list_elem_of_In in Hm. cbn in Hm.
    destruct Hm as [Hm | [Hm | [Hm | []]]]; [by injection Hm| |]; discriminate Hm. }
  split; [reflexivity|]. lia.
Qed.

Lemma layer_statistics_witness :
  let s0 := test_scheduler 8 0 [] in
  4 <= 8 /\
  mLayerHistory s0 = LayerHistory.make (Z.to_nat 8) /\
  layer_differences "A" (49 * NS_PER_MS) (three_frames_presented "A" s0) = [16; 17; 16] /\
  fst (determineLayerTimestampStats "A" (49 * NS_PER_MS) (three_frames_presented "A" s0)) =
    [ATRACE_INT "TimestampMean_A" 16; ATRACE_INT "TimestampMedian_A" 16;
     ATRACE_INT "TimestampMode_A" 16].
Proof.
  cbv zeta.
  assert (H4 : 4 <= 8) by lia.
  assert (Hs : mLayerHistory (test_scheduler 8 0 []) = LayerHistory.make (Z.to_nat 8))
    by reflexivity.
  split; [exact H4|]. split; [exact Hs|].
  exact (proj2 (proj2 (proj2 (proj2
           (layer_statistics 8 "A" 0 (test_scheduler 8 0 []) (test_scheduler 8 0 []))))) H4 Hs).
Defined.

(** ** What each call touches *)

Section Footprints.

Context {D T C Cb : Type}.
Context `{!DispSync.Ops D} `{!EventThread.Ops T C Cb}.
Variable ARRAY_SIZE : Z.

Abbreviation State := (Scheduler D T C).

Lemma on_thread_outside (id : Z) (f : T -> T) (s : State) :
  analyzer_part (on_thread id f s) = analyzer_part s /\
  hw_part (on_thread id f s) = hw_part s.
Proof. unfold on_thread. destruct (mConnections s !! id); by destruct s. Qed.

Lemma set_mPrimaryDispSync_outside (d : D) (s : State) :
  registry_part (set_mPrimaryDispSync d s) = registry_part s /\
  analyzer_part (set_mPrimaryDispSync d s) = analyzer_part s.
Proof. by destruct s. Qed.

Lemma enableHardwareVsync_outside (s : State) :
  registry_part (enableHardwareVsync s) = registry_part s /\
  analyzer_part (enableHardwareVsync s) = analyzer_part s.
Proof. unfold enableHardwareVsync. case_match; by destruct s. Qed.

Lemma disableHardwareVsync_outside (b : bool) (s : State) :
  registry_part (disableHardwareVsync b s) = registry_part s /\
  analyzer_part (disableHardwareVsync b s) = analyzer_part s.
Proof. unfold disableHardwareVsync. repeat case_match; by destruct s. Qed.

Lemma outside_trans (s1 s2 s3 : State) :
  registry_part s2 = registry_part s1 /\ analyzer_part s2 = analyzer_part s1 ->
  registry_part s3 = registry_part s2 /\ analyzer_part s3 = analyzer_part s2 ->
  registry_part s3 = registry_part s1 /\ analyzer_part s3 = analyzer_part s1.
Proof. intros [? ?] [? ?]. split; congruence. Qed.

Lemma addResyncSample_outside (t : Z) (s : State) :
  registry_part (addResyncSample t s) = registry_part s /\
  analyzer_part (addResyncSample t s) = analyzer_part s.
Proof.
  unfold addResyncSample, addResyncSample_locked.
  destruct (mPrimaryHWVsyncEnabled s).
  - destruct (DispSync.addResyncSample t (mPrimaryDispSync s)) as [[] d];
      (eapply outside_trans; [apply set_mPrimaryDispSync_outside|]);
      auto using enableHardwareVsync_outside, disableHardwareVsync_outside.
  - apply disableHardwareVsync_outside.
Qed.

Lemma addPresentFence_outside (f : Z) (s : State) :
  registry_part (addPresentFence f s) = registry_part s /\
  analyzer_part (addPresentFence f s) = analyzer_part s.
Proof.
  unfold addPresentFence.
  destruct (DispSync.addPresentFence f (mPrimaryDispSync s)) as [[] d];
    (eapply outside_trans; [apply set_mPrimaryDispSync_outside|]);
    auto using enableHardwareVsync_outside, disableHardwareVsync_outside.
Qed.

Lemma setVsyncPeriod_outside (p : Z) (s : State) :
  registry_part (setVsyncPeriod p s) = registry_part s /\
  analyzer_part (setVsyncPeriod p s) = analyzer_part s.
Proof.
  unfold setVsyncPeriod.
  eapply outside_trans; [|apply enableHardwareVsync_outside].
  eapply outside_trans; apply set_mPrimaryDispSync_outside.
Qed.

Lemma determineTimestampAverage_outside (a : bool) (t : Z) (s : State) :
  registry_part (snd (determineTimestampAverage ARRAY_SIZE a t s)) = registry_part s /\
  hw_part (snd (determineTimestampAverage ARRAY_SIZE a t s)) = hw_part s /\
  mLayerHistory (snd (determineTimestampAverage ARRAY_SIZE a t s)) = mLayerHistory s.
Proof. unfold determineTimestampAverage. repeat case_match; by destruct s. Qed.

Lemma determineLayerTimestampStats_outside (n : string) (t : Z) (s : State) :
  registry_part (snd (determineLayerTimestampStats n t s)) = registry_part s /\
  hw_part (snd (determineLayerTimestampStats n t s)) = hw_part s /\
  mPreviousFrameTimestamp (snd (determineLayerTimestampStats n t s)) =
    mPreviousFrameTimestamp s /\
  mTimeDifferences (snd (determineLayerTimestampStats n t s)) = mTimeDifferences s /\
  mCounter (snd (determineLayerTimestampStats n t s)) = mCounter s.
Proof. unfold determineLayerTimestampStats. case_match. by destruct s. Qed.

Lemma addFramePresentTimeForLayer_split (t : Z) (a : bool) (n : string) (s : State) :
  addFramePresentTimeForLayer ARRAY_SIZE t a n s =
    (fst (determineTimestampAverage ARRAY_SIZE a t s) ++
     fst (determineLayerTimestampStats n t (snd (determineTimestampAverage ARRAY_SIZE a t s))),
     snd (determineLayerTimestampStats n t (snd (determineTimestampAverage ARRAY_SIZE a t s)))).
Proof.
  unfold addFramePresentTimeForLayer.
  destruct (determineTimestampAverage ARRAY_SIZE a t s) as [tr1 s1]. cbn [fst snd].
  by destruct (determineLayerTimestampStats n t s1).
Qed.

Lemma addFramePresentTimeForLayer_outside (t : Z) (a : bool) (n : string) (s : State) :
  registry_part (snd (addFramePresentTimeForLayer ARRAY_SIZE t a n s)) = registry_part s /\
  hw_part (snd (addFramePresentTimeForLayer ARRAY_SIZE t a n s)) = hw_part s.
Proof.
  rewrite addFramePresentTimeForLayer_split. cbn [snd].
  destruct (determineTimestampAverage_outside a t s) as (R1 & H1 & _).
  destruct (determineLayerTimestampStats_outside n t
              (snd (determineTimestampAverage ARRAY_SIZE a t s))) as (R2 & H2 & _).
  split; congruence.
Qed.

(** The members a call leaves alone, by the kind of the call. *)
Lemma call_footprint (c : Call Cb) (s : State) :
  (registry_call c = false ->
     registry_part (snd (call ARRAY_SIZE c s)) = registry_part s) /\
  (analyzer_call c = false ->
     analyzer_part (snd (call ARRAY_SIZE c s)) = analyzer_part s) /\
  (hw_call c = false -> hw_part (snd (call ARRAY_SIZE c s)) = hw_part s).
Proof.
  destruct c; cbn [call snd registry_call analyzer_call hw_call negb andb];
    (split; [|split]); try discriminate; intros _.
  - unfold createConnection. destruct (EventThread.createEventConnection _).
    by destruct s.
  - unfold createConnection. destruct (EventThread.createEventConnection _).
    by destruct s.
  - unfold createDisplayEventConnection.
    destruct (invalid handle0 s), handle0 as [id|]; try done.
    destruct (mConnections s !! id); try done.
    destruct (EventThread.createEventConnection _). apply on_thread_outside.
  - unfold createDisplayEventConnection.
    destruct (invalid handle0 s), handle0 as [id|]; try done.
    destruct (mConnections s !! id); try done.
    destruct (EventThread.createEventConnection _). apply on_thread_outside.
  - unfold hotplugReceived.
    destruct (invalid handle0 s), handle0; try done. apply on_thread_outside.
  - unfold hotplugReceived.
    destruct (invalid handle0 s), handle0; try done. apply on_thread_outside.
  - unfold onScreenAcquired.
    destruct (invalid handle0 s), handle0; try done. apply on_thread_outside.
  - unfold onScreenAcquired.
    destruct (invalid handle0 s), handle0; try done. apply on_thread_outside.
  - unfold onScreenReleased.
    destruct (invalid handle0 s), handle0; try done. apply on_thread_outside.
  - unfold onScreenReleased.
    destruct (invalid handle0 s), handle0; try done. apply on_thread_outside.
  - unfold setPhaseOffset.
    destruct (invalid handle0 s), handle0; try done. apply on_thread_outside.
  - unfold setPhaseOffset.
    destruct (invalid handle0 s), handle0; try done. apply on_thread_outside.
  - apply enableHardwareVsync_outside.
  - apply enableHardwareVsync_outside.
  - apply disableHardwareVsync_outside.
  - apply disableHardwareVsync_outside.
  - apply setVsyncPeriod_outside.
  - apply setVsyncPeriod_outside.
  - apply addResyncSample_outside.
  - apply addResyncSample_outside.
  - apply addPresentFence_outside.
  - apply addPresentFence_outside.
  - by destruct s.
  - by destruct s.
  - by destruct s.
  - by destruct s.
  - apply addFramePresentTimeForLayer_outside.
  - apply addFramePresentTimeForLayer_outside.
  - by destruct s.
  - by destruct s.
  - unfold updateFrameSkipping. case_match; by destruct s.
  - unfold updateFrameSkipping. case_match; by destruct s.
Qed.

End Footprints.

(** ** Invariants of the hardware-vsync members *)

Section HwInvariants.

Context {D T C Cb : Type}.
Context `{!DispSync.Ops D} `{!EventThread.Ops T C Cb}.
Variable ARRAY_SIZE : Z.

Abbreviation State := (Scheduler D T C).

(** A property of the hardware-vsync members is kept by a call as soon as
    the two transitions, the plain requests to [DispSync] and
    [updateFrameSkipping] keep it. *)
Variable P : State -> Prop.
Variable allowed : bool -> Prop.

Hypothesis P_hw_part : forall s s', hw_part s' = hw_part s -> P s -> P s'.
Hypothesis P_request :
  forall s d', dispSync_request (mPrimaryDispSync s) d' -> P s -> P (set_mPrimaryDispSync d' s).
Hypothesis P_skip : forall n s, P s -> P (snd (updateFrameSkipping n s)).
Hypothesis P_enable : forall s, P s -> P (enableHardwareVsync s).
Hypothesis P_disable : forall b s, P s -> P (disableHardwareVsync b s).
Hypothesis P_available : forall b s, allowed b -> P s -> P (makeHWSyncAvailable b s).

Lemma call_keeps (c : Call Cb) (s : State) :
  (forall b, c = MakeHWSyncAvailable b -> allowed b) ->
  P s -> P (snd (call ARRAY_SIZE c s)).
Proof.
  intros Hc Hs.
  destruct (hw_call c) eqn:Ehw.
  - destruct c; try discriminate Ehw; cbn [call snd].
    + by apply P_enable.
    + by apply P_disable.
    + unfold setVsyncPeriod. apply P_enable.
      apply P_request; [apply request_setPeriod|].
      apply P_request; [apply request_reset|done].
    + unfold addResyncSample, addResyncSample_locked.
      destruct (mPrimaryHWVsyncEnabled s); [|by apply P_disable].
      pose proof (request_addResyncSample timestamp (mPrimaryDispSync s)) as Hr.
      destruct (DispSync.addResyncSample timestamp (mPrimaryDispSync s)) as [[] d];
        [apply P_enable|apply P_disable]; by apply P_request.
    + unfold addPresentFence.
      pose proof (request_addPresentFence fenceTime (mPrimaryDispSync s)) as Hr.
      destruct (DispSync.addPresentFence fenceTime (mPrimaryDispSync s)) as [[] d];
        [apply P_enable|apply P_disable]; by apply P_request.
    + apply P_request; [apply request_setIgnorePresentFences|done].
    + apply P_available; [by apply Hc|done].
    + by apply P_skip.
  - destruct (call_footprint ARRAY_SIZE c s) as (_ & _ & Hhw).
    by eapply P_hw_part; [apply Hhw|].
Qed.

Lemma calls_keep (cs : list (Call Cb)) (s : State) :
  Forall (fun c => forall b, c = MakeHWSyncAvailable b -> allowed b) cs ->
  P s ->
  P (snd (calls ARRAY_SIZE cs s)) /\ Forall P (states ARRAY_SIZE cs s).
Proof.
  revert s. induction cs as [|c cs IH]; intros s Hcs Hs; [by split; [|constructor]|].
  apply Forall_cons in Hcs as [Hc Hcs].
  destruct (calls_cons ARRAY_SIZE c cs s) as [_ ->].
  pose proof (call_keeps c s Hc Hs) as Hs'.
  destruct (IH _ Hcs Hs') as [H1 H2].
  split; [done|]. cbn [states]. by constructor.
Qed.

End HwInvariants.

(** ** Hardware vsync control: transitions and the toggle *)

Section HardwareVsyncTransitions.

Context {D T C Cb : Type}.
Context `{!DispSync.Ops D} `{!EventThread.Ops T C Cb}.
Variable ARRAY_SIZE : Z.

Abbreviation State := (Scheduler D T C).

Lemma hw_part_inv (s s' : State) :
  hw_part s' = hw_part s ->
  mPrimaryHWVsyncEnabled s' = mPrimaryHWVsyncEnabled s /\
  mHWVsyncAvailable s' = mHWVsyncAvailable s /\
  mEventControlThread s' = mEventControlThread s /\
  mPrimaryDispSync s' = mPrimaryDispSync s.
Proof. unfold hw_part. intros [= -> -> -> -> _]. done. Qed.

(** X5: once hardware vsync has been disabled and made unavailable
    ([disableHardwareVsync(true)]), no sequence of calls that does not hold
    [makeHWSyncAvailable(true)] turns it on again: after each call both flags
    are false and the hardware toggle has received nothing new. *)
Theorem unavailable_blocks_enabling (s0 : State) (cs : list (Call Cb)) :
  Forall (fun c => c <> MakeHWSyncAvailable true) cs ->
  let s := disableHardwareVsync true s0 in
  mPrimaryHWVsyncEnabled s = false /\
  mHWVsyncAvailable s = false /\
  Forall (fun s' => mPrimaryHWVsyncEnabled s' = false /\
                    mHWVsyncAvailable s' = false /\
                    mEventControlThread s' = mEventControlThread s)
         (states ARRAY_SIZE cs s).
Proof.
  intros Hcs s.
  assert (Hs : mPrimaryHWVsyncEnabled s = false /\ mHWVsyncAvailable s = false /\
               mEventControlThread s = mEventControlThread s).
  { subst s. unfold disableHardwareVsync.
    destruct s0 as [? ? en ? ? ? ? ? ? ? ?]. by destruct en. }
  split; [apply Hs|]. split; [apply Hs|].
  apply (calls_keep ARRAY_SIZE
           (fun s' => mPrimaryHWVsyncEnabled s' = false /\ mHWVsyncAvailable s' = false /\
                      mEventControlThread s' = mEventControlThread s)
           (fun b => b = false)).
  - intros s1 s2 E (H1 & H2 & H3).
    destruct (hw_part_inv _ _ E) as (-> & -> & -> & _). done.
  - intros s1 d' _ H1. by destruct s1.
  - intros n s1 H1. unfold updateFrameSkipping. case_match; by destruct s1.
  - intros s1 (H1 & H2 & H3). unfold enableHardwareVsync. by rewrite H1, H2.
  - intros b s1 (H1 & H2 & H3). unfold disableHardwareVsync. rewrite H1.
    destruct b; [|done]. by destruct s1.
  - intros b s1 -> (H1 & H2 & H3). by destruct s1.
  - eapply Forall_impl; [exact Hcs|]. intros c Hc [] ->; [done|reflexivity].
  - exact Hs.
Qed.

Lemma toggle_step (log : list bool) (b : bool) :
  (forall i x, log !! i = Some x -> x = Nat.even i) ->
  negb b = Nat.odd (length log) ->
  (forall i x, (log ++ [b]) !! i = Some x -> x = Nat.even i) /\
  b = Nat.odd (length (log ++ [b])).
Proof.
  intros Hlog Hb.
  assert (Eb : b = Nat.even (length log)).
  { rewrite <- Nat.negb_odd, <- Hb. by destruct b. }
  split.
  - intros i x. rewrite lookup_app. destruct (log !! i) eqn:E.
    + intros [= <-]. by apply Hlog.
    + apply lookup_ge_None in E.
      destruct (i - length log)%nat eqn:Ei; [|done].
      intros [= <-]. replace i with (length log) by lia. done.
  - rewrite length_app. cbn. rewrite Nat.add_1_r, Nat.odd_succ. done.
Qed.

(** X6: in a scheduler used from its construction on, the requests the
    hardware toggle has received alternate, on first: the request number [i]
    (from 0) is [setVsyncEnabled(true)] exactly when [i] is even. The toggle
    is only told of transitions, and the enabled flag is its last request
    (false when there is none). *)
Theorem toggle_requests_alternate (nextId : Z) (dispSync : D) (cs : list (Call Cb)) :
  let s : State := snd (calls ARRAY_SIZE cs (Scheduler_new ARRAY_SIZE nextId dispSync)) in
  (forall i b, mEventControlThread s !! i = Some b -> b = Nat.even i) /\
  mPrimaryHWVsyncEnabled s = Nat.odd (length (mEventControlThread s)) /\
  mPrimaryHWVsyncEnabled s = List.last (mEventControlThread s) false.
Proof.
  cbv zeta.
  assert (Hlast : forall log : list bool,
            (forall i b, log !! i = Some b -> b = Nat.even i) ->
            List.last log false = Nat.odd (length log)).
  { intros log Hlog. destruct log as [|x log] using rev_ind; [done|].
    rewrite last_last, length_app. cbn. rewrite Nat.add_1_r, Nat.odd_succ.
    apply (Hlog (length log)). by rewrite lookup_app_r, Nat.sub_diag. }
  set (P := fun s : State =>
              (forall i b, mEventControlThread s !! i = Some b -> b = Nat.even i) /\
              mPrimaryHWVsyncEnabled s = Nat.odd (length (mEventControlThread s))).
  enough (H1 : P (snd (calls ARRAY_SIZE cs (Scheduler_new ARRAY_SIZE nextId dispSync)))).
  { destruct H1 as [H1 H2]. split; [done|]. split; [done|]. by rewrite Hlast. }
  refine (proj1 (calls_keep ARRAY_SIZE P (fun _ => True) _ _ _ _ _ _ cs _ _ _)); unfold P.
  - intros s1 s2 E. destruct (hw_part_inv _ _ E) as (-> & _ & -> & _). done.
  - intros s1 d' _. by destruct s1.
  - intros n s1. unfold updateFrameSkipping. case_match; by destruct s1.
  - intros s1 [H1 H2]. unfold enableHardwareVsync.
    destruct (mPrimaryHWVsyncEnabled s1) eqn:En; [cbn [negb andb]; by rewrite En|].
    destruct (mHWVsyncAvailable s1); [|cbn [negb andb]; by rewrite En].
    destruct (toggle_step (mEventControlThread s1) true H1) as [H3 H4]; [by rewrite <- H2|].
    destruct s1. exact (conj H3 H4).
  - intros b s1 [H1 H2].
    assert (Hd : P (disableHardwareVsync false s1)).
    { unfold P, disableHardwareVsync.
      destruct (mPrimaryHWVsyncEnabled s1) eqn:En; [|by rewrite En].
      destruct (toggle_step (mEventControlThread s1) false H1) as [H3 H4]; [by rewrite <- H2|].
      destruct s1. exact (conj H3 H4). }
    destruct b; [|exact Hd].
    unfold P, disableHardwareVsync in *.
    destruct (mPrimaryHWVsyncEnabled s1); destruct s1; exact Hd.
  - intros b s1 _. by destruct s1.
  - apply Forall_forall. done.
  - split; [|done]. intros i b. cbn. discriminate.
Qed.

(** X8: when hardware vsync is enabled and [DispSync] answers a resync
    sample with "no more needed", the call turns hardware vsync off: the
    flag is false, the toggle receives exactly [setVsyncEnabled(false)],
    [DispSync] ends its resync right after taking the sample, availability
    is untouched. From then on resync samples are dropped: a further call
    changes nothing. *)
Theorem resync_sample_locked_disables (t : Z) (s : State) :
  mPrimaryHWVsyncEnabled s = true ->
  fst (DispSync.addResyncSample t (mPrimaryDispSync s)) = false ->
  let s' := addResyncSample t s in
  mPrimaryHWVsyncEnabled s' = false /\
  mHWVsyncAvailable s' = mHWVsyncAvailable s /\
  mEventControlThread s' = mEventControlThread s ++ [false] /\
  mPrimaryDispSync s' =
    DispSync.endResync (snd (DispSync.addResyncSample t (mPrimaryDispSync s))) /\
  registry_part s' = registry_part s /\
  analyzer_part s' = analyzer_part s /\
  forall t', addResyncSample t' s' = s'.
Proof.
  intros En Hno. cbv zeta.
  assert (E : addResyncSample t s =
              disableHardwareVsync false
                (set_mPrimaryDispSync
                   (snd (DispSync.addResyncSample t (mPrimaryDispSync s))) s)).
  { unfold addResyncSample, addResyncSample_locked. rewrite En.
    destruct (DispSync.addResyncSample t (mPrimaryDispSync s)) as [b d].
    cbn in Hno. by subst b. }
  assert (En' : mPrimaryHWVsyncEnabled (addResyncSample t s) = false).
  { rewrite E. unfold disableHardwareVsync. destruct s; cbn in *. by subst. }
  split; [exact En'|].
  repeat split.
  - rewrite E. unfold disableHardwareVsync. destruct s; cbn in *. by subst.
  - rewrite E. unfold disableHardwareVsync. destruct s; cbn in *. by subst.
  - rewrite E. unfold disableHardwareVsync. destruct s; cbn in *. by subst.
  - apply addResyncSample_outside.
  - apply addResyncSample_outside.
  - intros t'. by apply addResyncSample_disabled.
Qed.

End HardwareVsyncTransitions.

(** ** What the timing model is asked, on a recording [DispSync] *)

Section RecordedRequests.

Context {T C Cb : Type}.
Context `{!EventThread.Ops T C Cb}.
Variable ARRAY_SIZE : Z.

Abbreviation State := (Scheduler RecordingDispSync.t T C).

Lemma resync_log_snoc (l : list RecordingDispSync.Request) (r : RecordingDispSync.Request) :
  resync_log (l ++ [r]) = resync_log l ++ resync_log [r].
Proof. unfold resync_log. apply flat_map_app. Qed.

Lemma skip_count_requests_snoc
    (l : list RecordingDispSync.Request) (r : RecordingDispSync.Request) :
  skip_count_requests (l ++ [r]) = skip_count_requests l ++ skip_count_requests [r].
Proof. unfold skip_count_requests. apply flat_map_app. Qed.

Lemma each_differs_snoc (previous x : Z) (l : list Z) :
  each_differs previous l -> x <> List.last l previous ->
  each_differs previous (l ++ [x]).
Proof.
  revert previous. induction l as [|y l IH]; intros previous Hl Hx; [done|].
  destruct Hl as [Hy Hl]. split; [done|]. apply IH; [done|].
  by rewrite last_cons in Hx.
Qed.

(** X7: in a scheduler used from its construction on, the resync brackets
    [DispSync] has received are the requests the hardware toggle has
    received, in the same order: each [setVsyncEnabled(true)] goes with a
    [beginResync], each [setVsyncEnabled(false)] with an [endResync], and
    there is no bracket without a request to the toggle. *)
Theorem resync_brackets_follow_toggle
    (nextId : Z) (script : list bool) (cs : list (Call Cb)) :
  let s : State :=
    snd (calls ARRAY_SIZE cs
           (Scheduler_new ARRAY_SIZE nextId (RecordingDispSync.make script))) in
  resync_log (RecordingDispSync.received (mPrimaryDispSync s)) = mEventControlThread s.
Proof.
  cbv zeta.
  set (P := fun s : State =>
              resync_log (RecordingDispSync.received (mPrimaryDispSync s)) =
                mEventControlThread s).
  refine (proj1 (calls_keep ARRAY_SIZE P (fun _ => True) _ _ _ _ _ _ cs _ _ _)); unfold P.
  - intros s1 s2 E. destruct (hw_part_inv _ _ E) as (_ & _ & -> & ->). done.
  - intros s1 d' Hr H1.
    assert (resync_log (RecordingDispSync.received d') =
            resync_log (RecordingDispSync.received (mPrimaryDispSync s1))) as Hd.
    { inversion Hr; subst; cbn; by rewrite resync_log_snoc, app_nil_r. }
    destruct s1; cbn in *. congruence.
  - intros n s1 H1. unfold updateFrameSkipping. case_match; [done|].
    destruct s1; cbn in *. by rewrite resync_log_snoc, app_nil_r.
  - intros s1 H1. unfold enableHardwareVsync. case_match; [|done].
    destruct s1; cbn in *. rewrite resync_log_snoc. by f_equal.
  - intros b s1 H1.
    assert (Hd : P (disableHardwareVsync false s1)).
    { unfold P, disableHardwareVsync. case_match; [|done].
      destruct s1; cbn in *. rewrite resync_log_snoc. by f_equal. }
    destruct b; [|exact Hd].
    unfold P, disableHardwareVsync in *.
    destruct (mPrimaryHWVsyncEnabled s1); destruct s1; exact Hd.
  - intros b s1 _. by destruct s1.
  - apply Forall_forall. done.
  - reflexivity.
Qed.

(** X1: in a scheduler used from its construction on, [DispSync] is told a
    skip count only when it changes: the counts it has received through
    [setRefreshSkipCount] differ each from the one before, the first from
    the initial 0, and [mSkipCount] is the last of them (0 when there is
    none). No other call than [updateFrameSkipping] makes such a request. *)
Theorem skip_count_forwarded_on_change
    (nextId : Z) (script : list bool) (cs : list (Call Cb)) :
  let s : State :=
    snd (calls ARRAY_SIZE cs
           (Scheduler_new ARRAY_SIZE nextId (RecordingDispSync.make script))) in
  let sent := skip_count_requests (RecordingDispSync.received (mPrimaryDispSync s)) in
  each_differs 0 sent /\ mSkipCount s = List.last sent 0.
Proof.
  cbv zeta.
  set (P := fun s : State =>
              each_differs 0
                (skip_count_requests (RecordingDispSync.received (mPrimaryDispSync s))) /\
              mSkipCount s =
                List.last (skip_count_requests
                             (RecordingDispSync.received (mPrimaryDispSync s))) 0).
  assert (Hbracket : forall (s1 : State) (r : RecordingDispSync.Request),
            skip_count_requests [r] = [] ->
            P s1 ->
            P (set_mPrimaryDispSync (RecordingDispSync.record r (mPrimaryDispSync s1)) s1)).
  { intros s1 r Hr H1. unfold P in *. destruct s1.
    cbn [mPrimaryDispSync mSkipCount set_mPrimaryDispSync RecordingDispSync.record
         RecordingDispSync.received] in *.
    by rewrite skip_count_requests_snoc, Hr, app_nil_r. }
  refine (proj1 (calls_keep ARRAY_SIZE P (fun _ => True) _ _ _ _ _ _ cs _ _ _)).
  - intros s1 s2 E. unfold P, hw_part in *. injection E as _ _ _ E1 E2.
    by rewrite E1, E2.
  - intros s1 d' Hr H1.
    inversion Hr; subst; unfold P in *; destruct s1; cbn in *;
      by rewrite skip_count_requests_snoc, app_nil_r.
  - intros n s1 [H1 H2]. unfold updateFrameSkipping.
    destruct (Z.eqb_spec (mSkipCount s1) n) as [E|E]; [done|].
    unfold P. destruct s1; cbn in *.
    rewrite skip_count_requests_snoc. cbn.
    split; [apply each_differs_snoc; [done|congruence]|].
    by rewrite last_last.
  - intros s1 H1. unfold enableHardwareVsync. case_match; [|done].
    pose proof (Hbracket s1 RecordingDispSync.BeginResync eq_refl H1) as H2.
    unfold P in *. by destruct s1.
  - intros b s1 H1.
    assert (Hd : P (disableHardwareVsync false s1)).
    { unfold disableHardwareVsync. case_match; [|done].
      pose proof (Hbracket s1 RecordingDispSync.EndResync eq_refl H1) as H2.
      unfold P in *. by destruct s1. }
    destruct b; [|exact Hd].
    unfold P, disableHardwareVsync in *.
    destruct (mPrimaryHWVsyncEnabled s1); destruct s1; exact Hd.
  - intros b s1 _ H1. unfold P in *. by destruct s1.
  - apply Forall_forall. done.
  - by split.
Qed.

End RecordedRequests.

(** ** The registry over the life of a scheduler *)

Section RegistryLifecycle.

Context {D T C Cb : Type}.
Context `{!DispSync.Ops D} `{!EventThread.Ops T C Cb}.
Variable ARRAY_SIZE : Z.

Abbreviation State := (Scheduler D T C).

Lemma set_thread_same (conn : Connection T C) : set_thread (thread conn) conn = conn.
Proof. by destruct conn. Qed.

Lemma on_thread_found (id : Z) (f : T -> T) (conn : Connection T C) (s : State) :
  mConnections s !! id = Some conn ->
  on_thread id f s =
    set_mConnections (<[id := set_thread (f (thread conn)) conn]> (mConnections s)) s.
Proof. intros E. unfold on_thread. by rewrite E. Qed.

Lemma on_thread_lookup (id k : Z) (f : T -> T) (s : State) :
  mConnections (on_thread id f s) !! k =
    if decide (k = id)
    then (fun c => set_thread (f (thread c)) c) <$> mConnections s !! id
    else mConnections s !! k.
Proof.
  unfold on_thread. destruct (mConnections s !! id) as [c|] eqn:E.
  - cbn. rewrite lookup_insert. repeat case_decide; by subst.
  - case_decide; by subst.
Qed.

Lemma connections_persist_refl (s : State) : connections_persist s s.
Proof. intros k c E. by exists c. Qed.

Lemma connections_persist_trans (s1 s2 s3 : State) :
  connections_persist s1 s2 -> connections_persist s2 s3 -> connections_persist s1 s3.
Proof.
  intros H12 H23 k c E. destruct (H12 k c E) as (c2 & E2 & Hh & He).
  destruct (H23 k c2 E2) as (c3 & E3 & Hh3 & He3).
  exists c3. split; [done|]. split; congruence.
Qed.

Lemma on_thread_persist (id : Z) (f : T -> T) (s : State) :
  connections_persist s (on_thread id f s).
Proof.
  intros k c E. rewrite on_thread_lookup. case_decide as Hk.
  - subst k. rewrite E. cbn. by eexists.
  - by exists c.
Qed.

Lemma createConnection_persist (n : string) (p : Z) (r i : Cb) (s : State) :
  connections_persist s (snd (createConnection n p r i s)).
Proof.
  intros k c E. unfold createConnection.
  destruct (EventThread.createEventConnection _) as [ec th]. cbn.
  unfold map_insert_new. destruct (mConnections s !! sNextId s) eqn:Es.
  - by exists c.
  - exists c. rewrite lookup_insert_ne; [done|]. intros <-. congruence.
Qed.

Lemma call_persist (c : Call Cb) (s : State) :
  connections_persist s (snd (call ARRAY_SIZE c s)).
Proof.
  destruct (registry_call c) eqn:Ec.
  - destruct c; try discriminate Ec; cbn [call snd].
    + pose proof (createConnection_persist connectionName phaseOffsetNs
                    resyncCallback interceptCallback s) as Hp.
      by destruct (createConnection _ _ _ _ s).
    + unfold createDisplayEventConnection.
      destruct (invalid handle0 s), handle0 as [id|];
        try apply connections_persist_refl.
      destruct (mConnections s !! id); [|apply connections_persist_refl].
      destruct (EventThread.createEventConnection _). apply on_thread_persist.
    + unfold hotplugReceived.
      destruct (invalid handle0 s), handle0;
        auto using connections_persist_refl, on_thread_persist.
    + unfold onScreenAcquired.
      destruct (invalid handle0 s), handle0;
        auto using connections_persist_refl, on_thread_persist.
    + unfold onScreenReleased.
      destruct (invalid handle0 s), handle0;
        auto using connections_persist_refl, on_thread_persist.
    + unfold setPhaseOffset.
      destruct (invalid handle0 s), handle0;
        auto using connections_persist_refl, on_thread_persist.
  - destruct (call_footprint ARRAY_SIZE c s) as (Hr & _).
    specialize (Hr Ec). unfold registry_part in Hr. injection Hr as _ Hm.
    intros k conn E. exists conn. by rewrite Hm.
Qed.

(** X3: no call removes a connection. After any sequence of calls every
    connection that was registered is still registered under its id, with
    the handle and the event connection it had (its thread may have been
    told things); so a handle that was valid stays valid. *)
Theorem connections_never_removed (cs : list (Call Cb)) (s : State) :
  connections_persist s (snd (calls ARRAY_SIZE cs s)) /\
  (forall h, invalid h s = false -> invalid h (snd (calls ARRAY_SIZE cs s)) = false).
Proof.
  assert (Hp : connections_persist s (snd (calls ARRAY_SIZE cs s))).
  { revert s. induction cs as [|c cs IH]; intros s; [apply connections_persist_refl|].
    destruct (calls_cons ARRAY_SIZE c cs s) as [_ ->].
    eapply connections_persist_trans; [apply call_persist|apply IH]. }
  split; [exact Hp|].
  intros [id|]; [|discriminate]. unfold invalid.
  destruct (mConnections s !! id) as [c|] eqn:E; [|discriminate].
  intros _. destruct (Hp id c E) as (c' & -> & _). done.
Qed.

(** X4: a call with the handle of a registered connection is forwarded to
    the thread of that connection: the three calls that return a pointer
    return a non-null one taken from that connection, the connection stays
    under its id with its handle and event connection, its thread is left
    as the [EventThread] operation of the call leaves it, and every other
    connection, the id counter, the members of the frame pacing analysis
    and the hardware-vsync members that only the scheduler holds are as
    they were. *)
Theorem valid_handle_reaches_own_thread
    (id : Z) (c : HandleCall) (conn : Connection T C) (s : State) :
  mConnections s !! id = Some conn ->
  fst (handle_call (Some id) c s) = result_for c conn /\
  mConnections (snd (handle_call (Some id) c s)) =
    <[id := set_thread (thread_after c (thread conn)) conn]> (mConnections s) /\
  (forall k, k <> id ->
     mConnections (snd (handle_call (Some id) c s)) !! k = mConnections s !! k) /\
  sNextId (snd (handle_call (Some id) c s)) = sNextId s /\
  hw_own_part (snd (handle_call (Some id) c s)) = hw_own_part s /\
  analyzer_part (snd (handle_call (Some id) c s)) = analyzer_part s.
Proof.
  intros E.
  assert (Hv : invalid (Some id) s = false) by (unfold invalid; by rewrite E).
  assert (Hsame : set_mConnections (<[id := set_thread (thread conn) conn]> (mConnections s)) s = s).
  { rewrite set_thread_same, insert_id by done. by destruct s. }
  assert (Hcall : handle_call (Some id) c s =
                  (result_for c conn,
                   set_mConnections
                     (<[id := set_thread (thread_after c (thread conn)) conn]>
                        (mConnections s)) s)).
  { destruct c; cbn [handle_call result_for thread_after];
      unfold createDisplayEventConnection, getEventThread, getEventConnection,
        hotplugReceived, onScreenAcquired, onScreenReleased, setPhaseOffset, dump;
      rewrite Hv, ?E; cbn [fmap option_fmap option_map];
      rewrite ?Hsame, ?(on_thread_found id _ conn s E); try reflexivity.
    destruct (EventThread.createEventConnection (thread conn)) as [ec th].
    by rewrite (on_thread_found id _ conn s E). }
  rewrite Hcall. cbn [fst snd]. split; [done|]. split; [by destruct s|].
  split; [|by destruct s].
  intros k Hk. destruct s; cbn. by rewrite lookup_insert_ne.
Qed.

End RegistryLifecycle.

(** ** New connections and the members calls leave alone *)

Section RegistryGrowth.

Context {D T C Cb : Type}.
Context `{!DispSync.Ops D} `{!EventThread.Ops T C Cb}.
Variable ARRAY_SIZE : Z.

Abbreviation State := (Scheduler D T C).

(** A key of the registry after a call was a key before it, or is the id a
    [createConnection] has just taken from the counter. *)
Lemma call_keys (c : Call Cb) (s : State) (k : Z) :
  is_Some (mConnections (snd (call ARRAY_SIZE c s)) !! k) ->
  is_Some (mConnections s !! k) \/ (is_create c = true /\ k = sNextId s).
Proof.
  destruct (registry_call c) eqn:Ec.
  - destruct c; try discriminate Ec; cbn [call snd is_create].
    + unfold createConnection.
      destruct (EventThread.createEventConnection _) as [ec th]. cbn.
      unfold map_insert_new. destruct (mConnections s !! sNextId s) eqn:Es; [by left|].
      rewrite lookup_insert. case_decide; [by right|by left].
    + unfold createDisplayEventConnection.
      destruct (invalid handle0 s), handle0 as [id|]; try by left.
      destruct (mConnections s !! id) eqn:Ei; [|by left].
      destruct (EventThread.createEventConnection _). cbn [snd].
      rewrite on_thread_lookup. case_decide; [subst; rewrite Ei|]; by left.
    + unfold hotplugReceived.
      destruct (invalid handle0 s), handle0 as [id|]; try by left.
      rewrite on_thread_lookup. case_decide; [subst k|by left].
      destruct (mConnections s !! id); [by left|]. by intros [? [=]].
    + unfold onScreenAcquired.
      destruct (invalid handle0 s), handle0 as [id|]; try by left.
      rewrite on_thread_lookup. case_decide; [subst k|by left].
      destruct (mConnections s !! id); [by left|]. by intros [? [=]].
    + unfold onScreenReleased.
      destruct (invalid handle0 s), handle0 as [id|]; try by left.
      rewrite on_thread_lookup. case_decide; [subst k|by left].
      destruct (mConnections s !! id); [by left|]. by intros [? [=]].
    + unfold setPhaseOffset.
      destruct (invalid handle0 s), handle0 as [id|]; try by left.
      rewrite on_thread_lookup. case_decide; [subst k|by left].
      destruct (mConnections s !! id); [by left|]. by intros [? [=]].
  - destruct (call_footprint ARRAY_SIZE c s) as (Hr & _).
    specialize (Hr Ec). unfold registry_part in Hr. injection Hr as _ Hm.
    rewrite Hm. by left.
Qed.

Lemma call_counter (c : Call Cb) (s : State) :
  sNextId (snd (call ARRAY_SIZE c s)) =
    if is_create c then wrap64 (sNextId s + 1) else sNextId s.
Proof.
  destruct (is_create c) eqn:Ec.
  - destruct c; try discriminate Ec. cbn [call snd]. unfold createConnection.
    destruct (EventThread.createEventConnection _). by destruct s.
  - by apply call_registry_frame.
Qed.

(** While the counter has not wrapped, the keys of the registry lie between
    the counter's first value and its current one. *)
Lemma calls_keys_below (cs : list (Call Cb)) (s : State) (lo : Z) :
  in_int64 (sNextId s) ->
  lo <= sNextId s ->
  sNextId s + creations cs <= INT64_MAX ->
  (forall k, is_Some (mConnections s !! k) -> lo <= k < sNextId s) ->
  sNextId (snd (calls ARRAY_SIZE cs s)) = sNextId s + creations cs /\
  (forall k, is_Some (mConnections (snd (calls ARRAY_SIZE cs s)) !! k) ->
             lo <= k < sNextId s + creations cs).
Proof.
  revert s. induction cs as [|c cs IH]; intros s Hr Hlo Hb Hk.
  - cbn. unfold creations. cbn. rewrite Z.add_0_r. done.
  - destruct (calls_cons ARRAY_SIZE c cs s) as [_ ->].
    rewrite creations_cons in *. pose proof (creations_nonneg cs) as Hn.
    pose proof (call_counter c s) as Hc.
    assert (Hc' : sNextId (snd (call ARRAY_SIZE c s)) =
                  sNextId s + (if is_create c then 1 else 0)).
    { rewrite Hc. destruct (is_create c); [|lia].
      apply wrap64_small. unfold in_int64 in *. lia. }
    destruct (IH (snd (call ARRAY_SIZE c s))) as [E1 E2].
    + rewrite Hc'. unfold in_int64 in *. destruct (is_create c); lia.
    + rewrite Hc'. destruct (is_create c); lia.
    + rewrite Hc'. lia.
    + intros k Hk'. rewrite Hc'.
      destruct (call_keys c s k Hk') as [Hold | [Ecr ->]].
      * specialize (Hk k Hold). destruct (is_create c); lia.
      * rewrite Ecr. lia.
    + split; [rewrite E1, Hc'; lia|].
      intros k Hk'. specialize (E2 k Hk'). rewrite Hc' in E2. lia.
Qed.

(** The round trip of one [createConnection] whose id is not taken. *)
Lemma createConnection_found (n : string) (p : Z) (r i : Cb) (s : State) :
  mConnections s !! sNextId s = None ->
  let h := fst (createConnection n p r i s) in
  let s' := snd (createConnection n p r i s) in
  let fresh :=
    EventThread.createEventConnection
      (makeEventThread n (mPrimaryDispSync_get s) p r i) in
  h = Some (sNextId s) /\
  invalid h s' = false /\
  getEventThread h s' = Some (snd fresh) /\
  getEventConnection h s' = Some (fst fresh) /\
  (forall k, k <> sNextId s -> mConnections s' !! k = mConnections s !! k).
Proof.
  intros Es. cbv zeta. unfold createConnection, mPrimaryDispSync_get.
  destruct (EventThread.createEventConnection (makeEventThread n DispSync.primary p r i))
    as [ec th].
  cbn [fst snd]. unfold map_insert_new.
  replace (mConnections (set_sNextId (wrap64 (sNextId s + 1)) s))
    with (mConnections s) by (by destruct s).
  rewrite Es.
  replace (mConnections (set_mConnections _ _))
    with (<[sNextId s := mkConnection (sNextId s) ec th]> (mConnections s))
    by (by destruct s).
  rewrite lookup_insert_eq. cbn [fmap option_fmap option_map handle].
  split; [done|].
  unfold invalid, getEventThread, getEventConnection, invalid.
  replace (mConnections (set_mConnections _ _))
    with (<[sNextId s := mkConnection (sNextId s) ec th]> (mConnections s))
    by (by destruct s).
  rewrite lookup_insert_eq. cbn.
  repeat split. intros k Hk. by rewrite lookup_insert_ne.
Qed.

(** X2: in a scheduler used from its construction on, as long as the id
    counter has not passed [INT64_MAX], the handle [createConnection]
    returns is valid at once and resolves to what was just built: its id is
    the number of the connection ([nextId] plus the connections created
    before), [getEventThread] gives the new thread (as it is after handing
    out its first event connection), [getEventConnection] that event
    connection, and the connections registered before are untouched. *)
Theorem created_connection_is_found
    (nextId : Z) (dispSync : D) (before : list (Call Cb))
    (n : string) (p : Z) (r i : Cb) :
  in_int64 nextId ->
  nextId + creations before <= INT64_MAX ->
  let s : State :=
    snd (calls ARRAY_SIZE before (Scheduler_new ARRAY_SIZE nextId dispSync)) in
  let h := fst (createConnection n p r i s) in
  let s' := snd (createConnection n p r i s) in
  let fresh :=
    EventThread.createEventConnection
      (makeEventThread n (mPrimaryDispSync_get s) p r i) in
  h = Some (nextId + creations before) /\
  invalid h s' = false /\
  getEventThread h s' = Some (snd fresh) /\
  getEventConnection h s' = Some (fst fresh) /\
  (forall k, k <> nextId + creations before ->
     mConnections s' !! k = mConnections s !! k).
Proof.
  intros Hr Hb. cbv zeta.
  destruct (calls_keys_below before
              (Scheduler_new ARRAY_SIZE nextId dispSync : State) nextId)
    as [E1 E2]; try done.
  { intros k. cbn. rewrite lookup_empty. by intros [? [=]]. }
  cbn [sNextId Scheduler_new] in E1, E2.
  set (s := snd (calls ARRAY_SIZE before (Scheduler_new ARRAY_SIZE nextId dispSync))) in *.
  assert (Es : mConnections s !! sNextId s = None).
  { destruct (mConnections s !! sNextId s) eqn:Es; [|done].
    assert (nextId <= sNextId s < nextId + creations before) by (apply E2; by eexists).
    lia. }
  rewrite <- E1. by apply createConnection_found.
Qed.

(** X12: a sequence of calls changes a group of members only through the
    calls of that group. Without registry calls (createConnection and the
    calls with a handle) the id counter and the connections are as before;
    without analyzer calls (addFramePresentTimeForLayer,
    incrementFrameCounter) the layer history, the previous-frame timestamp,
    the ring buffer and its counter are as before; the registry and
    analyzer calls leave the two hardware-vsync flags, the hardware toggle
    and the skip count as they were; and the analyzer calls leave the
    timing model as it was too: the frame pacing analysis does not feed
    back into hardware vsync control. *)
Theorem calls_leave_other_members (cs : list (Call Cb)) (s : State) :
  (Forall (fun c => registry_call c = false) cs ->
     registry_part (snd (calls ARRAY_SIZE cs s)) = registry_part s) /\
  (Forall (fun c => analyzer_call c = false) cs ->
     analyzer_part (snd (calls ARRAY_SIZE cs s)) = analyzer_part s) /\
  (Forall (fun c => hw_call c = false) cs ->
     hw_own_part (snd (calls ARRAY_SIZE cs s)) = hw_own_part s) /\
  (Forall (fun c => analyzer_call c = true) cs ->
     hw_part (snd (calls ARRAY_SIZE cs s)) = hw_part s).
Proof.
  revert s. induction cs as [|c cs IH]; intros s; [done|].
  destruct (calls_cons ARRAY_SIZE c cs s) as [_ ->].
  destruct (call_footprint ARRAY_SIZE c s) as (H1 & H2 & H3).
  destruct (IH (snd (call ARRAY_SIZE c s))) as (I1 & I2 & I3 & I4).
  split; [|split; [|split]]; intros Hcs; apply Forall_cons in Hcs as [Hc Hcs].
  - by rewrite I1, H1.
  - by rewrite I2, H2.
  - rewrite I3 by done. specialize (H3 Hc). unfold hw_part in H3.
    unfold hw_own_part. congruence.
  - rewrite I4 by done. apply H3. unfold hw_call. rewrite Hc.
    by rewrite andb_false_r.
Qed.

End RegistryGrowth.

(** ** The ring buffer over the life of a scheduler *)

Section RingBuffer.

Context {D T C Cb : Type}.
Context `{!DispSync.Ops D} `{!EventThread.Ops T C Cb}.
Variable ARRAY_SIZE : Z.

Abbreviation State := (Scheduler D T C).

(** The ring buffer holds zeros (never written) and kept differences, and
    its counter is a [size_t]. *)
Local Abbreviation buffer_ok s :=
  (length (mTimeDifferences s) = Z.to_nat ARRAY_SIZE /\
   Forall (fun x => x = 0 \/ 10 <= x <= 100) (mTimeDifferences s) /\
   0 <= mCounter s < 2 ^ 64).

Lemma sampled_state_buffer (t : Z) (s : State) :
  mTimeDifferences (sampled_state ARRAY_SIZE t s) =
    <[Z.to_nat (mCounter s mod ARRAY_SIZE) := differenceMs t s]> (mTimeDifferences s) /\
  mCounter (sampled_state ARRAY_SIZE t s) = wrap_size_t (mCounter s + 1).
Proof. by destruct s. Qed.

(** What one call of the global analyzer does to the buffer and the counter:
    nothing, or one write of a kept difference. *)
Lemma determineTimestampAverage_buffer (a : bool) (t : Z) (s : State) :
  (mTimeDifferences (snd (determineTimestampAverage ARRAY_SIZE a t s)) = mTimeDifferences s /\
   mCounter (snd (determineTimestampAverage ARRAY_SIZE a t s)) = mCounter s) \/
  (a = false /\ 10 <= differenceMs t s <= 100 /\
   mTimeDifferences (snd (determineTimestampAverage ARRAY_SIZE a t s)) =
     <[Z.to_nat (mCounter s mod ARRAY_SIZE) := differenceMs t s]> (mTimeDifferences s) /\
   mCounter (snd (determineTimestampAverage ARRAY_SIZE a t s)) = wrap_size_t (mCounter s + 1)).
Proof.
  destruct (sampled_dec a t s) as [[-> Hd] | [-> | [-> Hn]]].
  - right. rewrite (determineTimestampAverage_sampled ARRAY_SIZE t s Hd). cbn [snd].
    destruct (sampled_state_buffer t s) as [-> ->]. done.
  - left. by rewrite determineTimestampAverage_auto.
  - left. rewrite (determineTimestampAverage_noise ARRAY_SIZE t s Hn). by destruct s.
Qed.

Lemma determineTimestampAverage_buffer_ok (a : bool) (t : Z) (s : State) :
  buffer_ok s -> buffer_ok (snd (determineTimestampAverage ARRAY_SIZE a t s)).
Proof.
  intros (Hl & Hf & Hc).
  destruct (determineTimestampAverage_buffer a t s)
    as [[-> ->] | (_ & Hd & -> & ->)]; [done|].
  split; [by rewrite length_insert|].
  split; [apply Forall_insert; [done|by right]|].
  unfold wrap_size_t. apply Z.mod_pos_bound. lia.
Qed.

Lemma call_buffer_ok (c : Call Cb) (s : State) :
  buffer_ok s -> buffer_ok (snd (call ARRAY_SIZE c s)).
Proof.
  intros Hs. destruct (analyzer_call c) eqn:Ec.
  - destruct c; try discriminate Ec; cbn [call snd].
    + rewrite addFramePresentTimeForLayer_split. cbn [snd].
      pose proof (determineTimestampAverage_buffer_ok isAutoTimestamp framePresentTime s Hs)
        as H1.
      destruct (determineLayerTimestampStats_outside layerName framePresentTime
                  (snd (determineTimestampAverage ARRAY_SIZE isAutoTimestamp
                          framePresentTime s))) as (_ & _ & _ & E1 & E2).
      by rewrite E1, E2.
    + by destruct s.
  - destruct (call_footprint ARRAY_SIZE c s) as (_ & Ha & _).
    specialize (Ha Ec). unfold analyzer_part in Ha. injection Ha as _ _ E1 E2.
    by rewrite E1, E2.
Qed.

(** X9: in a scheduler used from its construction on, the ring buffer of
    the global analyzer keeps its [ARRAY_SIZE] entries, each of them is 0
    (not yet written) or a difference between 10 and 100 ms, and the write
    counter is a [size_t] value. *)
Theorem time_differences_stay_in_band
    (nextId : Z) (dispSync : D) (cs : list (Call Cb)) :
  let s : State := snd (calls ARRAY_SIZE cs (Scheduler_new ARRAY_SIZE nextId dispSync)) in
  length (mTimeDifferences s) = Z.to_nat ARRAY_SIZE /\
  Forall (fun x => x = 0 \/ 10 <= x <= 100) (mTimeDifferences s) /\
  0 <= mCounter s < 2 ^ 64.
Proof.
  cbv zeta.
  enough (Hgen : forall s : State, buffer_ok s -> buffer_ok (snd (calls ARRAY_SIZE cs s))).
  { apply Hgen. cbn. rewrite length_replicate.
    split; [done|]. split; [|lia].
    apply Forall_replicate. by left. }
  induction cs as [|c cs IH]; intros s Hs; [done|].
  destruct (calls_cons ARRAY_SIZE c cs s) as [_ ->].
  by apply IH, call_buffer_ok.
Qed.

(** *** Frames at a constant rate *)

Lemma analyze_frames_length (ts : list Z) (s : State) :
  length (mTimeDifferences (analyze_frames ARRAY_SIZE ts s)) = length (mTimeDifferences s).
Proof.
  revert s. induction ts as [|t ts IH]; intros s; [done|].
  cbn [analyze_frames]. rewrite IH.
  destruct (determineTimestampAverage_buffer false t s)
    as [[-> _] | (_ & _ & -> & _)]; [done|apply length_insert].
Qed.

Lemma steady_frame (d t : Z) (s : State) :
  10 <= d <= 100 -> differenceMs t s = d ->
  mTimeDifferences (snd (determineTimestampAverage ARRAY_SIZE false t s)) =
    <[Z.to_nat (mCounter s mod ARRAY_SIZE) := d]> (mTimeDifferences s) /\
  mCounter (snd (determineTimestampAverage ARRAY_SIZE false t s)) =
    wrap_size_t (mCounter s + 1).
Proof.
  intros Hd Ed.
  rewrite (determineTimestampAverage_sampled ARRAY_SIZE t s) by (rewrite Ed; lia).
  cbn [snd]. destruct (sampled_state_buffer t s) as [-> ->]. by rewrite Ed.
Qed.

(** An entry that already holds [d] holds it after any steady run. *)
Lemma steady_rate_keeps (d : Z) (ts : list Z) (s : State) (i : nat) :
  10 <= d <= 100 -> steady_rate ARRAY_SIZE d ts s ->
  mTimeDifferences s !! i = Some d ->
  mTimeDifferences (analyze_frames ARRAY_SIZE ts s) !! i = Some d.
Proof.
  intros Hd. revert s. induction ts as [|t ts IH]; intros s Hst Hi; [done|].
  destruct Hst as [Ed Hst]. cbn [analyze_frames]. apply IH; [done|].
  destruct (steady_frame d t s Hd Ed) as [-> _].
  destruct (decide (i = Z.to_nat (mCounter s mod ARRAY_SIZE))) as [->|Hne].
  - apply list_lookup_insert_eq. by eapply lookup_lt_Some.
  - by rewrite list_lookup_insert_ne.
Qed.

(** The entries a steady run writes: one per frame, at consecutive
    positions. *)
Lemma steady_rate_writes (d : Z) (ts : list Z) (s : State) :
  10 <= d <= 100 -> 0 < ARRAY_SIZE ->
  length (mTimeDifferences s) = Z.to_nat ARRAY_SIZE ->
  0 <= mCounter s ->
  mCounter s + Z.of_nat (length ts) <= 2 ^ 64 ->
  steady_rate ARRAY_SIZE d ts s ->
  forall j, 0 <= j < Z.of_nat (length ts) ->
    mTimeDifferences (analyze_frames ARRAY_SIZE ts s)
      !! Z.to_nat ((mCounter s + j) mod ARRAY_SIZE) = Some d.
Proof.
  intros Hd Hn. revert s. induction ts as [|t ts IH]; intros s Hl Hc Hb Hst j Hj.
  - cbn in Hj. lia.
  - destruct Hst as [Ed Hst]. cbn [analyze_frames].
    destruct (steady_frame d t s Hd Ed) as [Eb Ec].
    cbn [length] in Hb, Hj.
    destruct (Z.eq_dec j 0) as [->|Hj0].
    + apply steady_rate_keeps; [done|done|].
      rewrite Eb, Z.add_0_r. apply list_lookup_insert_eq.
      rewrite Hl. pose proof (Z.mod_pos_bound (mCounter s) ARRAY_SIZE Hn). lia.
    + assert (Ec' : mCounter (snd (determineTimestampAverage ARRAY_SIZE false t s)) =
                    mCounter s + 1).
      { rewrite Ec. unfold wrap_size_t. apply Z.mod_small. lia. }
      replace (mCounter s + j) with (mCounter s + 1 + (j - 1)) by lia.
      rewrite <- Ec'. apply IH; try done.
      * by rewrite Eb, length_insert.
      * lia.
      * lia.
      * lia.
Qed.

(** X10: frames at a constant rate fill the ring buffer. After a run of at
    least [ARRAY_SIZE] frames with content timestamps whose difference, as
    the analyzer computes it, is each time the same [d] between 10 and 100
    ms, every entry of the buffer is [d], whatever it held before (the
    counter must not wrap during the run). *)
Theorem steady_rate_fills_buffer (d : Z) (ts : list Z) (s : State) :
  0 < ARRAY_SIZE ->
  length (mTimeDifferences s) = Z.to_nat ARRAY_SIZE ->
  0 <= mCounter s ->
  mCounter s + Z.of_nat (length ts) <= 2 ^ 64 ->
  10 <= d <= 100 ->
  ARRAY_SIZE <= Z.of_nat (length ts) ->
  steady_rate ARRAY_SIZE d ts s ->
  mTimeDifferences (analyze_frames ARRAY_SIZE ts s) = replicate (Z.to_nat ARRAY_SIZE) d.
Proof.
  intros Hn Hl Hc Hb Hd Hlen Hst. apply list_eq. intros i.
  destruct (decide (i < Z.to_nat ARRAY_SIZE)%nat) as [Hi|Hi].
  - rewrite lookup_replicate_2 by done.
    set (j := (Z.of_nat i - mCounter s) mod ARRAY_SIZE).
    pose proof (Z.mod_pos_bound (Z.of_nat i - mCounter s) ARRAY_SIZE Hn) as Hj.
    assert (Ei : Z.to_nat ((mCounter s + j) mod ARRAY_SIZE) = i).
    { unfold j. rewrite Zplus_mod_idemp_r.
      replace (mCounter s + (Z.of_nat i - mCounter s)) with (Z.of_nat i) by lia.
      rewrite Z.mod_small by lia. lia. }
    rewrite <- Ei. apply steady_rate_writes; try done. fold j. lia.
  - rewrite !(proj2 (lookup_ge_None _ _)); [done| |].
    + rewrite length_replicate. lia.
    + rewrite analyze_frames_length, Hl. lia.
Qed.

End RingBuffer.

(** ** What the per-layer walk reads *)

Section LayerWalk.

Context {D T C : Type}.
Variable ARRAY_SIZE : Z.

Abbreviation State := (Scheduler D T C).

Lemma walk_history_entries (layerName : string) (h : LayerHistory.t)
    (newest : Z) (acc : list Z) :
  walk_history layerName h (newest, acc) =
    (List.last (layer_entries layerName (tail h)) newest,
     acc ++ List.filter in_layer_band
              (consecutive_diffs newest (layer_entries layerName (tail h)))).
Proof. by rewrite walk_history_slots, walk_slots. Qed.

Lemma slot_entries_other (layerName other : string) (t : Z)
    (slot1 slot2 : LayerHistory.Slot) :
  other <> layerName ->
  slot_entries layerName (slot1 ++ (other, t) :: slot2) =
    slot_entries layerName (slot1 ++ slot2).
Proof.
  intros Hne. unfold slot_entries. rewrite !List.filter_app. cbn [List.filter fst].
  by rewrite (proj2 (String.eqb_neq other layerName) Hne).
Qed.

(** X13: the walk of [determineLayerTimestampStats] reads the entries of its
    own layer in the slots behind the current one, and nothing else. What
    the current slot holds does not matter (the loop starts at index 1), an
    entry of another layer in any slot does not matter, and when the layer
    has no entry behind the current slot (its first frame) the walk leaves
    its state as it is and no sample is emitted. *)
Theorem walk_reads_own_layer_only
    (layerName other : string) (t : Z) (st : Z * list Z)
    (current current' slot1 slot2 : LayerHistory.Slot)
    (newer older : list LayerHistory.Slot) (s : State) :
  walk_history layerName (current :: older) st =
    walk_history layerName (current' :: older) st /\
  (other <> layerName ->
   walk_history layerName (current :: newer ++ (slot1 ++ (other, t) :: slot2) :: older) st =
     walk_history layerName (current :: newer ++ (slot1 ++ slot2) :: older) st) /\
  (layer_entries layerName (tail (mLayerHistory s)) = [] ->
   walk_history layerName (mLayerHistory s) st = st /\
   fst (determineLayerTimestampStats layerName t s) = []).
Proof.
  destruct st as [newest acc]. split; [|split].
  - by rewrite !walk_history_entries.
  - intros Hne. rewrite !walk_history_entries. cbn [tail].
    unfold layer_entries. rewrite !flat_map_app. cbn [flat_map].
    by rewrite slot_entries_other.
  - intros He. split.
    + rewrite walk_history_entries, He. cbn. by rewrite app_nil_r.
    + rewrite determineLayerTimestampStats_spec. cbn [fst].
      rewrite layer_differences_spec, He. reflexivity.
Qed.

(** X11: the per-layer analysis does not look at [isAutoTimestamp]. A frame
    with an automatic timestamp leaves the global analyzer alone (previous
    timestamp, ring buffer and counter as they were) and is recorded in the
    layer history all the same; whatever the flag, the samples of the layer
    follow those of the global analyzer in the trace and are those of the
    layer's differences. *)
Theorem automatic_timestamps_reach_layer_history
    (t : Z) (isAutoTimestamp : bool) (layerName : string) (s : State) :
  let tr := fst (addFramePresentTimeForLayer ARRAY_SIZE t isAutoTimestamp layerName s) in
  let s' := snd (addFramePresentTimeForLayer ARRAY_SIZE t isAutoTimestamp layerName s) in
  mLayerHistory s' = LayerHistory.insert layerName t (mLayerHistory s) /\
  tr = fst (determineTimestampAverage ARRAY_SIZE isAutoTimestamp t s) ++
       layer_stats_trace layerName (layer_differences layerName t s) /\
  (isAutoTimestamp = true ->
     tr = ATRACE_INT "AutoTimestamp" 1 ::
          layer_stats_trace layerName (layer_differences layerName t s) /\
     mPreviousFrameTimestamp s' = mPreviousFrameTimestamp s /\
     mTimeDifferences s' = mTimeDifferences s /\
     mCounter s' = mCounter s).
Proof.
  cbv zeta. rewrite addFramePresentTimeForLayer_split. cbn [fst snd].
  rewrite determineLayerTimestampStats_spec. cbn [fst snd].
  assert (Eh : mLayerHistory (snd (determineTimestampAverage ARRAY_SIZE isAutoTimestamp t s)) =
               mLayerHistory s).
  { unfold determineTimestampAverage. repeat case_match; by destruct s. }
  assert (Ed : layer_differences layerName t
                 (snd (determineTimestampAverage ARRAY_SIZE isAutoTimestamp t s)) =
               layer_differences layerName t s).
  { unfold layer_differences. by rewrite Eh. }
  rewrite Ed, Eh. split; [by destruct (snd _)|]. split; [done|].
  intros ->. rewrite determineTimestampAverage_auto. cbn [fst snd app].
  split; [done|]. by destruct s.
Qed.

End LayerWalk.

(** ** The transition table of hardware vsync control *)

Section TransitionTable.

Context {D T C Cb : Type}.
Context `{!DispSync.Ops D} `{!EventThread.Ops T C Cb}.
Variable ARRAY_SIZE : Z.

Abbreviation State := (Scheduler D T C).

Lemma enableHardwareVsync_table (s : State) :
  mPrimaryHWVsyncEnabled (enableHardwareVsync s) =
    mPrimaryHWVsyncEnabled s || mHWVsyncAvailable s /\
  mHWVsyncAvailable (enableHardwareVsync s) = mHWVsyncAvailable s /\
  mEventControlThread (enableHardwareVsync s) =
    mEventControlThread s ++
    (if Bool.eqb (mPrimaryHWVsyncEnabled (enableHardwareVsync s)) (mPrimaryHWVsyncEnabled s)
     then [] else [mPrimaryHWVsyncEnabled (enableHardwareVsync s)]).
Proof.
  unfold enableHardwareVsync.
  destruct s as [? ? en av ? ect ? ? ? ? ?]; cbn.
  destruct en, av; cbn; by rewrite ?app_nil_r.
Qed.

Lemma disableHardwareVsync_table (b : bool) (s : State) :
  mPrimaryHWVsyncEnabled (disableHardwareVsync b s) = false /\
  mHWVsyncAvailable (disableHardwareVsync b s) = mHWVsyncAvailable s && negb b /\
  mEventControlThread (disableHardwareVsync b s) =
    mEventControlThread s ++
    (if Bool.eqb (mPrimaryHWVsyncEnabled (disableHardwareVsync b s))
                 (mPrimaryHWVsyncEnabled s)
     then [] else [mPrimaryHWVsyncEnabled (disableHardwareVsync b s)]).
Proof.
  unfold disableHardwareVsync.
  destruct s as [? ? en av ? ect ? ? ? ? ?]; cbn.
  destruct en, av, b; cbn; by rewrite ?app_nil_r.
Qed.

Lemma set_mPrimaryDispSync_flags (d : D) (s : State) :
  mPrimaryHWVsyncEnabled (set_mPrimaryDispSync d s) = mPrimaryHWVsyncEnabled s /\
  mHWVsyncAvailable (set_mPrimaryDispSync d s) = mHWVsyncAvailable s /\
  mEventControlThread (set_mPrimaryDispSync d s) = mEventControlThread s.
Proof. by destruct s. Qed.

(** X15: the transition table of the two flags. [enableHardwareVsync] and
    [setVsyncPeriod] leave hardware vsync enabled exactly when it was
    enabled or is available; [disableHardwareVsync] leaves it disabled, and
    available only if it was and [makeUnavailable] is false;
    [addResyncSample] leaves it enabled exactly when it was enabled and
    [DispSync] asks for more samples; [addPresentFence] exactly when
    [DispSync] asks for more and it was enabled or is available;
    [makeHWSyncAvailable] stores its argument and leaves the enabled flag.
    Only [disableHardwareVsync] and [makeHWSyncAvailable] change
    availability. *)
Theorem hardware_vsync_transition_table (b : bool) (p t f : Z) (s : State) :
  let en := mPrimaryHWVsyncEnabled s in
  let av := mHWVsyncAvailable s in
  let flags (s' : State) := (mPrimaryHWVsyncEnabled s', mHWVsyncAvailable s') in
  flags (enableHardwareVsync s) = (en || av, av) /\
  flags (disableHardwareVsync b s) = (false, av && negb b) /\
  flags (setVsyncPeriod p s) = (en || av, av) /\
  flags (addResyncSample t s) =
    (en && fst (DispSync.addResyncSample t (mPrimaryDispSync s)), av) /\
  flags (addPresentFence f s) =
    (fst (DispSync.addPresentFence f (mPrimaryDispSync s)) && (en || av), av) /\
  flags (makeHWSyncAvailable b s) = (en, b).
Proof.
  cbv zeta. split_and!.
  - destruct (enableHardwareVsync_table s) as (-> & -> & _). done.
  - destruct (disableHardwareVsync_table b s) as (-> & -> & _). done.
  - unfold setVsyncPeriod.
    destruct (enableHardwareVsync_table
                (set_mPrimaryDispSync
                   (DispSync.setPeriod p
                      (mPrimaryDispSync
                         (set_mPrimaryDispSync (DispSync.reset (mPrimaryDispSync s)) s)))
                   (set_mPrimaryDispSync (DispSync.reset (mPrimaryDispSync s)) s)))
      as (-> & -> & _).
    by destruct s.
  - unfold addResyncSample, addResyncSample_locked.
    destruct (mPrimaryHWVsyncEnabled s) eqn:En.
    + destruct (DispSync.addResyncSample t (mPrimaryDispSync s)) as [[] d]; cbn [fst].
      * destruct (enableHardwareVsync_table (set_mPrimaryDispSync d s)) as (-> & -> & _).
        destruct s; cbn in *. by subst.
      * destruct (disableHardwareVsync_table false (set_mPrimaryDispSync d s))
          as (-> & -> & _).
        destruct s; cbn in *. by rewrite andb_true_r.
    + destruct (disableHardwareVsync_table false s) as (-> & -> & _).
      by rewrite andb_true_r.
  - unfold addPresentFence.
    destruct (DispSync.addPresentFence f (mPrimaryDispSync s)) as [[] d]; cbn [fst].
    + destruct (enableHardwareVsync_table (set_mPrimaryDispSync d s)) as (-> & -> & _).
      by destruct s.
    + destruct (disableHardwareVsync_table false (set_mPrimaryDispSync d s))
        as (-> & -> & _).
      destruct s; cbn. by rewrite andb_true_r.
  - by destruct s.
Qed.

Lemma told_same (log : list bool) (en : bool) :
  log = log ++ (if Bool.eqb en en then [] else [en]).
Proof. rewrite Bool.eqb_reflx. by rewrite app_nil_r. Qed.

(** X14: the hardware toggle is told exactly the changes of the enabled
    flag. Whatever the call, the toggle receives one request, the new value
    of the flag, when the call changes the flag, and none when it does
    not. *)
Theorem toggle_told_exactly_the_changes (c : Call Cb) (s : State) :
  let s' := snd (call ARRAY_SIZE c s) in
  mEventControlThread s' =
    mEventControlThread s ++
    (if Bool.eqb (mPrimaryHWVsyncEnabled s') (mPrimaryHWVsyncEnabled s)
     then [] else [mPrimaryHWVsyncEnabled s']).
Proof.
  cbv zeta. destruct (hw_call c) eqn:Ehw.
  - destruct c; try discriminate Ehw; cbn [call snd].
    + apply enableHardwareVsync_table.
    + apply disableHardwareVsync_table.
    + unfold setVsyncPeriod.
      match goal with |- context [enableHardwareVsync ?x] =>
        destruct (enableHardwareVsync_table x) as (_ & _ & ->);
        replace (mEventControlThread x) with (mEventControlThread s) by (by destruct s);
        replace (mPrimaryHWVsyncEnabled x) with (mPrimaryHWVsyncEnabled s) by (by destruct s)
      end. done.
    + unfold addResyncSample, addResyncSample_locked.
      destruct (mPrimaryHWVsyncEnabled s) eqn:En.
      * destruct (DispSync.addResyncSample timestamp (mPrimaryDispSync s)) as [[] d].
        -- destruct (enableHardwareVsync_table (set_mPrimaryDispSync d s)) as (_ & _ & ->).
           destruct (set_mPrimaryDispSync_flags d s) as (-> & _ & ->). by rewrite En.
        -- destruct (disableHardwareVsync_table false (set_mPrimaryDispSync d s))
             as (_ & _ & ->).
           destruct (set_mPrimaryDispSync_flags d s) as (-> & _ & ->). by rewrite En.
      * destruct (disableHardwareVsync_table false s) as (_ & _ & ->). by rewrite En.
    + unfold addPresentFence.
      destruct (DispSync.addPresentFence fenceTime (mPrimaryDispSync s)) as [[] d].
      * destruct (enableHardwareVsync_table (set_mPrimaryDispSync d s)) as (_ & _ & ->).
        by destruct (set_mPrimaryDispSync_flags d s) as (-> & _ & ->).
      * destruct (disableHardwareVsync_table false (set_mPrimaryDispSync d s))
          as (_ & _ & ->).
        by destruct (set_mPrimaryDispSync_flags d s) as (-> & _ & ->).
    + destruct (set_mPrimaryDispSync_flags
                  (DispSync.setIgnorePresentFences ignore (mPrimaryDispSync s)) s)
        as (E1 & _ & E2).
      unfold setIgnorePresentFences. rewrite E1, E2. apply told_same.
    + replace (mEventControlThread (makeHWSyncAvailable makeAvailable s))
        with (mEventControlThread s) by (by destruct s).
      replace (mPrimaryHWVsyncEnabled (makeHWSyncAvailable makeAvailable s))
        with (mPrimaryHWVsyncEnabled s) by (by destruct s).
      apply told_same.
    + unfold updateFrameSkipping. case_match; cbn [snd]; [apply told_same|].
      match goal with |- mEventControlThread ?x = _ =>
        replace (mEventControlThread x) with (mEventControlThread s) by (by destruct s);
        replace (mPrimaryHWVsyncEnabled x) with (mPrimaryHWVsyncEnabled s) by (by destruct s)
      end. apply told_same.
  - destruct (call_footprint ARRAY_SIZE c s) as (_ & _ & Hhw).
    destruct (hw_part_inv _ _ (Hhw Ehw)) as (-> & _ & -> & _). apply told_same.
Qed.

End TransitionTable.

(** ** The properties above at concrete schedulers *)

Lemma created_connection_is_found_witness :
  let before : list (Call unit) :=
    [CreateConnection "app" 1000000 tt tt; EnableHardwareVsync] in
  let s := snd (calls 8 before (test_scheduler 8 0 [])) in
  in_int64 0 /\
  0 + creations before <= INT64_MAX /\
  fst (createConnection "sf" 6000000 tt tt s) = Some 1 /\
  invalid (Some 1) (snd (createConnection "sf" 6000000 tt tt s)) = false /\
  getEventConnection (Some 1) (snd (createConnection "sf" 6000000 tt tt s)) =
    Some ("sfThread", 0%nat).
Proof.
  cbv zeta.
  assert (H1 : in_int64 0) by (vm_compute; split; discriminate).
  assert (H2 : 0 + creations [CreateConnection "app" 1000000 tt tt;
                              EnableHardwareVsync (Cb := unit)] <= INT64_MAX)
    by (vm_compute; discriminate).
  destruct (created_connection_is_found 8 0 (RecordingDispSync.make [])
              [CreateConnection "app" 1000000 tt tt; EnableHardwareVsync]
              "sf" 6000000 tt tt H1 H2) as (E1 & E2 & _ & E4 & _).
  split; [exact H1|]. split; [exact H2|]. split; [exact E1|].
  rewrite E1 in E2, E4. split; [exact E2|exact E4].
Defined.

Lemma connections_never_removed_witness :
  let cs : list (Call unit) :=
    [HotplugReceived (Some 0) 0 true; DisableHardwareVsync true;
     CreateConnection "injector" 0 tt tt; OnScreenReleased (Some 1)] in
  invalid (Some 1) two_connections = false /\
  invalid (Some 1) (snd (calls 8 cs two_connections)) = false.
Proof.
  cbv zeta.
  assert (H1 : invalid (Some 1) two_connections = false) by (vm_compute; reflexivity).
  split; [exact H1|].
  exact (proj2 (connections_never_removed 8
                  [HotplugReceived (Some 0) 0 true; DisableHardwareVsync true;
                   CreateConnection "injector" 0 tt tt; OnScreenReleased (Some 1)]
                  two_connections) (Some 1) H1).
Defined.

Lemma valid_handle_reaches_own_thread_witness :
  mConnections two_connections !! 1 = Some sf_connection /\
  mConnections (snd (handle_call (Cb := unit) (Some 1) (CallSetPhaseOffset 5)
                       two_connections)) =
    <[1 := set_thread (EventThread.setPhaseOffset (Cb := unit) 5 (thread sf_connection))
             sf_connection]> (mConnections two_connections) /\
  mConnections (snd (handle_call (Cb := unit) (Some 1) (CallSetPhaseOffset 5)
                       two_connections)) !! 0 =
    mConnections two_connections !! 0.
Proof.
  assert (H1 : mConnections two_connections !! 1 = Some sf_connection)
    by (vm_compute; reflexivity).
  destruct (valid_handle_reaches_own_thread (Cb := unit) 1 (CallSetPhaseOffset 5)
              sf_connection two_connections H1) as (_ & E1 & E2 & _).
  split; [exact H1|]. split; [exact E1|]. apply E2. discriminate.
Defined.

Lemma unavailable_blocks_enabling_witness :
  let cs : list (Call unit) :=
    [EnableHardwareVsync; AddPresentFence 7; SetVsyncPeriod 16666666;
     MakeHWSyncAvailable false; AddResyncSample 100] in
  Forall (fun c => c <> MakeHWSyncAvailable true) cs /\
  Forall (fun s' => mPrimaryHWVsyncEnabled s' = false /\
                    mHWVsyncAvailable s' = false /\
                    mEventControlThread s' = [true; false])
         (states 8 cs (disableHardwareVsync true resyncing_scheduler)).
Proof.
  cbv zeta.
  assert (H1 : Forall (fun c : Call unit => c <> MakeHWSyncAvailable true)
                 [EnableHardwareVsync; AddPresentFence 7; SetVsyncPeriod 16666666;
                  MakeHWSyncAvailable false; AddResyncSample 100])
    by (repeat constructor; discriminate).
  split; [exact H1|].
  exact (proj2 (proj2 (unavailable_blocks_enabling 8 resyncing_scheduler _ H1))).
Defined.

Lemma resync_sample_locked_disables_witness :
  mPrimaryHWVsyncEnabled locking_scheduler = true /\
  fst (DispSync.addResyncSample 100 (mPrimaryDispSync locking_scheduler)) = false /\
  mPrimaryHWVsyncEnabled (addResyncSample 100 locking_scheduler) = false /\
  mEventControlThread (addResyncSample 100 locking_scheduler) = [true; false] /\
  addResyncSample 200 (addResyncSample 100 locking_scheduler) =
    addResyncSample 100 locking_scheduler.
Proof.
  assert (H1 : mPrimaryHWVsyncEnabled locking_scheduler = true) by reflexivity.
  assert (H2 : fst (DispSync.addResyncSample 100 (mPrimaryDispSync locking_scheduler)) = false)
    by reflexivity.
  destruct (resync_sample_locked_disables 100 locking_scheduler H1 H2)
    as (E1 & _ & E3 & _ & _ & _ & E7).
  split; [exact H1|]. split; [exact H2|]. split; [exact E1|]. split; [exact E3|].
  apply E7.
Defined.

Lemma steady_rate_fills_buffer_witness :
  let s := test_scheduler 8 0 [] in
  let ts := frame_times 33 9 in
  0 < 8 /\
  length (mTimeDifferences s) = Z.to_nat 8 /\
  0 <= mCounter s /\
  mCounter s + Z.of_nat (length ts) <= 2 ^ 64 /\
  10 <= 33 <= 100 /\
  8 <= Z.of_nat (length ts) /\
  steady_rate 8 33 ts s /\
  mTimeDifferences (analyze_frames 8 ts s) = replicate (Z.to_nat 8) 33.
Proof.
  cbv zeta.
  assert (H1 : 0 < 8) by lia.
  assert (H2 : length (mTimeDifferences (test_scheduler 8 0 [])) = Z.to_nat 8)
    by reflexivity.
  assert (H3 : 0 <= mCounter (test_scheduler 8 0 [])) by (vm_compute; discriminate).
  assert (H4 : mCounter (test_scheduler 8 0 []) + Z.of_nat (length (frame_times 33 9))
               <= 2 ^ 64) by (vm_compute; discriminate).
  assert (H5 : 10 <= 33 <= 100) by lia.
  assert (H6 : 8 <= Z.of_nat (length (frame_times 33 9))) by (vm_compute; discriminate).
  assert (H7 : steady_rate 8 33 (frame_times 33 9) (test_scheduler 8 0 []))
    by (vm_compute; repeat split).
  repeat (split; [assumption|]).
  exact (steady_rate_fills_buffer 8 33 (frame_times 33 9) (test_scheduler 8 0 [])
           H1 H2 H3 H4 H5 H6 H7).
Defined.

Lemma automatic_timestamps_reach_layer_history_witness :
  let s := three_frames_presented "A" (test_scheduler 8 0 []) in
  fst (addFramePresentTimeForLayer 8 (49 * NS_PER_MS) true "A" s) =
    ATRACE_INT "AutoTimestamp" 1 ::
    layer_stats_trace "A" (layer_differences "A" (49 * NS_PER_MS) s) /\
  mTimeDifferences (snd (addFramePresentTimeForLayer 8 (49 * NS_PER_MS) true "A" s)) =
    mTimeDifferences s.
Proof.
  cbv zeta.
  destruct (automatic_timestamps_reach_layer_history 8 (49 * NS_PER_MS) true "A"
              (three_frames_presented "A" (test_scheduler 8 0 [])))
    as (_ & _ & Hauto).
  destruct (Hauto eq_refl) as (E1 & _ & E3 & _).
  split; [exact E1|exact E3].
Defined.

Lemma calls_leave_other_members_witness :
  let cs : list (Call unit) :=
    [AddFramePresentTimeForLayer (16 * NS_PER_MS) false "A"; IncrementFrameCounter;
     CreateConnection "app" 0 tt tt; HotplugReceived (Some 0) 0 true] in
  let frames : list (Call unit) :=
    [AddFramePresentTimeForLayer (16 * NS_PER_MS) false "A"; IncrementFrameCounter] in
  Forall (fun c => hw_call c = false) cs /\
  hw_own_part (snd (calls 8 cs resyncing_scheduler)) = hw_own_part resyncing_scheduler /\
  Forall (fun c => analyzer_call c = true) frames /\
  hw_part (snd (calls 8 frames resyncing_scheduler)) = hw_part resyncing_scheduler.
Proof.
  cbv zeta.
  assert (H1 : Forall (fun c : Call unit => hw_call c = false)
                 [AddFramePresentTimeForLayer (16 * NS_PER_MS) false "A";
                  IncrementFrameCounter; CreateConnection "app" 0 tt tt;
                  HotplugReceived (Some 0) 0 true])
    by (repeat constructor).
  assert (H2 : Forall (fun c : Call unit => analyzer_call c = true)
                 [AddFramePresentTimeForLayer (16 * NS_PER_MS) false "A";
                  IncrementFrameCounter])
    by (repeat constructor).
  split; [exact H1|].
  split; [exact (proj1 (proj2 (proj2 (calls_leave_other_members 8 _ resyncing_scheduler))) H1)|].
  split; [exact H2|].
  exact (proj2 (proj2 (proj2 (calls_leave_other_members 8 _ resyncing_scheduler))) H2).
Defined.

Lemma walk_reads_own_layer_only_witness :
  "B"%string <> "A"%string /\
  walk_history "A" [[]; [("A", 33 * NS_PER_MS)]; [("B", 20 * NS_PER_MS); ("A", 16 * NS_PER_MS)]]
    (49 * NS_PER_MS, []) =
  walk_history "A" [[]; [("A", 33 * NS_PER_MS)]; [("A", 16 * NS_PER_MS)]]
    (49 * NS_PER_MS, []) /\
  layer_entries "A" (tail (mLayerHistory (test_scheduler 8 0 []))) = [] /\
  fst (determineLayerTimestampStats "A" 0 (test_scheduler 8 0 [])) = [].
Proof.
  assert (H1 : "B"%string <> "A"%string) by discriminate.
  assert (H2 : layer_entries "A" (tail (mLayerHistory (test_scheduler 8 0 []))) = [])
    by reflexivity.
  destruct (walk_reads_own_layer_only "A" "B" (20 * NS_PER_MS) (49 * NS_PER_MS, [])
              [] [] [] [("A", 16 * NS_PER_MS)] [[("A", 33 * NS_PER_MS)]] []
              (test_scheduler 8 0 [])) as (_ & E2 & _).
  destruct (walk_reads_own_layer_only "A" "B" 0 (49 * NS_PER_MS, [])
              [] [] [] [] [] [] (test_scheduler 8 0 [])) as (_ & _ & E3).
  split; [exact H1|]. split; [exact (E2 H1)|]. split; [exact H2|].
  exact (proj2 (E3 H2)).
Defined.
